(** * Behavioural classifiers of fluxa-UI: a shallow embedding

    The three React hooks [useBehaviorProfile], [useInteractionMemory] and
    [useIntentDetection] are embedded as explicit state-passing functions.

    Conventions of the embedding:
    - a JavaScript [number] is an exact rational ([Q]) or, for clock
      readings and counters, an integer ([Z]); rounding of IEEE doubles is
      not modelled.  Where the source can produce a non-finite number
      (a division whose divisor may be zero, the literal [Infinity]) the
      value has type [jsnum], which adds [Infinity], [-Infinity] and [NaN];
    - the personality thresholds of [calculateProfile] can be met up to
      rounding, where exact and double arithmetic part ways.  The function
      is therefore given a second time in [Behavior64], over binary64
      numbers with the operations of the language, and the selection of the
      personality is stated there;
    - every [Date.now()] of a handler is one clock reading, passed to the
      handler as [now];
    - a [useRef] cell is a field of the hook record, [useState] state is a
      field updated by the handlers, and the [useEffect] bodies run in
      [commit], after the handler that changed the state they watch;
    - [localStorage] is a finite map from keys to stored texts. *)

From Stdlib Require Import ZArith QArith Qminmax Qabs Qround Lia Lqa Bool Ascii String Floats.
From stdpp Require Import gmap strings list pretty.

#[local] Set Warnings "-inexact-float".

Local Open Scope Z_scope.
Local Open Scope Q_scope.

(** ** JavaScript numbers that may be non-finite *)

Inductive jsnum : Type :=
  | Fin (q : Q)
  | PosInf
  | NegInf
  | NaN.

Definition Qltb (a b : Q) : bool := negb (Qle_bool b a).
Definition Qgtb (a b : Q) : bool := Qltb b a.

Module JS.

(** [a / b] on finite operands, as the language defines it at [b = 0]. *)
Definition div_fin (a b : Q) : jsnum :=
  if Qeq_bool b 0 then
    (if Qltb 0 a then PosInf else if Qltb a 0 then NegInf else NaN)
  else Fin (a / b).

(** [x / c] for a finite, positive constant [c]. *)
Definition div_pos (x : jsnum) (c : Q) : jsnum :=
  match x with
  | Fin q => Fin (q / c)
  | other => other
  end.

(** [x - c] for a finite [c]. *)
Definition sub_fin (x : jsnum) (c : Q) : jsnum :=
  match x with
  | Fin q => Fin (q - c)
  | other => other
  end.

(** [c - x] for a finite [c]. *)
Definition fin_sub (c : Q) (x : jsnum) : jsnum :=
  match x with
  | Fin q => Fin (c - q)
  | PosInf => NegInf
  | NegInf => PosInf
  | NaN => NaN
  end.

(** [Math.min(c, x)] for a finite [c]. *)
Definition min_fin (c : Q) (x : jsnum) : jsnum :=
  match x with
  | Fin q => Fin (Qmin c q)
  | PosInf => Fin c
  | NegInf => NegInf
  | NaN => NaN
  end.

(** [Math.max(c, x)] for a finite [c]. *)
Definition max_fin (c : Q) (x : jsnum) : jsnum :=
  match x with
  | Fin q => Fin (Qmax c q)
  | PosInf => PosInf
  | NegInf => Fin c
  | NaN => NaN
  end.

(** [x > c]; every comparison with [NaN] is false. *)
Definition gt_fin (x : jsnum) (c : Q) : bool :=
  match x with
  | Fin q => Qgtb q c
  | PosInf => true
  | NegInf | NaN => false
  end.

(** [array.slice(-n)] for [n > 0]: the last [n] elements. *)
Definition slice_last {A : Type} (n : nat) (l : list A) : list A :=
  drop (length l - n) l.

(** [array.reduce((a, b) => a + b, 0)] *)
Definition sumQ (l : list Q) : Q := foldl Qplus 0 l.
Definition sumZ (l : list Z) : Z := foldl Z.add 0%Z l.

(** [a + c] and [a * b]; zero times an infinity is [NaN]. *)
Definition add_fin (x : jsnum) (c : Q) : jsnum :=
  match x with
  | Fin q => Fin (q + c)
  | other => other
  end.

Definition scale_inf (positive : bool) (q : Q) : jsnum :=
  if Qltb 0 q then (if positive then PosInf else NegInf)
  else if Qltb q 0 then (if positive then NegInf else PosInf)
  else NaN.

Definition mul (x y : jsnum) : jsnum :=
  match x, y with
  | NaN, _ | _, NaN => NaN
  | Fin a, Fin b => Fin (a * b)
  | Fin a, PosInf | PosInf, Fin a => scale_inf true a
  | Fin a, NegInf | NegInf, Fin a => scale_inf false a
  | PosInf, PosInf | NegInf, NegInf => PosInf
  | PosInf, NegInf | NegInf, PosInf => NegInf
  end.

(** A call either returns a value or throws. *)
Inductive error : Type := SyntaxError.

Inductive completion (A : Type) : Type :=
  | Normal (a : A)
  | Throw (e : error).
Arguments Normal {A} a.
Arguments Throw {A} e.

(** [JSON.parse].  A JSON text is optional white space followed by a
    value, and a value begins with a brace, a bracket, a double quote, a minus sign, a digit
    or the first letter of [true], [false] or [null]; any other text is
    rejected with a [SyntaxError].  What the parser does with a text that
    begins like a value is left to [decode], the rest of the host's
    parser. *)
Definition json_ws (c : ascii) : bool :=
  bool_decide (c ∈ [" "; "009"; "010"; "013"]%char).

Fixpoint skip_ws (s : string) : string :=
  match s with
  | String c rest => if json_ws c then skip_ws rest else s
  | EmptyString => s
  end.

Definition json_value_start (s : string) : bool :=
  match skip_ws s with
  | String c _ =>
    bool_decide (c ∈ ["{"; "["; "034"; "-"; "t"; "f"; "n";
                      "0"; "1"; "2"; "3"; "4"; "5"; "6"; "7"; "8"; "9"]%char)
  | EmptyString => false
  end.

Definition JSON_parse {A : Type} (decode : string -> completion A) (s : string)
  : completion A :=
  if json_value_start s then decode s else Throw SyntaxError.

(** Truthiness of a string: only the empty string is falsy. *)
Definition truthy (s : string) : bool :=
  match s with
  | EmptyString => false
  | String _ _ => true
  end.

End JS.

(** A score lies in the unit interval: it is a finite number between 0 and 1. *)
Definition unit_interval (q : Q) : Prop := 0 <= q /\ q <= 1.

Definition js_unit_interval (x : jsnum) : Prop :=
  match x with
  | Fin q => unit_interval q
  | _ => False
  end.

(** ** Behavior Profile classifier ([useBehaviorProfile]) *)

Module Behavior.

Inductive Personality : Type :=
  | calm | assertive | inviting | curious | hesitant.

Record BehaviorMetrics : Type := {
  hoverCount : Z;
  totalHoverDuration : Z;
  averageHoverDuration : jsnum;
  hoverVelocity : list Q;
  clickCount : Z;
  clickSpeed : list Z;
  doubleClickCount : Z;
  hoverWithoutClick : Z;
  approachRetreatCount : Z;
  directApproaches : Z;
  lastInteractionTime : Z
}.

Record BehaviorProfile : Type := {
  personality : Personality;
  confidence : Q;
  engagement : jsnum;
  familiarity : Q
}.

Record DOMRect : Type := {
  left : Q; top : Q; width : Q; height : Q
}.

Definition STORAGE_KEY_PREFIX : string := "cognitive_btn_".

Definition storageKey (componentId : string) : string :=
  STORAGE_KEY_PREFIX +:+ componentId.

Definition getDefaultMetrics : BehaviorMetrics := {|
  hoverCount := 0;
  totalHoverDuration := 0;
  averageHoverDuration := Fin 0;
  hoverVelocity := [];
  clickCount := 0;
  clickSpeed := [];
  doubleClickCount := 0;
  hoverWithoutClick := 0;
  approachRetreatCount := 0;
  directApproaches := 0;
  lastInteractionTime := 0
|}.

(** *** [calculateProfile] and its intermediate quantities *)

Definition calcFamiliarity (m : BehaviorMetrics) : Q :=
  let totalInteractions := (clickCount m + hoverCount m)%Z in
  Qmin 1 (inject_Z totalInteractions / 50).

Definition avgClickSpeed (m : BehaviorMetrics) : Q :=
  if (0 <? length (clickSpeed m))%nat
  then inject_Z (JS.sumZ (clickSpeed m)) / inject_Z (Z.of_nat (length (clickSpeed m)))
  else 1000.

Definition clickSpeedConfidence (m : BehaviorMetrics) : Q :=
  Qmax 0 (1 - avgClickSpeed m / 2000).

Definition directApproachRatio (m : BehaviorMetrics) : Q :=
  if (0 <? hoverCount m)%Z
  then inject_Z (directApproaches m) / inject_Z (hoverCount m)
  else 0.

Definition calcConfidence (m : BehaviorMetrics) : Q :=
  clickSpeedConfidence m * 0.6 + directApproachRatio m * 0.4.

Definition hoverEngagement (m : BehaviorMetrics) : jsnum :=
  JS.min_fin 1 (JS.div_pos (averageHoverDuration m) 1500).

Definition retreatPenalty (m : BehaviorMetrics) : Q :=
  Qmin 0.5 (inject_Z (approachRetreatCount m) * 0.1).

Definition calcEngagement (m : BehaviorMetrics) : jsnum :=
  JS.max_fin 0 (JS.sub_fin (hoverEngagement m) (retreatPenalty m)).

Definition calculateProfile (m : BehaviorMetrics) : BehaviorProfile :=
  let familiarity := calcFamiliarity m in
  let confidence := calcConfidence m in
  let engagement := calcEngagement m in
  let personality :=
    if Qgtb familiarity 0.7 && Qgtb confidence 0.6 then calm
    else if Qgtb confidence 0.7 && (3 <? directApproaches m)%Z then assertive
    else if (5 <? hoverWithoutClick m)%Z || (3 <? approachRetreatCount m)%Z then inviting
    else if JS.gt_fin engagement 0.6 && JS.gt_fin (averageHoverDuration m) 800 then curious
    else if (1 <? approachRetreatCount m)%Z || Qgtb (avgClickSpeed m) 1500 then hesitant
    else calm in
  {| personality := personality;
     confidence := Qmin 1 (Qmax 0 confidence);
     engagement := JS.min_fin 1 (JS.max_fin 0 engagement);
     familiarity := familiarity |}.

(** *** The hook: state, refs and handlers *)

Record hook : Type := {
  metrics : BehaviorMetrics;
  profile : BehaviorProfile;
  hoverStartTime : Z;
  lastMousePosition : option (Q * Q);
  isHovering : bool;
  approachStartDistance : option Q;
  (** a state update is queued: the effects run at the next commit *)
  pending : bool
}.

(** [setMetrics((prev) => f prev)] *)
Definition setMetrics (f : BehaviorMetrics -> BehaviorMetrics) (h : hook) : hook :=
  {| metrics := f (metrics h); profile := profile h;
     hoverStartTime := hoverStartTime h;
     lastMousePosition := lastMousePosition h;
     isHovering := isHovering h;
     approachStartDistance := approachStartDistance h;
     pending := true |}.

Definition set_hover (start : Z) (pos : option (Q * Q)) (hovering : bool) (h : hook) : hook :=
  {| metrics := metrics h; profile := profile h;
     hoverStartTime := start;
     lastMousePosition := pos;
     isHovering := hovering;
     approachStartDistance := approachStartDistance h;
     pending := pending h |}.

Definition set_lastMousePosition (pos : option (Q * Q)) (h : hook) : hook :=
  set_hover (hoverStartTime h) pos (isHovering h) h.

Definition set_approachStartDistance (d : option Q) (h : hook) : hook :=
  {| metrics := metrics h; profile := profile h;
     hoverStartTime := hoverStartTime h;
     lastMousePosition := lastMousePosition h;
     isHovering := isHovering h;
     approachStartDistance := d;
     pending := pending h |}.

Definition onHoverStart (now : Z) (clientX clientY : Q) (h : hook) : hook :=
  let h := set_hover now (Some (clientX, clientY)) true h in
  setMetrics (fun prev =>
    {| hoverCount := hoverCount prev + 1;
       totalHoverDuration := totalHoverDuration prev;
       averageHoverDuration := averageHoverDuration prev;
       hoverVelocity := hoverVelocity prev;
       clickCount := clickCount prev;
       clickSpeed := clickSpeed prev;
       doubleClickCount := doubleClickCount prev;
       hoverWithoutClick := hoverWithoutClick prev;
       approachRetreatCount := approachRetreatCount prev;
       directApproaches := directApproaches prev;
       lastInteractionTime := now |}) h.

Definition onHoverEnd (now : Z) (h : hook) : hook :=
  if negb (isHovering h) then h
  else
    let duration := (now - hoverStartTime h)%Z in
    let h := set_hover (hoverStartTime h) (lastMousePosition h) false h in
    setMetrics (fun prev =>
      let newTotalDuration := (totalHoverDuration prev + duration)%Z in
      let newHoverCount := hoverCount prev in
      {| hoverCount := hoverCount prev;
         totalHoverDuration := newTotalDuration;
         averageHoverDuration :=
           JS.div_fin (inject_Z newTotalDuration) (inject_Z newHoverCount);
         hoverVelocity := hoverVelocity prev;
         clickCount := clickCount prev;
         clickSpeed := clickSpeed prev;
         doubleClickCount := doubleClickCount prev;
         hoverWithoutClick := hoverWithoutClick prev + 1;
         approachRetreatCount := approachRetreatCount prev;
         directApproaches := directApproaches prev;
         lastInteractionTime := lastInteractionTime prev |}) h.

Definition add_directApproach (prev : BehaviorMetrics) : BehaviorMetrics :=
  {| hoverCount := hoverCount prev;
     totalHoverDuration := totalHoverDuration prev;
     averageHoverDuration := averageHoverDuration prev;
     hoverVelocity := hoverVelocity prev;
     clickCount := clickCount prev;
     clickSpeed := clickSpeed prev;
     doubleClickCount := doubleClickCount prev;
     hoverWithoutClick := hoverWithoutClick prev;
     approachRetreatCount := approachRetreatCount prev;
     directApproaches := directApproaches prev + 1;
     lastInteractionTime := lastInteractionTime prev |}.

Definition push_hoverVelocity (velocity : Q) (prev : BehaviorMetrics) : BehaviorMetrics :=
  {| hoverCount := hoverCount prev;
     totalHoverDuration := totalHoverDuration prev;
     averageHoverDuration := averageHoverDuration prev;
     hoverVelocity := JS.slice_last 20 (hoverVelocity prev) ++ [velocity];
     clickCount := clickCount prev;
     clickSpeed := clickSpeed prev;
     doubleClickCount := doubleClickCount prev;
     hoverWithoutClick := hoverWithoutClick prev;
     approachRetreatCount := approachRetreatCount prev;
     directApproaches := directApproaches prev;
     lastInteractionTime := lastInteractionTime prev |}.

Section Handlers.

(** [Math.sqrt], a function of the host: finite on finite arguments. *)
Variable Math_sqrt : Q -> Q.

Definition onMouseMove (clientX clientY : Q) (buttonRect : DOMRect) (h : hook) : hook :=
  match lastMousePosition h with
  | None => set_lastMousePosition (Some (clientX, clientY)) h
  | Some (lastX, lastY) =>
    let dx := clientX - lastX in
    let dy := clientY - lastY in
    let velocity := Math_sqrt (dx * dx + dy * dy) in
    let buttonCenterX := left buttonRect + width buttonRect / 2 in
    let buttonCenterY := top buttonRect + height buttonRect / 2 in
    let currentDistance :=
      Math_sqrt ((clientX - buttonCenterX) * (clientX - buttonCenterX)
                 + (clientY - buttonCenterY) * (clientY - buttonCenterY)) in
    let start :=
      match approachStartDistance h with
      | None => currentDistance
      | Some d => d
      end in
    let h := set_approachStartDistance (Some start) h in
    let h :=
      if Qgtb velocity 15 && Qltb currentDistance (start * 0.5)
      then setMetrics add_directApproach h
      else h in
    let h :=
      if isHovering h
      then setMetrics (push_hoverVelocity velocity) h
      else h in
    set_lastMousePosition (Some (clientX, clientY)) h
  end.

Definition onClick (now : Z) (h : hook) : hook :=
  let clickTime := (now - hoverStartTime h)%Z in
  setMetrics (fun prev =>
    let isDoubleClick :=
      (0 <? length (clickSpeed prev))%nat
      && (now - lastInteractionTime prev <? 400)%Z in
    {| hoverCount := hoverCount prev;
       totalHoverDuration := totalHoverDuration prev;
       averageHoverDuration := averageHoverDuration prev;
       hoverVelocity := hoverVelocity prev;
       clickCount := clickCount prev + 1;
       clickSpeed := JS.slice_last 10 (clickSpeed prev) ++ [clickTime];
       doubleClickCount :=
         if isDoubleClick then doubleClickCount prev + 1 else doubleClickCount prev;
       hoverWithoutClick := Z.max 0 (hoverWithoutClick prev - 1);
       approachRetreatCount := approachRetreatCount prev;
       directApproaches := directApproaches prev;
       lastInteractionTime := now |}) h.

Definition onApproachRetreat (h : hook) : hook :=
  let h := setMetrics (fun prev =>
    {| hoverCount := hoverCount prev;
       totalHoverDuration := totalHoverDuration prev;
       averageHoverDuration := averageHoverDuration prev;
       hoverVelocity := hoverVelocity prev;
       clickCount := clickCount prev;
       clickSpeed := clickSpeed prev;
       doubleClickCount := doubleClickCount prev;
       hoverWithoutClick := hoverWithoutClick prev;
       approachRetreatCount := approachRetreatCount prev + 1;
       directApproaches := directApproaches prev;
       lastInteractionTime := lastInteractionTime prev |}) h in
  set_approachStartDistance None h.

(** The events the component forwards to the hook. *)
Inductive input : Type :=
  | HoverStart (now : Z) (clientX clientY : Q)
  | HoverEnd (now : Z)
  | MouseMove (clientX clientY : Q) (buttonRect : DOMRect)
  | Click (now : Z)
  | ApproachRetreat.

Definition handle (e : input) (h : hook) : hook :=
  match e with
  | HoverStart now x y => onHoverStart now x y h
  | HoverEnd now => onHoverEnd now h
  | MouseMove x y rect => onMouseMove x y rect h
  | Click now => onClick now h
  | ApproachRetreat => onApproachRetreat h
  end.

End Handlers.

(** The handlers alone, without the effects. *)
Definition feed (Math_sqrt : Q -> Q) (h : hook) (l : list input) : hook :=
  foldl (fun h e => handle Math_sqrt e h) h l.

(** *** Persistence and the effects *)

Record world : Type := {
  hk : hook;
  localStorage : gmap string string
}.

Definition initialProfile : BehaviorProfile :=
  {| personality := calm; confidence := 0.5; engagement := Fin 0.5; familiarity := 0 |}.

(** The state and refs of the first render, given the initial metrics. *)
Definition initialHook (m : BehaviorMetrics) : hook :=
  {| metrics := m; profile := initialProfile;
     hoverStartTime := 0; lastMousePosition := None;
     isHovering := false; approachStartDistance := None;
     pending := true |}.

Inductive action : Type :=
  | Input (e : input)
  | ResetProfile.

Section Persistence.

Variable JSON_stringify : BehaviorMetrics -> string.
Variable decode : string -> JS.completion BehaviorMetrics.
Variable Math_sqrt : Q -> Q.
Variable componentId : string.

(** The initialiser of [useState<BehaviorMetrics>]. *)
Definition initialMetrics (has_window : bool) (store : gmap string string)
  : JS.completion BehaviorMetrics :=
  if negb has_window then JS.Normal getDefaultMetrics
  else
    match store !! storageKey componentId with
    | Some stored =>
      if JS.truthy stored then JS.JSON_parse decode stored
      else JS.Normal getDefaultMetrics
    | None => JS.Normal getDefaultMetrics
    end.

(** The two effects that watch [metrics]: persist, then recompute the
    profile. *)
Definition commit (w : world) : world :=
  if pending (hk w) then
    {| hk := {| metrics := metrics (hk w);
                profile := calculateProfile (metrics (hk w));
                hoverStartTime := hoverStartTime (hk w);
                lastMousePosition := lastMousePosition (hk w);
                isHovering := isHovering (hk w);
                approachStartDistance := approachStartDistance (hk w);
                pending := false |};
       localStorage :=
         <[storageKey componentId := JSON_stringify (metrics (hk w))]> (localStorage w) |}
  else w.

(** First render in the browser with initial state [m]; the effects run
    once after it. *)
Definition mounted (m : BehaviorMetrics) (store : gmap string string) : world :=
  commit {| hk := initialHook m; localStorage := store |}.

Definition mount (store : gmap string string) : JS.completion world :=
  match initialMetrics true store with
  | JS.Throw e => JS.Throw e
  | JS.Normal m => JS.Normal (mounted m store)
  end.

(** The hook of a component that has no stored state yet. *)
Definition fresh : world := mounted getDefaultMetrics ∅.

Definition resetProfile (w : world) : world :=
  let defaultMetrics := getDefaultMetrics in
  {| hk := setMetrics (fun _ => defaultMetrics) (hk w);
     localStorage := delete (storageKey componentId) (localStorage w) |}.

Definition dispatch (w : world) (a : action) : world :=
  commit
    match a with
    | Input e => {| hk := handle Math_sqrt e (hk w); localStorage := localStorage w |}
    | ResetProfile => resetProfile w
    end.

Definition run (w : world) (l : list action) : world := foldl dispatch w l.

End Persistence.

End Behavior.

(** ** [calculateProfile] in double precision *)

(** JavaScript numbers as binary64 values, with the operations
    [calculateProfile] uses. *)
Module JS64.

Local Open Scope float_scope.

(** An integer as a number: the nearest double. *)
Definition of_Z (z : Z) : float := SF2Prim (binary_normalize prec emax z 0 false).

Definition of_nat (n : nat) : float := of_Z (Z.of_nat n).

(** The quotient of two integers, rounded once when both are below [2^53]. *)
Definition of_Q (q : Q) : float := of_Z (Qnum q) / of_Z (Zpos (Qden q)).

Definition of_jsnum (x : jsnum) : float :=
  match x with
  | Fin q => of_Q q
  | PosInf => infinity
  | NegInf => neg_infinity
  | NaN => nan
  end.

(** [a > b]; false when either is [NaN]. *)
Definition gt (a b : float) : bool := b <? a.

(** [Math.min(a, b)] and [Math.max(a, b)]: [NaN] when either is [NaN], and
    [-0] counts as smaller than [+0]. *)
Definition Math_min (a b : float) : float :=
  if is_nan a || is_nan b then nan
  else if a <? b then a
  else if b <? a then b
  else if get_sign a then a else b.

Definition Math_max (a b : float) : float :=
  if is_nan a || is_nan b then nan
  else if a <? b then b
  else if b <? a then a
  else if get_sign a then b else a.

(** [array.reduce((a, b) => a + b, 0)] *)
Definition sum (l : list float) : float := foldl PrimFloat.add 0 l.

End JS64.

Module Behavior64.

Local Open Scope float_scope.

Record BehaviorMetrics : Type := {
  hoverCount : float;
  totalHoverDuration : float;
  averageHoverDuration : float;
  hoverVelocity : list float;
  clickCount : float;
  clickSpeed : list float;
  doubleClickCount : float;
  hoverWithoutClick : float;
  approachRetreatCount : float;
  directApproaches : float;
  lastInteractionTime : float
}.

Record BehaviorProfile : Type := {
  personality : Behavior.Personality;
  confidence : float;
  engagement : float;
  familiarity : float
}.

Definition calculateProfile (metrics : BehaviorMetrics) : BehaviorProfile :=
  let totalInteractions := clickCount metrics + hoverCount metrics in
  let familiarity := JS64.Math_min 1 (totalInteractions / 50) in
  let avgClickSpeed :=
    if (0 <? length (clickSpeed metrics))%nat
    then JS64.sum (clickSpeed metrics) / JS64.of_nat (length (clickSpeed metrics))
    else 1000 in
  let clickSpeedConfidence := JS64.Math_max 0 (1 - avgClickSpeed / 2000) in
  let directApproachRatio :=
    if JS64.gt (hoverCount metrics) 0
    then directApproaches metrics / hoverCount metrics
    else 0 in
  let confidence := clickSpeedConfidence * 0.6 + directApproachRatio * 0.4 in
  let hoverEngagement := JS64.Math_min 1 (averageHoverDuration metrics / 1500) in
  let retreatPenalty := JS64.Math_min 0.5 (approachRetreatCount metrics * 0.1) in
  let engagement := JS64.Math_max 0 (hoverEngagement - retreatPenalty) in
  let personality :=
    if JS64.gt familiarity 0.7 && JS64.gt confidence 0.6 then Behavior.calm
    else if JS64.gt confidence 0.7 && JS64.gt (directApproaches metrics) 3
      then Behavior.assertive
    else if JS64.gt (hoverWithoutClick metrics) 5
            || JS64.gt (approachRetreatCount metrics) 3
      then Behavior.inviting
    else if JS64.gt engagement 0.6 && JS64.gt (averageHoverDuration metrics) 800
      then Behavior.curious
    else if JS64.gt (approachRetreatCount metrics) 1 || JS64.gt avgClickSpeed 1500
      then Behavior.hesitant
    else Behavior.calm in
  {| personality := personality;
     confidence := JS64.Math_min 1 (JS64.Math_max 0 confidence);
     engagement := JS64.Math_min 1 (JS64.Math_max 0 engagement);
     familiarity := familiarity |}.

(** The doubles that an accumulator of the exact model stands for. *)
Definition of_exact (m : Behavior.BehaviorMetrics) : BehaviorMetrics := {|
  hoverCount := JS64.of_Z (Behavior.hoverCount m);
  totalHoverDuration := JS64.of_Z (Behavior.totalHoverDuration m);
  averageHoverDuration := JS64.of_jsnum (Behavior.averageHoverDuration m);
  hoverVelocity := map JS64.of_Q (Behavior.hoverVelocity m);
  clickCount := JS64.of_Z (Behavior.clickCount m);
  clickSpeed := map JS64.of_Z (Behavior.clickSpeed m);
  doubleClickCount := JS64.of_Z (Behavior.doubleClickCount m);
  hoverWithoutClick := JS64.of_Z (Behavior.hoverWithoutClick m);
  approachRetreatCount := JS64.of_Z (Behavior.approachRetreatCount m);
  directApproaches := JS64.of_Z (Behavior.directApproaches m);
  lastInteractionTime := JS64.of_Z (Behavior.lastInteractionTime m)
|}.

End Behavior64.

(** ** Interaction Memory classifier ([useInteractionMemory]) *)

Module Memory.

Inductive InteractionType : Type := glance | study | engage | return_.
Inductive EmotionalSignature : Type := curious | impatient | thorough | distracted.
Inductive RevealSpeed : Type := slow | medium | fast.

Record MemoryLayer : Type := {
  timestamp : Z;
  interactionType : InteractionType;
  duration : Z;
  focusPoints : list (Q * Q);
  scrollDepth : Q;
  emotionalSignature : EmotionalSignature
}.

Record InteractionMemory : Type := {
  visitCount : Z;
  totalTimeSpent : Z;
  layers : list MemoryLayer;
  lastVisit : Z;
  recognitionLevel : jsnum;
  revealProgress : Q;
  preferredRevealSpeed : RevealSpeed
}.

Record Session : Type := {
  startTime : Z;
  sessionFocusPoints : list (Q * Q);
  isActive : bool;
  sessionScrollDepth : Q
}.

Definition STORAGE_KEY_PREFIX : string := "memory_card_".

Definition storageKey (cardId : string) : string := STORAGE_KEY_PREFIX +:+ cardId.

Definition getDefaultMemory : InteractionMemory := {|
  visitCount := 0;
  totalTimeSpent := 0;
  layers := [];
  lastVisit := 0;
  recognitionLevel := Fin 0;
  revealProgress := 0;
  preferredRevealSpeed := medium
|}.

Definition initialSession : Session :=
  {| startTime := 0; sessionFocusPoints := []; isActive := false; sessionScrollDepth := 0 |}.

(** *** Values derived at render time *)

(** [memory.lastVisit ? Date.now() - memory.lastVisit : Infinity] *)
Definition timeSinceLastVisit (now : Z) (memory : InteractionMemory) : jsnum :=
  if (lastVisit memory =? 0)%Z then PosInf
  else Fin (inject_Z (now - lastVisit memory)).

Definition isReturningUser (now : Z) (memory : InteractionMemory) : bool :=
  JS.gt_fin (timeSinceLastVisit now memory) 60000 && (0 <? visitCount memory)%Z.

Definition currentMood (memory : InteractionMemory) : EmotionalSignature :=
  match last (layers memory) with
  | Some layer => emotionalSignature layer
  | None => curious
  end.

Section Handlers.

Variable Math_sqrt : Q -> Q.

(** The loop of [calculateAverageMovement]: [prev] is [points[i - 1]]. *)
Fixpoint totalMovement (prev : Q * Q) (points : list (Q * Q)) : Q :=
  match points with
  | [] => 0
  | p :: rest =>
    let dx := fst p - fst prev in
    let dy := snd p - snd prev in
    Math_sqrt (dx * dx + dy * dy) + totalMovement p rest
  end.

Definition calculateAverageMovement (points : list (Q * Q)) : Q :=
  match points with
  | [] | [_] => 0
  | p0 :: rest => totalMovement p0 rest / inject_Z (Z.of_nat (length points - 1))
  end.

Definition classifyInteraction (returning : bool) (duration : Z) : InteractionType :=
  if returning then return_
  else if (duration <? 500)%Z then glance
  else if (duration <? 2000)%Z then engage
  else study.

Definition classifySignature (avgMovement : Q) (duration : Z) (scrollDepth : Q)
  : EmotionalSignature :=
  if Qgtb avgMovement 50 && (duration <? 1000)%Z then impatient
  else if (3000 <? duration)%Z && Qgtb scrollDepth 0.5 then thorough
  else if Qgtb avgMovement 30 then distracted
  else curious.

Definition decayFactor (sinceLastVisit : jsnum) : jsnum :=
  JS.max_fin 0.5 (JS.fin_sub 1 (JS.div_pos sinceLastVisit (inject_Z (7 * 24 * 60 * 60 * 1000)))).

Definition recognitionGrowth (t : InteractionType) : Q :=
  0.1 * (match t with study => 2 | _ => 1 end).

Definition revealIncrease (t : InteractionType) : Q :=
  match t with
  | study => 0.15
  | engage => 0.08
  | return_ => 0.1
  | glance => 0.02
  end.

Definition avgDuration (recentLayers : list MemoryLayer) : Q :=
  inject_Z (JS.sumZ (map duration recentLayers))
  / inject_Z (Z.of_nat (length recentLayers)).

Definition revealSpeed (avg : Q) : RevealSpeed :=
  if Qgtb avg 3000 then slow else if Qgtb avg 1500 then medium else fast.

(** The updater that [onLeave] passes to [setMemory]. *)
Definition remember (now : Z) (sinceLastVisit : jsnum) (newLayer : MemoryLayer)
    (prev : InteractionMemory) : InteractionMemory :=
  let newVisitCount := (visitCount prev + 1)%Z in
  let newTotalTime := (totalTimeSpent prev + duration newLayer)%Z in
  let newRecognition :=
    JS.min_fin 1
      (JS.add_fin (JS.mul (recognitionLevel prev) (decayFactor sinceLastVisit))
                  (recognitionGrowth (interactionType newLayer))) in
  let newRevealProgress :=
    Qmin 1 (revealProgress prev + revealIncrease (interactionType newLayer)) in
  let recentLayers := JS.slice_last 5 (layers prev) ++ [newLayer] in
  {| visitCount := newVisitCount;
     totalTimeSpent := newTotalTime;
     layers := JS.slice_last 50 (layers prev) ++ [newLayer];
     lastVisit := now;
     recognitionLevel := newRecognition;
     revealProgress := newRevealProgress;
     preferredRevealSpeed := revealSpeed (avgDuration recentLayers) |}.

Record hook : Type := {
  memory : InteractionMemory;
  currentSession : Session;
  (** [memory] changed: the persisting effect runs at the next commit *)
  pending : bool
}.

Definition onEnter (now : Z) (h : hook) : hook :=
  {| memory := memory h;
     currentSession :=
       {| startTime := now; sessionFocusPoints := []; isActive := true;
          sessionScrollDepth := 0 |};
     pending := pending h |}.

(** [rendered] is the clock reading of the render that created the
    handler: [timeSinceLastVisit] and [isReturningUser] are the values
    of that render. *)
Definition onLeave (rendered now : Z) (h : hook) : hook :=
  let session := currentSession h in
  if negb (isActive session) then h
  else
    let duration := (now - startTime session)%Z in
    let interactionType :=
      classifyInteraction (isReturningUser rendered (memory h)) duration in
    let avgMovement := calculateAverageMovement (sessionFocusPoints session) in
    let emotionalSignature :=
      classifySignature avgMovement duration (sessionScrollDepth session) in
    let newLayer :=
      {| timestamp := now;
         interactionType := interactionType;
         duration := duration;
         focusPoints := JS.slice_last 20 (sessionFocusPoints session);
         scrollDepth := sessionScrollDepth session;
         emotionalSignature := emotionalSignature |} in
    {| memory := remember now (timeSinceLastVisit rendered (memory h)) newLayer (memory h);
       currentSession :=
         {| startTime := startTime session;
            sessionFocusPoints := sessionFocusPoints session;
            isActive := false;
            sessionScrollDepth := sessionScrollDepth session |};
       pending := true |}.

Definition onMouseMove (x y : Q) (h : hook) : hook :=
  let session := currentSession h in
  if negb (isActive session) then h
  else
    {| memory := memory h;
       currentSession :=
         {| startTime := startTime session;
            sessionFocusPoints := JS.slice_last 50 (sessionFocusPoints session) ++ [(x, y)];
            isActive := isActive session;
            sessionScrollDepth := sessionScrollDepth session |};
       pending := pending h |}.

Definition onScroll (depth : Q) (h : hook) : hook :=
  let session := currentSession h in
  {| memory := memory h;
     currentSession :=
       {| startTime := startTime session;
          sessionFocusPoints := sessionFocusPoints session;
          isActive := isActive session;
          sessionScrollDepth := Qmax (sessionScrollDepth session) depth |};
     pending := pending h |}.

Inductive input : Type :=
  | Enter (now : Z)
  | Leave (rendered now : Z)
  | MouseMove (x y : Q)
  | Scroll (depth : Q).

Definition handle (e : input) (h : hook) : hook :=
  match e with
  | Enter now => onEnter now h
  | Leave rendered now => onLeave rendered now h
  | MouseMove x y => onMouseMove x y h
  | Scroll depth => onScroll depth h
  end.

End Handlers.

(** The handlers alone, without the effect. *)
Definition feed (Math_sqrt : Q -> Q) (h : hook) (l : list input) : hook :=
  foldl (fun h e => handle Math_sqrt e h) h l.

Definition initialHook (m : InteractionMemory) : hook :=
  {| memory := m; currentSession := initialSession; pending := true |}.

(** *** Persistence and the effect *)

Record world : Type := {
  hk : hook;
  localStorage : gmap string string
}.

Inductive action : Type :=
  | Input (e : input)
  | ResetMemory.

Section Persistence.

Variable JSON_stringify : InteractionMemory -> string.
Variable decode : string -> JS.completion InteractionMemory.
Variable Math_sqrt : Q -> Q.
Variable cardId : string.

(** The initialiser of [useState<InteractionMemory>]. *)
Definition initialMemory (has_window : bool) (store : gmap string string)
  : JS.completion InteractionMemory :=
  if negb has_window then JS.Normal getDefaultMemory
  else
    match store !! storageKey cardId with
    | Some stored =>
      if JS.truthy stored then JS.JSON_parse decode stored
      else JS.Normal getDefaultMemory
    | None => JS.Normal getDefaultMemory
    end.

(** The effect that watches [memory]. *)
Definition commit (w : world) : world :=
  if pending (hk w) then
    {| hk := {| memory := memory (hk w);
                currentSession := currentSession (hk w);
                pending := false |};
       localStorage :=
         <[storageKey cardId := JSON_stringify (memory (hk w))]> (localStorage w) |}
  else w.

Definition mounted (m : InteractionMemory) (store : gmap string string) : world :=
  commit {| hk := initialHook m; localStorage := store |}.

Definition mount (store : gmap string string) : JS.completion world :=
  match initialMemory true store with
  | JS.Throw e => JS.Throw e
  | JS.Normal m => JS.Normal (mounted m store)
  end.

(** The hook of a card that has no stored state yet. *)
Definition fresh : world := mounted getDefaultMemory ∅.

Definition resetMemory (w : world) : world :=
  let defaultMemory := getDefaultMemory in
  {| hk := {| memory := defaultMemory;
              currentSession := currentSession (hk w);
              pending := true |};
     localStorage := delete (storageKey cardId) (localStorage w) |}.

Definition dispatch (w : world) (a : action) : world :=
  commit
    match a with
    | Input e => {| hk := handle Math_sqrt e (hk w); localStorage := localStorage w |}
    | ResetMemory => resetMemory w
    end.

Definition run (w : world) (l : list action) : world := foldl dispatch w l.

End Persistence.

End Memory.

(** ** Intent Detection classifier ([useIntentDetection]) *)

Module Intent.

Inductive Intent : Type :=
  | browsing | searching | reading | comparing | deciding | leaving.

Inductive Direction : Type := up | down | none.

Inductive Layout : Type := expanded | compact | focused | minimal.

Record ScrollPattern : Type := {
  timestamp : Z;
  position : jsnum;
  velocity : Q;
  direction : Direction
}.

Record FocusEvent : Type := {
  focusTimestamp : Z;
  element : string;
  duration : Z
}.

Record IntentSignals : Type := {
  scrollPatterns : list ScrollPattern;
  focusEvents : list FocusEvent;
  pauseCount : Z;
  directionChanges : Z;
  averageVelocity : Q;
  timeOnSurface : Z;
  lastActivity : Z
}.

Record IntentProfile : Type := {
  currentIntent : Intent;
  confidence : Q;
  attention : Q;
  urgency : Q;
  suggestedLayout : Layout
}.

Definition Direction_eqb (a b : Direction) : bool :=
  match a, b with
  | up, up | down, down | none, none => true
  | _, _ => false
  end.

Definition initialSignals (now : Z) : IntentSignals := {|
  scrollPatterns := [];
  focusEvents := [];
  pauseCount := 0;
  directionChanges := 0;
  averageVelocity := 0;
  timeOnSurface := 0;
  lastActivity := now
|}.

Definition initialProfile : IntentProfile := {|
  currentIntent := browsing;
  confidence := 0.5;
  attention := 0.5;
  urgency := 0.3;
  suggestedLayout := expanded
|}.

(** *** [calculateIntent]; [now] is the [Date.now()] of its fifth rule *)

(** [scrollPatterns.slice(-5).reduce((a, b) => a + b.velocity, 0) / 5 || 0] *)
Definition recentVelocity (signals : IntentSignals) : Q :=
  let r := JS.sumQ (map velocity (JS.slice_last 5 (scrollPatterns signals))) / 5 in
  if Qeq_bool r 0 then 0 else r.

Definition avgFocusDuration (signals : IntentSignals) : Q :=
  if (0 <? length (focusEvents signals))%nat
  then inject_Z (JS.sumZ (map duration (focusEvents signals)))
       / inject_Z (Z.of_nat (length (focusEvents signals)))
  else 0.

Definition layoutFor (i : Intent) : Layout :=
  match i with
  | searching => compact
  | reading => focused
  | comparing => expanded
  | deciding => focused
  | leaving => minimal
  | browsing => expanded
  end.

Definition calculateIntent (now : Z) (signals : IntentSignals) : IntentProfile :=
  let recentVelocity := recentVelocity signals in
  let recentPauses := pauseCount signals in
  let recentDirectionChanges := directionChanges signals in
  let avgFocusDuration := avgFocusDuration signals in
  let '(currentIntent, confidence, attention, urgency) :=
    if Qgtb recentVelocity 300 && (recentPauses <? 2)%Z && (recentDirectionChanges <? 3)%Z
    then (searching, Qmin 0.9 (recentVelocity / 500), 0.4, 0.8)
    else if Qltb recentVelocity 100 && (3 <? recentPauses)%Z && Qgtb avgFocusDuration 1000
    then (reading, Qmin 0.9 (avgFocusDuration / 3000), 0.9, 0.1)
    else if (5 <? recentDirectionChanges)%Z && Qgtb recentVelocity 50 && Qltb recentVelocity 300
    then (comparing, Qmin 0.85 (inject_Z recentDirectionChanges / 10), 0.7, 0.5)
    else if (5 <? recentPauses)%Z && Qltb recentVelocity 50 && Qgtb avgFocusDuration 500
    then (deciding, Qmin 0.85 (inject_Z recentPauses / 8), 0.85, 0.6)
    else if (5000 <? now - lastActivity signals)%Z || Qgtb recentVelocity 500
    then (leaving, 0.6, 0.2, 0.9)
    else (browsing, 0.5, 0.5, 0.3) in
  {| currentIntent := currentIntent;
     confidence := confidence;
     attention := attention;
     urgency := urgency;
     suggestedLayout := layoutFor currentIntent |}.

(** *** The hook *)

Record hook : Type := {
  signals : IntentSignals;
  profile : IntentProfile;
  lastScrollPosition : Q;
  lastScrollTime : Z;
  lastDirection : Direction;
  (** the 800ms pause timer is armed and has not fired *)
  pauseTimer : bool;
  surfaceEntryTime : Z;
  currentFocusElement : option string;
  focusStartTime : Z;
  pending : bool
}.

Definition setSignals (f : IntentSignals -> IntentSignals) (h : hook) : hook :=
  {| signals := f (signals h); profile := profile h;
     lastScrollPosition := lastScrollPosition h;
     lastScrollTime := lastScrollTime h;
     lastDirection := lastDirection h;
     pauseTimer := pauseTimer h;
     surfaceEntryTime := surfaceEntryTime h;
     currentFocusElement := currentFocusElement h;
     focusStartTime := focusStartTime h;
     pending := true |}.

Definition touch (now : Z) (prev : IntentSignals) : IntentSignals :=
  {| scrollPatterns := scrollPatterns prev;
     focusEvents := focusEvents prev;
     pauseCount := pauseCount prev;
     directionChanges := directionChanges prev;
     averageVelocity := averageVelocity prev;
     timeOnSurface := timeOnSurface prev;
     lastActivity := now |}.

Definition onScroll (now : Z) (scrollY containerHeight : Q) (h : hook) : hook :=
  let timeDelta := (now - lastScrollTime h)%Z in
  let positionDelta := scrollY - lastScrollPosition h in
  let velocity :=
    if (0 <? timeDelta)%Z then Qabs positionDelta / inject_Z timeDelta * 1000 else 0 in
  let direction :=
    if Qgtb positionDelta 5 then down
    else if Qltb positionDelta (-5) then up else none in
  let isDirectionChange :=
    negb (Direction_eqb direction none)
    && negb (Direction_eqb (lastDirection h) none)
    && negb (Direction_eqb direction (lastDirection h)) in
  let newPattern :=
    {| timestamp := now;
       position := JS.div_fin scrollY containerHeight;
       velocity := velocity;
       direction := direction |} in
  let h := setSignals (fun prev =>
    let patterns := JS.slice_last 30 (scrollPatterns prev) ++ [newPattern] in
    let avgVelocity :=
      JS.sumQ (map Intent.velocity patterns) / inject_Z (Z.of_nat (length patterns)) in
    {| scrollPatterns := patterns;
       focusEvents := focusEvents prev;
       pauseCount := pauseCount prev;
       directionChanges :=
         if isDirectionChange then directionChanges prev + 1 else directionChanges prev;
       averageVelocity := avgVelocity;
       timeOnSurface := timeOnSurface prev;
       lastActivity := now |}) h in
  {| signals := signals h; profile := profile h;
     lastScrollPosition := scrollY;
     lastScrollTime := now;
     lastDirection := if Direction_eqb direction none then lastDirection h else direction;
     pauseTimer := true;
     surfaceEntryTime := surfaceEntryTime h;
     currentFocusElement := currentFocusElement h;
     focusStartTime := focusStartTime h;
     pending := pending h |}.

(** The callback of the pause timer, 800ms after the last scroll. *)
Definition onPauseTimeout (now : Z) (h : hook) : hook :=
  if negb (pauseTimer h) then h
  else
    let h := setSignals (fun prev =>
      {| scrollPatterns := scrollPatterns prev;
         focusEvents := focusEvents prev;
         pauseCount := pauseCount prev + 1;
         directionChanges := directionChanges prev;
         averageVelocity := averageVelocity prev;
         timeOnSurface := timeOnSurface prev;
         lastActivity := now |}) h in
    {| signals := signals h; profile := profile h;
       lastScrollPosition := lastScrollPosition h;
       lastScrollTime := lastScrollTime h;
       lastDirection := lastDirection h;
       pauseTimer := false;
       surfaceEntryTime := surfaceEntryTime h;
       currentFocusElement := currentFocusElement h;
       focusStartTime := focusStartTime h;
       pending := pending h |}.

Definition set_focus (elementId : option string) (now : Z) (h : hook) : hook :=
  {| signals := signals h; profile := profile h;
     lastScrollPosition := lastScrollPosition h;
     lastScrollTime := lastScrollTime h;
     lastDirection := lastDirection h;
     pauseTimer := pauseTimer h;
     surfaceEntryTime := surfaceEntryTime h;
     currentFocusElement := elementId;
     focusStartTime := now;
     pending := pending h |}.

Definition onFocusChange (now : Z) (elementId : option string) (h : hook) : hook :=
  let h :=
    match currentFocusElement h with
    | Some current =>
      if JS.truthy current then
        let newEvent :=
          {| focusTimestamp := now; element := current;
             duration := (now - focusStartTime h)%Z |} in
        setSignals (fun prev =>
          {| scrollPatterns := scrollPatterns prev;
             focusEvents := JS.slice_last 20 (focusEvents prev) ++ [newEvent];
             pauseCount := pauseCount prev;
             directionChanges := directionChanges prev;
             averageVelocity := averageVelocity prev;
             timeOnSurface := timeOnSurface prev;
             lastActivity := now |}) h
      else h
    | None => h
    end in
  set_focus elementId now h.

Definition onMouseMove (now : Z) (x y containerWidth containerHeight : Q) (h : hook) : hook :=
  let edgeThreshold := 50 in
  let nearEdge :=
    Qltb x edgeThreshold
    || Qgtb x (containerWidth - edgeThreshold)
    || Qltb y edgeThreshold
    || Qgtb y (containerHeight - edgeThreshold) in
  if nearEdge then setSignals (touch now) h else h.

(** The callback of the one-second interval. *)
Definition onInterval (now : Z) (h : hook) : hook :=
  setSignals (fun prev =>
    {| scrollPatterns := scrollPatterns prev;
       focusEvents := focusEvents prev;
       pauseCount := pauseCount prev;
       directionChanges := directionChanges prev;
       averageVelocity := averageVelocity prev;
       timeOnSurface := (now - surfaceEntryTime h)%Z;
       lastActivity := lastActivity prev |}) h.

Definition resetSignals (now : Z) (h : hook) : hook :=
  let h := setSignals (fun _ => initialSignals now) h in
  {| signals := signals h; profile := profile h;
     lastScrollPosition := lastScrollPosition h;
     lastScrollTime := lastScrollTime h;
     lastDirection := lastDirection h;
     pauseTimer := pauseTimer h;
     surfaceEntryTime := now;
     currentFocusElement := currentFocusElement h;
     focusStartTime := focusStartTime h;
     pending := pending h |}.

Inductive action : Type :=
  | Scroll (now : Z) (scrollY containerHeight : Q)
  | PauseTimeout (now : Z)
  | FocusChange (now : Z) (elementId : option string)
  | MouseMove (now : Z) (x y containerWidth containerHeight : Q)
  | Interval (now : Z)
  | ResetSignals (now : Z).

Definition clock (a : action) : Z :=
  match a with
  | Scroll now _ _ | PauseTimeout now | FocusChange now _
  | MouseMove now _ _ _ _ | Interval now | ResetSignals now => now
  end.

Definition handle (a : action) (h : hook) : hook :=
  match a with
  | Scroll now scrollY containerHeight => onScroll now scrollY containerHeight h
  | PauseTimeout now => onPauseTimeout now h
  | FocusChange now elementId => onFocusChange now elementId h
  | MouseMove now x y w ht => onMouseMove now x y w ht h
  | Interval now => onInterval now h
  | ResetSignals now => resetSignals now h
  end.

(** The hook never names [localStorage]; the store is carried along to
    state what the hook does to it. *)
Record world : Type := {
  hk : hook;
  localStorage : gmap string string
}.

(** The effect that watches [signals], run at clock reading [now]. *)
Definition commit (now : Z) (h : hook) : hook :=
  if pending h then
    {| signals := signals h; profile := calculateIntent now (signals h);
       lastScrollPosition := lastScrollPosition h;
       lastScrollTime := lastScrollTime h;
       lastDirection := lastDirection h;
       pauseTimer := pauseTimer h;
       surfaceEntryTime := surfaceEntryTime h;
       currentFocusElement := currentFocusElement h;
       focusStartTime := focusStartTime h;
       pending := false |}
  else h.

(** The state and refs of the first render, at clock reading [now]. *)
Definition initialHook (now : Z) : hook :=
  {| signals := initialSignals now; profile := initialProfile;
     lastScrollPosition := 0; lastScrollTime := now; lastDirection := none;
     pauseTimer := false; surfaceEntryTime := now;
     currentFocusElement := None; focusStartTime := now;
     pending := true |}.

Definition mount (now : Z) (store : gmap string string) : world :=
  {| hk := commit now (initialHook now); localStorage := store |}.

(** The handlers alone, without the effect. *)
Definition feed (h : hook) (l : list action) : hook :=
  foldl (fun h a => handle a h) h l.

Definition dispatch (w : world) (a : action) : world :=
  {| hk := commit (clock a) (handle a (hk w)); localStorage := localStorage w |}.

Definition run (w : world) (l : list action) : world := foldl dispatch w l.

End Intent.

(** ** Specifications written from the prose of the design document *)

(** A priority-ordered rule chain: the outcome of the first rule whose
    condition holds, or the default. *)
Definition first_match {A : Type} (rules : list (bool * A)) (default : A) : A :=
  match find fst rules with
  | Some (_, outcome) => outcome
  | None => default
  end.

(** The scores of the Behavior Profile as the design document defines
    them, functions of the accumulator, in the arithmetic of the code:
    familiarity = min(1, (clicks + hovers) / 50);
    confidence = 0.6 * clickSpeedConfidence + 0.4 * directApproachRatio, with
    clickSpeedConfidence = max(0, 1 - avgClickLatency / 2000) and
    directApproachRatio = directApproaches / hovers (0 if no hovers);
    engagement = max(0, min(1, avgHoverDuration / 1500) - min(0.5, 0.1 * retreats)).
    The average click latency is the mean of the click-speed history, 1000
    when the history is empty; there are no hovers when the hover count is
    not above zero. *)
Definition spec_familiarity (m : Behavior64.BehaviorMetrics) : float :=
  JS64.Math_min 1 ((Behavior64.clickCount m + Behavior64.hoverCount m) / 50)%float.

Definition spec_avgClickLatency (m : Behavior64.BehaviorMetrics) : float :=
  match Behavior64.clickSpeed m with
  | [] => 1000%float
  | _ :: _ =>
    (JS64.sum (Behavior64.clickSpeed m)
     / JS64.of_nat (length (Behavior64.clickSpeed m)))%float
  end.

Definition spec_clickSpeedConfidence (m : Behavior64.BehaviorMetrics) : float :=
  JS64.Math_max 0 (1 - spec_avgClickLatency m / 2000)%float.

Definition spec_directApproachRatio (m : Behavior64.BehaviorMetrics) : float :=
  if JS64.gt (Behavior64.hoverCount m) 0
  then (Behavior64.directApproaches m / Behavior64.hoverCount m)%float
  else 0%float.

Definition spec_confidence (m : Behavior64.BehaviorMetrics) : float :=
  (0.6 * spec_clickSpeedConfidence m + 0.4 * spec_directApproachRatio m)%float.

Definition spec_engagement (m : Behavior64.BehaviorMetrics) : float :=
  JS64.Math_max 0
    (JS64.Math_min 1 (Behavior64.averageHoverDuration m / 1500)
     - JS64.Math_min 0.5 (0.1 * Behavior64.approachRetreatCount m))%float.

(** The personality rules of the design document, in their order. *)
Definition personality_rules (m : Behavior64.BehaviorMetrics)
  : list (bool * Behavior.Personality) :=
  [ (JS64.gt (spec_familiarity m) 0.7 && JS64.gt (spec_confidence m) 0.6,
     Behavior.calm);
    (JS64.gt (spec_confidence m) 0.7 && JS64.gt (Behavior64.directApproaches m) 3,
     Behavior.assertive);
    (JS64.gt (Behavior64.hoverWithoutClick m) 5
       || JS64.gt (Behavior64.approachRetreatCount m) 3,
     Behavior.inviting);
    (JS64.gt (spec_engagement m) 0.6
       && JS64.gt (Behavior64.averageHoverDuration m) 800,
     Behavior.curious);
    (JS64.gt (Behavior64.approachRetreatCount m) 1
       || JS64.gt (spec_avgClickLatency m) 1500,
     Behavior.hesitant) ].

(** ** Event sequences used in the statements *)

(** Pointer moves over the button, each with its position and the bounds
    of the button at that moment. *)
Definition behavior_moves (moves : list (Q * Q * Behavior.DOMRect)) : list Behavior.input :=
  map (fun m => Behavior.MouseMove (fst (fst m)) (snd (fst m)) (snd m)) moves.

(** Visits of a card: enter at the first clock reading, leave at the
    third; the second is the clock of the render that created [onLeave]. *)
Definition memory_visits (visits : list (Z * Z * Z)) : list Memory.input :=
  flat_map (fun v => [Memory.Enter (fst (fst v)); Memory.Leave (snd (fst v)) (snd v)]) visits.

(** Scroll events: clock reading, scroll offset and container height. *)
Definition intent_scrolls (scrolls : list (Z * Q * Q)) : list Intent.action :=
  map (fun s => Intent.Scroll (fst (fst s)) (snd (fst s)) (snd s)) scrolls.

(** ** Invariants of the hooks *)

(** Counters are not negative, an open hover session has been counted, and
    the running average is a number. *)
Definition behavior_inv (h : Behavior.hook) : Prop :=
  (0 <= Behavior.clickCount (Behavior.metrics h))%Z
  /\ (0 <= Behavior.hoverCount (Behavior.metrics h))%Z
  /\ (Behavior.isHovering h = true -> (0 < Behavior.hoverCount (Behavior.metrics h))%Z)
  /\ Behavior.averageHoverDuration (Behavior.metrics h) <> NaN.

(** After every commit the exposed profile is the calculator applied to the
    current metrics, and the store holds their serialization. *)
Definition behavior_synced (stringify : Behavior.BehaviorMetrics -> string) (id : string)
    (w : Behavior.world) : Prop :=
  Behavior.pending (Behavior.hk w) = false
  /\ Behavior.profile (Behavior.hk w) = Behavior.calculateProfile (Behavior.metrics (Behavior.hk w))
  /\ Behavior.localStorage w !! Behavior.storageKey id
     = Some (stringify (Behavior.metrics (Behavior.hk w))).

(** The fields the handlers read and write; the effects touch none. *)
Definition behavior_same (h h' : Behavior.hook) : Prop :=
  Behavior.metrics h = Behavior.metrics h'
  /\ Behavior.hoverStartTime h = Behavior.hoverStartTime h'
  /\ Behavior.lastMousePosition h = Behavior.lastMousePosition h'
  /\ Behavior.isHovering h = Behavior.isHovering h'
  /\ Behavior.approachStartDistance h = Behavior.approachStartDistance h'.

(** The scores of the memory are in the unit interval. *)
Definition memory_inv (m : Memory.InteractionMemory) : Prop :=
  js_unit_interval (Memory.recognitionLevel m) /\ unit_interval (Memory.revealProgress m).

(** After every commit the store holds the serialization of the memory. *)
Definition memory_synced (stringify : Memory.InteractionMemory -> string) (id : string)
    (w : Memory.world) : Prop :=
  Memory.pending (Memory.hk w) = false
  /\ Memory.localStorage w !! Memory.storageKey id
     = Some (stringify (Memory.memory (Memory.hk w))).

(** What the pointer and the wheel do between [onEnter] and [onLeave]:
    a move to a position, or a scroll to a depth. *)
Definition memory_browse (steps : list (Q * Q + Q)) : list Memory.input :=
  map (fun s => match s with
                | inl p => Memory.MouseMove (fst p) (snd p)
                | inr depth => Memory.Scroll depth
                end) steps.

(** A rational stand-in for [Math.sqrt] with which the examples are
    evaluated: the integer square root of the integer part, exact on
    perfect squares. *)
Definition sqrt_floor (q : Q) : Q := inject_Z (Z.sqrt (Qfloor q)).

(** The bounds of a button, for the examples. *)
Definition sample_rect : Behavior.DOMRect :=
  {| Behavior.left := 0; Behavior.top := 0; Behavior.width := 120; Behavior.height := 40 |}.

(** A serializer and its parser, for the examples of persistence.  An
    accumulator in which only one counter differs from the defaults is
    written as the decimal numeral of that counter, which is a JSON text,
    and read back from it. *)
Definition digit (c : ascii) : option Z :=
  let n := nat_of_ascii c in
  if (48 <=? n)%nat && (n <=? 57)%nat then Some (Z.of_nat (n - 48)) else None.

Fixpoint parse_digits (acc : Z) (s : string) : option Z :=
  match s with
  | EmptyString => Some acc
  | String c rest =>
    match digit c with
    | Some d => parse_digits (10 * acc + d)%Z rest
    | None => None
    end
  end.

Definition with_retreats (n : Z) : Behavior.BehaviorMetrics := {|
  Behavior.hoverCount := 0;
  Behavior.totalHoverDuration := 0;
  Behavior.averageHoverDuration := Fin 0;
  Behavior.hoverVelocity := [];
  Behavior.clickCount := 0;
  Behavior.clickSpeed := [];
  Behavior.doubleClickCount := 0;
  Behavior.hoverWithoutClick := 0;
  Behavior.approachRetreatCount := n;
  Behavior.directApproaches := 0;
  Behavior.lastInteractionTime := 0
|}.

Definition retreats_text (m : Behavior.BehaviorMetrics) : string :=
  pretty (Behavior.approachRetreatCount m).

Definition retreats_of_text (s : string) : JS.completion Behavior.BehaviorMetrics :=
  match parse_digits 0 s with
  | Some n => JS.Normal (with_retreats n)
  | None => JS.Throw JS.SyntaxError
  end.

Definition with_visits (n : Z) : Memory.InteractionMemory := {|
  Memory.visitCount := n;
  Memory.totalTimeSpent := 0;
  Memory.layers := [];
  Memory.lastVisit := 0;
  Memory.recognitionLevel := Fin 0;
  Memory.revealProgress := 0;
  Memory.preferredRevealSpeed := Memory.medium
|}.

Definition visits_text (m : Memory.InteractionMemory) : string :=
  pretty (Memory.visitCount m).

Definition visits_of_text (s : string) : JS.completion Memory.InteractionMemory :=
  match parse_digits 0 s with
  | Some n => JS.Normal (with_visits n)
  | None => JS.Throw JS.SyntaxError
  end.

(** One hover of 1200ms followed by two retreats. *)
Definition hover_and_two_retreats : list Behavior.input :=
  [Behavior.HoverStart 0 0 0; Behavior.HoverEnd 1200;
   Behavior.ApproachRetreat; Behavior.ApproachRetreat].

(** ** Counting events *)

Definition is_hover_start (e : Behavior.input) : bool :=
  match e with Behavior.HoverStart _ _ _ => true | _ => false end.

Definition is_click (e : Behavior.input) : bool :=
  match e with Behavior.Click _ => true | _ => false end.

Definition is_approach_retreat (e : Behavior.input) : bool :=
  match e with Behavior.ApproachRetreat => true | _ => false end.

Definition is_move (e : Behavior.input) : bool :=
  match e with Behavior.MouseMove _ _ _ => true | _ => false end.

(** How many events of a list satisfy [p], as an integer. *)
Definition count_events {A : Type} (p : A -> bool) (l : list A) : Z :=
  Z.of_nat (length (List.filter p l)).

(** Clicks and hovers of a hook that started fresh are consistent: the
    click-speed history holds the last 11 click latencies, the first click
    is never a double click, and no more hovers ended without a click than
    started. *)
Definition behavior_counts_inv (h : Behavior.hook) : Prop :=
  let m := Behavior.metrics h in
  (0 <= Behavior.clickCount m)%Z
  /\ length (Behavior.clickSpeed m) = Nat.min 11 (Z.to_nat (Behavior.clickCount m))
  /\ (0 <= Behavior.doubleClickCount m)%Z
  /\ (Behavior.doubleClickCount m <= Z.max 0 (Behavior.clickCount m - 1))%Z.

Definition behavior_hover_inv (h : Behavior.hook) : Prop :=
  let m := Behavior.metrics h in
  (0 <= Behavior.hoverWithoutClick m)%Z
  /\ (Behavior.hoverWithoutClick m + (if Behavior.isHovering h then 1 else 0)
      <= Behavior.hoverCount m)%Z.

(** ** The components that drive the hooks *)

(** [MemoryCard]: the card forwards pointer positions normalised to its
    own bounds, never calls [onScroll], and derives what it shows from the
    memory. *)
Module MemoryCard.

Record CardLayer : Type := {
  level : Q;
  content : string
}.

Inductive event : Type :=
  | MouseEnter (now : Z)
  | MouseLeave (rendered now : Z)
  | MouseMoveAt (clientX clientY : Q) (rect : Behavior.DOMRect).

(** [handleMouseMove], for a card that is mounted and whose bounds have a
    positive width and height. *)
Definition handleMouseMove (clientX clientY : Q) (rect : Behavior.DOMRect) : Memory.input :=
  let x := (clientX - Behavior.left rect) / Behavior.width rect - 0.5 in
  let y := (clientY - Behavior.top rect) / Behavior.height rect - 0.5 in
  Memory.MouseMove (x + 0.5) (y + 0.5).

Definition forward (e : event) : Memory.input :=
  match e with
  | MouseEnter now => Memory.Enter now
  | MouseLeave rendered now => Memory.Leave rendered now
  | MouseMoveAt clientX clientY rect => handleMouseMove clientX clientY rect
  end.

(** The pointer of a move event is over the card. *)
Definition inside (e : event) : Prop :=
  match e with
  | MouseMoveAt clientX clientY rect =>
    0 < Behavior.width rect /\ 0 < Behavior.height rect
    /\ Behavior.left rect <= clientX <= Behavior.left rect + Behavior.width rect
    /\ Behavior.top rect <= clientY <= Behavior.top rect + Behavior.height rect
  | _ => True
  end.

Definition visibleLayers (layers : list CardLayer) (memory : Memory.InteractionMemory)
  : list CardLayer :=
  List.filter (fun layer => Qle_bool (level layer) (Memory.revealProgress memory)) layers.

Definition recognitionMessage (isReturningUser : bool) (memory : Memory.InteractionMemory)
  : string :=
  if (Memory.visitCount memory =? 0)%Z then "NEW_CONNECTION"
  else if isReturningUser && (3 <? Memory.visitCount memory)%Z then "IDENTITY_VERIFIED"
  else if JS.gt_fin (Memory.recognitionLevel memory) 0.7 then "FULL_SYNC"
  else if (Memory.visitCount memory =? 1)%Z then "PARTIAL_MATCH"
  else "ANALYZING...".

End MemoryCard.

(** Visits are recorded one layer each, the last 51 being kept. *)
Definition memory_layers_inv (m : Memory.InteractionMemory) : Prop :=
  (0 <= Memory.visitCount m)%Z
  /\ length (Memory.layers m) = Nat.min 51 (Z.to_nat (Memory.visitCount m))
  /\ Forall (fun layer => (length (Memory.focusPoints layer) <= 20)%nat) (Memory.layers m).

(** A position normalised to the bounds of the card. *)
Definition in_unit_square (p : Q * Q) : Prop :=
  (0 <= fst p /\ fst p <= 1) /\ (0 <= snd p /\ snd p <= 1).

(** The state the card keeps the hook in: no scroll depth is ever recorded
    and every focus point and every layer comes from normalised positions. *)
Definition card_inv (h : Memory.hook) : Prop :=
  Memory.sessionScrollDepth (Memory.currentSession h) = 0
  /\ Forall in_unit_square (Memory.sessionFocusPoints (Memory.currentSession h))
  /\ Forall (fun layer => Memory.emotionalSignature layer = Memory.curious)
            (Memory.layers (Memory.memory h)).

Definition is_scroll (a : Intent.action) : bool :=
  match a with Intent.Scroll _ _ _ => true | _ => false end.

Definition is_reset (a : Intent.action) : bool :=
  match a with Intent.ResetSignals _ => true | _ => false end.

Definition is_focus_change (a : Intent.action) : bool :=
  match a with Intent.FocusChange _ _ => true | _ => false end.

(** Every recorded velocity is a speed: not negative. *)
Definition intent_speed_inv (h : Intent.hook) : Prop :=
  Forall (fun p => 0 <= Intent.velocity p) (Intent.scrollPatterns (Intent.signals h))
  /\ 0 <= Intent.averageVelocity (Intent.signals h).

(** After [n] scroll events without a reset: a direction change needs a
    previous scroll with a direction. *)
Definition intent_direction_inv (n : Z) (h : Intent.hook) : Prop :=
  (0 <= n)%Z
  /\ (0 <= Intent.directionChanges (Intent.signals h))%Z
  /\ (Intent.directionChanges (Intent.signals h) <= Z.max 0 (n - 1))%Z
  /\ (Intent.lastDirection h <> Intent.none -> (1 <= n)%Z).

(** After [n] scroll events: every pause, counted or pending, belongs to a
    scroll event of its own. *)
Definition intent_pause_inv (n : Z) (h : Intent.hook) : Prop :=
  (0 <= Intent.pauseCount (Intent.signals h))%Z
  /\ (Intent.pauseCount (Intent.signals h) + (if Intent.pauseTimer h then 1 else 0) <= n)%Z.

(** [IntentSurface]: the layout the surface derives from the profile. *)
Module IntentSurface.

Record LayoutStyle : Type := {
  columns : Z;
  gap : Z;
  padding : Z
}.

Definition layoutStyle (isMobile : bool) (suggestedLayout : Intent.Layout) : LayoutStyle :=
  if isMobile then {| columns := 1; gap := 12; padding := 12 |}
  else
    match suggestedLayout with
    | Intent.compact => {| columns := 3; gap := 12; padding := 16 |}
    | Intent.focused => {| columns := 1; gap := 24; padding := 32 |}
    | Intent.minimal => {| columns := 4; gap := 8; padding := 12 |}
    | Intent.expanded => {| columns := 2; gap := 20; padding := 24 |}
    end.

Definition Layout_eqb (a b : Intent.Layout) : bool :=
  match a, b with
  | Intent.expanded, Intent.expanded | Intent.compact, Intent.compact
  | Intent.focused, Intent.focused | Intent.minimal, Intent.minimal => true
  | _, _ => false
  end.

Definition showSecondary (suggestedLayout : Intent.Layout) : bool :=
  negb (Layout_eqb suggestedLayout Intent.compact)
  && negb (Layout_eqb suggestedLayout Intent.minimal).

Definition showDetail (suggestedLayout : Intent.Layout) : bool :=
  Layout_eqb suggestedLayout Intent.focused.

(** The period of the ambient pulse, [3 - profile.urgency * 2]. *)
Definition pulseDuration (profile : Intent.IntentProfile) : Q :=
  3 - Intent.urgency profile * 2.

End IntentSurface.

(** [CognitiveButton]: what the button derives from the metrics. *)
Module CognitiveButton.

Record Fingerprint : Type := {
  hueShift : Z;
  morphFactor : Q
}.

(** [%] is the remainder of the truncated division. *)
Definition fingerprint (metrics : Behavior.BehaviorMetrics) : Fingerprint :=
  let seed := (Behavior.clickCount metrics * 7 + Behavior.hoverCount metrics * 3)%Z in
  {| hueShift := (Z.rem seed 30 - 15)%Z;
     morphFactor := 0.8 + inject_Z (Z.rem seed 20) / 100 |}.

(** The events the button forwards; it never calls [onApproachRetreat]. *)
Inductive event : Type :=
  | MouseEnter (now : Z) (clientX clientY : Q)
  | MouseLeave (now : Z)
  | MouseMoveAt (clientX clientY : Q) (rect : Behavior.DOMRect)
  | Press (now : Z).

Definition forward (e : event) : Behavior.input :=
  match e with
  | MouseEnter now x y => Behavior.HoverStart now x y
  | MouseLeave now => Behavior.HoverEnd now
  | MouseMoveAt x y rect => Behavior.MouseMove x y rect
  | Press now => Behavior.Click now
  end.

End CognitiveButton.

(** Focus events are recorded when the focus leaves an element. *)
Definition intent_focus_inv (n : Z) (h : Intent.hook) : Prop :=
  (0 <= n)%Z
  /\ (length (Intent.focusEvents (Intent.signals h)) <= 21)%nat
  /\ (Z.of_nat (length (Intent.focusEvents (Intent.signals h))) <= Z.max 0 (n - 1))%Z
  /\ (Intent.currentFocusElement h <> None -> (1 <= n)%Z).

(** [useCursorGlow]: the trail of glow points behind the pointer. *)
Module CursorGlow.

Record GlowPoint : Type := {
  x : Q;
  y : Q;
  intensity : Q;
  timestamp : Z
}.

Record CursorGlowConfig : Type := {
  size : Q;
  trailLength : Z;
  decay : Q
}.

Definition defaultConfig : CursorGlowConfig :=
  {| size := 300; trailLength := 8; decay := 0.92 |}.

Record hook : Type := {
  position : Q * Q;
  trail : list GlowPoint;
  velocity : Q * Q;
  isMoving : bool;
  lastPosition : Q * Q;
  lastTime : Z;
  (** the 100ms timer that ends the movement is armed *)
  moveTimeout : bool
}.

Definition initialHook (now : Z) : hook :=
  {| position := (0, 0); trail := []; velocity := (0, 0); isMoving := false;
     lastPosition := (0, 0); lastTime := now; moveTimeout := false |}.

(** [array.slice(start)] for an integer [start]: a negative start counts
    from the end. *)
Definition slice {A : Type} (start : Z) (l : list A) : list A :=
  let len := Z.of_nat (length l) in
  let from := if (start <? 0)%Z then Z.max (len + start) 0 else Z.min start len in
  drop (Z.to_nat from) l.

Section Handlers.

Variable config : CursorGlowConfig.

Definition handleMouseMove (now : Z) (clientX clientY : Q) (h : hook) : hook :=
  let dt := (now - lastTime h)%Z in
  let velocity' :=
    if (0 <? dt)%Z then
      let vx := (clientX - fst (lastPosition h)) / inject_Z dt in
      let vy := (clientY - snd (lastPosition h)) / inject_Z dt in
      (vx * 100, vy * 100)
    else velocity h in
  {| position := (clientX, clientY);
     trail :=
       slice (- trailLength config)
         (trail h ++ [{| x := clientX; y := clientY; intensity := 1; timestamp := now |}]);
     velocity := velocity';
     isMoving := true;
     lastPosition := (clientX, clientY);
     lastTime := now;
     moveTimeout := true |}.

(** The callback of the 16ms interval: the trail fades. *)
Definition onDecay (h : hook) : hook :=
  {| position := position h;
     trail :=
       List.filter (fun point => Qgtb (intensity point) 0.01)
         (map (fun point =>
                 {| x := x point; y := y point;
                    intensity := intensity point * decay config;
                    timestamp := timestamp point |})
              (trail h));
     velocity := velocity h;
     isMoving := isMoving h;
     lastPosition := lastPosition h;
     lastTime := lastTime h;
     moveTimeout := moveTimeout h |}.

(** The callback of the 100ms timer. *)
Definition onMoveTimeout (h : hook) : hook :=
  if negb (moveTimeout h) then h
  else
    {| position := position h; trail := trail h; velocity := velocity h;
       isMoving := false;
       lastPosition := lastPosition h; lastTime := lastTime h;
       moveTimeout := false |}.

Inductive action : Type :=
  | MouseMove (now : Z) (clientX clientY : Q)
  | Decay
  | MoveTimeout.

Definition handle (a : action) (h : hook) : hook :=
  match a with
  | MouseMove now clientX clientY => handleMouseMove now clientX clientY h
  | Decay => onDecay h
  | MoveTimeout => onMoveTimeout h
  end.

Definition feed (h : hook) (l : list action) : hook :=
  foldl (fun h a => handle a h) h l.

End Handlers.

End CursorGlow.

(** The glow points of a trail are visible and at most fully bright. *)
Definition glow_inv (trailLength : Z) (h : CursorGlow.hook) : Prop :=
  (Z.of_nat (length (CursorGlow.trail h)) <= trailLength)%Z
  /\ Forall (fun point => 0.01 < CursorGlow.intensity point /\ CursorGlow.intensity point <= 1)
            (CursorGlow.trail h).

(** The brightness left of a fully bright point after [k] decay ticks of
    the default configuration. *)
Fixpoint glow_after (k : nat) : Q :=
  match k with
  | O => 1
  | S k' => glow_after k' * CursorGlow.decay CursorGlow.defaultConfig
  end.

(** ** Arithmetic of clamped scores *)

Ltac qminmax_step a b spec f :=
  let H := fresh "Hm" in
  let x := fresh "x" in
  let Hx := fresh "Hx" in
  pose proof (spec a b) as H; remember (f a b) as x eqn:Hx in *; clear Hx;
  destruct H as [[? ?]|[? ?]].

Ltac qcase_minmax :=
  repeat match goal with
  | |- context [Qmin ?a ?b] => qminmax_step a b Q.min_spec Qmin
  | |- context [Qmax ?a ?b] => qminmax_step a b Q.max_spec Qmax
  | _ : context [Qmin ?a ?b] |- _ => qminmax_step a b Q.min_spec Qmin
  | _ : context [Qmax ?a ?b] |- _ => qminmax_step a b Q.max_spec Qmax
  end.

Lemma Qltb_lt a b : Qltb a b = true <-> a < b.
Proof.
  unfold Qltb. rewrite negb_true_iff, <- not_true_iff_false, Qle_bool_iff.
  split; [apply Qnot_le_lt | apply Qlt_not_le].
Qed.

Lemma Qltb_ge a b : Qltb a b = false <-> b <= a.
Proof. unfold Qltb. rewrite negb_false_iff. apply Qle_bool_iff. Qed.

Lemma Qgtb_gt a b : Qgtb a b = true <-> b < a.
Proof. apply Qltb_lt. Qed.

Lemma Qgtb_le a b : Qgtb a b = false <-> a <= b.
Proof. apply Qltb_ge. Qed.

Lemma length_slice_last {A : Type} (n : nat) (l : list A) :
  length (JS.slice_last n l) = Nat.min n (length l).
Proof. unfold JS.slice_last. rewrite length_drop. lia. Qed.

Lemma length_slice_push {A : Type} (n : nat) (l : list A) (x : A) :
  length (JS.slice_last n l ++ [x]) = S (Nat.min n (length l)).
Proof. rewrite length_app, length_slice_last. simpl. lia. Qed.

Lemma clamp_unit q : unit_interval (Qmin 1 (Qmax 0 q)).
Proof. unfold unit_interval. qcase_minmax; lra. Qed.

Lemma clamp_gt q c : 0 <= c -> c < 1 -> Qgtb (Qmin 1 (Qmax 0 q)) c = Qgtb q c.
Proof.
  intros H0 H1. destruct (Qgtb q c) eqn:E.
  - apply Qgtb_gt in E. apply Qgtb_gt. qcase_minmax; lra.
  - apply Qgtb_le in E. apply Qgtb_le. qcase_minmax; lra.
Qed.

Lemma js_clamp_gt x c :
  0 <= c -> c < 1 -> JS.gt_fin (JS.min_fin 1 (JS.max_fin 0 x)) c = JS.gt_fin x c.
Proof.
  intros H0 H1. destruct x as [q| | |]; simpl.
  - now apply clamp_gt.
  - now apply Qgtb_gt.
  - apply Qgtb_le. qcase_minmax; lra.
  - reflexivity.
Qed.

Lemma js_clamp_unit x : x <> NaN -> js_unit_interval (JS.min_fin 1 (JS.max_fin 0 x)).
Proof.
  intros Hx. destruct x as [q| | |]; simpl.
  - apply clamp_unit.
  - unfold unit_interval; lra.
  - unfold unit_interval. qcase_minmax; lra.
  - congruence.
Qed.

Lemma inject_Z_nonneg z : (0 <= z)%Z -> 0 <= inject_Z z.
Proof. intros H. change 0 with (inject_Z 0). now rewrite <- Zle_Qle. Qed.

Lemma inject_Z_pos z : (0 < z)%Z -> 0 < inject_Z z.
Proof. intros H. change 0 with (inject_Z 0). now rewrite <- Zlt_Qlt. Qed.

Lemma Qdiv_nonneg a b : 0 <= a -> 0 < b -> 0 <= a / b.
Proof. intros Ha Hb. apply Qle_shift_div_l; [assumption | lra]. Qed.

Lemma div_fin_finite a b : (0 < b)%Z ->
  JS.div_fin (inject_Z a) (inject_Z b) = Fin (inject_Z a / inject_Z b).
Proof.
  intros Hb. unfold JS.div_fin.
  destruct (Qeq_bool (inject_Z b) 0) eqn:E; [|reflexivity].
  apply Qeq_bool_eq in E. pose proof (inject_Z_pos b Hb). lra.
Qed.

(** ** Behavior Profile: the profile calculator *)

Lemma engagement_not_NaN m :
  Behavior.averageHoverDuration m <> NaN -> Behavior.calcEngagement m <> NaN.
Proof.
  unfold Behavior.calcEngagement, Behavior.hoverEngagement.
  destruct (Behavior.averageHoverDuration m); simpl; congruence.
Qed.

(** Whatever the size of the counters and durations, the scores of
    [calculateProfile] are in the unit interval as long as the interaction
    count is not negative and the average hover duration is a number. *)
Lemma calculateProfile_unit m :
  (0 <= Behavior.clickCount m + Behavior.hoverCount m)%Z ->
  Behavior.averageHoverDuration m <> NaN ->
  let p := Behavior.calculateProfile m in
  unit_interval (Behavior.confidence p)
  /\ js_unit_interval (Behavior.engagement p)
  /\ unit_interval (Behavior.familiarity p).
Proof.
  intros Hcount Havg p. subst p. unfold Behavior.calculateProfile. cbn [Behavior.confidence
    Behavior.engagement Behavior.familiarity]. repeat split.
  - apply clamp_unit.
  - apply clamp_unit.
  - apply js_clamp_unit, engagement_not_NaN, Havg.
  - unfold Behavior.calcFamiliarity.
    pose proof (Qdiv_nonneg _ 50 (inject_Z_nonneg _ Hcount) ltac:(lra)).
    qcase_minmax; lra.
  - unfold Behavior.calcFamiliarity. qcase_minmax; lra.
Qed.

(** Multiplication of doubles is commutative: the design document writes
    the weights before the scores, the code after them. *)
Lemma SFmul_comm prec emax x y : SFmul prec emax x y = SFmul prec emax y x.
Proof.
  destruct x as [sx|sx| |sx mx ex], y as [sy|sy| |sy my ey]; cbn [SFmul];
    try reflexivity; rewrite ?(xorb_comm sx sy); try reflexivity.
  now rewrite (Pos.mul_comm mx my), (Z.add_comm ex ey).
Qed.

Lemma mul64_comm (a b : float) : (a * b)%float = (b * a)%float.
Proof.
  rewrite <- (SF2Prim_Prim2SF (a * b)), <- (SF2Prim_Prim2SF (b * a)), !mul_spec.
  unfold SF64mul. now rewrite SFmul_comm.
Qed.

(** C4: for every accumulator, [calculateProfile] selects the personality
    by the priority-ordered rule chain of the design document, the first
    matching rule winning: familiarity > 0.7 and confidence > 0.6 gives calm;
    else confidence > 0.7 and directApproaches > 3 gives assertive; else
    hoverWithoutClick > 5 or approachRetreatCount > 3 gives inviting; else
    engagement > 0.6 and averageHoverDuration > 800 gives curious; else
    approachRetreatCount > 1 or average click latency > 1500 gives hesitant;
    else calm.  Familiarity, confidence, engagement and the average click
    latency are the functions of the accumulator that the design document
    defines, and every number is a double, as in the code. *)
Theorem personality_rule_chain (m : Behavior64.BehaviorMetrics) :
  Behavior64.personality (Behavior64.calculateProfile m)
  = first_match (personality_rules m) Behavior.calm.
Proof.
  unfold first_match, personality_rules, Behavior64.calculateProfile.
  cbn [Behavior64.personality].
  unfold spec_familiarity, spec_confidence, spec_engagement,
    spec_clickSpeedConfidence, spec_directApproachRatio, spec_avgClickLatency.
  rewrite (mul64_comm 0.6), (mul64_comm 0.4), (mul64_comm 0.1).
  destruct (Behavior64.clickSpeed m) as [|c cs] eqn:Hc;
    cbn [length Nat.ltb Nat.leb find fst];
    repeat match goal with
    | |- context [if ?b then _ else _] => destruct b; try reflexivity
    end.
Qed.

(** Where a score meets a threshold up to rounding, the exact model and the
    double-precision function part ways.  After one hover of 1200ms and two
    retreats the engagement is 0.8 - 0.2: exactly 0.6 in rationals, which is
    not above the threshold, and 0.6000000000000001 in doubles, which is.
    The code answers curious; the exact model answers hesitant. *)
Lemma personality_threshold_rounding sqrt :
  let m := Behavior.metrics
             (Behavior.feed sqrt (Behavior.initialHook Behavior.getDefaultMetrics)
                hover_and_two_retreats) in
  Behavior.personality (Behavior.calculateProfile m) = Behavior.hesitant
  /\ Behavior64.personality (Behavior64.calculateProfile (Behavior64.of_exact m))
     = Behavior.curious.
Proof. split; vm_compute; reflexivity. Qed.

(** C10: with an empty click-speed history the average click latency is
    1000ms and clickSpeedConfidence is 0.5; an accumulator with no click, no
    hover and no direct approach has confidence exactly 0.3. *)
Theorem empty_click_history_confidence (m : Behavior.BehaviorMetrics) :
  Behavior.clickSpeed m = [] ->
  Behavior.avgClickSpeed m = 1000
  /\ Behavior.clickSpeedConfidence m == 0.5
  /\ (Behavior.clickCount m = 0%Z -> Behavior.hoverCount m = 0%Z ->
      Behavior.directApproaches m = 0%Z ->
      Behavior.confidence (Behavior.calculateProfile m) == 0.3).
Proof.
  intros Hempty.
  assert (Havg : Behavior.avgClickSpeed m = 1000).
  { unfold Behavior.avgClickSpeed. now rewrite Hempty. }
  split; [exact Havg|]. split.
  - unfold Behavior.clickSpeedConfidence. rewrite Havg. reflexivity.
  - intros _ Hhover _. unfold Behavior.calculateProfile, Behavior.calcConfidence,
      Behavior.clickSpeedConfidence, Behavior.directApproachRatio.
    cbn [Behavior.confidence]. rewrite Havg, Hhover. reflexivity.
Qed.

Lemma empty_click_history_confidence_witness :
  Behavior.clickSpeed Behavior.getDefaultMetrics = []
  /\ Behavior.confidence (Behavior.calculateProfile Behavior.getDefaultMetrics) == 0.3.
Proof.
  split; [reflexivity|].
  apply (empty_click_history_confidence Behavior.getDefaultMetrics); reflexivity.
Defined.

(** ** Behavior Profile: invariants of the hook *)

Lemma foldl_invariant {A B : Type} (P : A -> Prop) (f : A -> B -> A) :
  (forall a b, P a -> P (f a b)) -> forall l a, P a -> P (foldl f a l).
Proof.
  intros Hstep l. induction l as [|b l IH]; intros a Ha; simpl; [assumption|].
  apply IH, Hstep, Ha.
Qed.

Lemma onMouseMove_counts sqrt x y rect h :
  let h' := Behavior.onMouseMove sqrt x y rect h in
  Behavior.clickCount (Behavior.metrics h') = Behavior.clickCount (Behavior.metrics h)
  /\ Behavior.hoverCount (Behavior.metrics h') = Behavior.hoverCount (Behavior.metrics h)
  /\ Behavior.averageHoverDuration (Behavior.metrics h')
     = Behavior.averageHoverDuration (Behavior.metrics h)
  /\ Behavior.isHovering h' = Behavior.isHovering h
  /\ Behavior.profile h' = Behavior.profile h.
Proof.
  unfold Behavior.onMouseMove.
  destruct (Behavior.lastMousePosition h) as [[lx ly]|]; [|repeat split].
  cbv zeta.
  repeat match goal with
  | |- context [if ?b then _ else _] => destruct b
  end; repeat split.
Qed.

Lemma behavior_handle_inv sqrt e h :
  behavior_inv h -> behavior_inv (Behavior.handle sqrt e h).
Proof.
  intros (Hc & Hh & Hhov & Havg). destruct e as [now x y|now|x y rect|now|]; simpl.
  - repeat split; simpl; try lia; assumption.
  - unfold Behavior.onHoverEnd. destruct (Behavior.isHovering h) eqn:E; simpl.
    + repeat split; simpl; try lia; try discriminate.
      rewrite div_fin_finite by auto. discriminate.
    + repeat split; try assumption. congruence.
  - unfold behavior_inv.
    destruct (onMouseMove_counts sqrt x y rect h) as (-> & -> & -> & -> & _).
    repeat split; assumption.
  - repeat split; simpl; try lia; assumption.
  - repeat split; simpl; try lia; assumption.
Qed.

Lemma behavior_commit_inv stringify id w :
  behavior_inv (Behavior.hk w) -> behavior_inv (Behavior.hk (Behavior.commit stringify id w)).
Proof. unfold Behavior.commit. destruct (Behavior.pending (Behavior.hk w)); auto. Qed.

Lemma behavior_run_inv stringify sqrt id (evs : list Behavior.input) w :
  behavior_inv (Behavior.hk w) ->
  behavior_inv (Behavior.hk (Behavior.run stringify sqrt id w (map Behavior.Input evs))).
Proof.
  revert w. induction evs as [|e evs IH]; intros w Hw; simpl; [assumption|].
  apply IH. unfold Behavior.dispatch. apply behavior_commit_inv. simpl.
  now apply behavior_handle_inv.
Qed.

Lemma behavior_handle_quiet sqrt e h :
  Behavior.pending h = false ->
  Behavior.profile (Behavior.handle sqrt e h) = Behavior.profile h
  /\ (Behavior.pending (Behavior.handle sqrt e h) = false ->
      Behavior.metrics (Behavior.handle sqrt e h) = Behavior.metrics h).
Proof.
  intros Hp. destruct e as [now x y|now|x y rect|now|]; simpl.
  - split; [reflexivity | discriminate].
  - unfold Behavior.onHoverEnd. destruct (Behavior.isHovering h); simpl;
      (split; [reflexivity | try discriminate; reflexivity]).
  - unfold Behavior.onMouseMove.
    destruct (Behavior.lastMousePosition h) as [[lx ly]|]; [|split; reflexivity].
    cbv zeta.
    repeat match goal with
    | |- context [if ?b then _ else _] => destruct b
    end; simpl; (split; [reflexivity | try discriminate; reflexivity]).
  - split; [reflexivity | discriminate].
  - split; [reflexivity | discriminate].
Qed.

Lemma behavior_commit_pending stringify id w :
  Behavior.pending (Behavior.hk w) = true ->
  behavior_synced stringify id (Behavior.commit stringify id w).
Proof.
  intros Hp. unfold Behavior.commit. rewrite Hp. repeat split; simpl.
  apply lookup_insert_eq.
Qed.

Lemma behavior_dispatch_synced stringify sqrt id w a :
  behavior_synced stringify id w ->
  behavior_synced stringify id (Behavior.dispatch stringify sqrt id w a).
Proof.
  intros (Hp & Hprof & Hstore). unfold Behavior.dispatch. destruct a as [e|].
  - destruct (behavior_handle_quiet sqrt e (Behavior.hk w) Hp) as [Hpr Hq].
    destruct (Behavior.pending (Behavior.handle sqrt e (Behavior.hk w))) eqn:E.
    + apply behavior_commit_pending. exact E.
    + unfold Behavior.commit. simpl. rewrite E.
      repeat split; simpl; rewrite ?Hq by reflexivity; congruence.
  - apply behavior_commit_pending. reflexivity.
Qed.

Lemma behavior_mounted_synced stringify id m store :
  behavior_synced stringify id (Behavior.mounted stringify id m store).
Proof. apply behavior_commit_pending. reflexivity. Qed.

Lemma behavior_run_synced stringify sqrt id l w :
  behavior_synced stringify id w ->
  behavior_synced stringify id (Behavior.run stringify sqrt id w l).
Proof.
  apply foldl_invariant. intros. now apply behavior_dispatch_synced.
Qed.

(** ** Behavior Profile: the handlers and the effects *)

Lemma behavior_handle_same sqrt e h h' :
  behavior_same h h' -> behavior_same (Behavior.handle sqrt e h) (Behavior.handle sqrt e h').
Proof.
  destruct h, h'. unfold behavior_same. simpl. intros (-> & -> & -> & -> & ->).
  destruct e as [now x y|now|x y rect|now|]; simpl.
  - repeat split.
  - unfold Behavior.onHoverEnd; simpl. destruct isHovering0; simpl; repeat split.
  - unfold Behavior.onMouseMove; simpl.
    destruct lastMousePosition0 as [[lx ly]|]; [|repeat split].
    cbv zeta.
    match goal with
    | |- context [Qgtb ?a ?b && Qltb ?c ?d] => destruct (Qgtb a b && Qltb c d)
    end; destruct isHovering0; simpl; repeat split.
  - repeat split.
  - repeat split.
Qed.

Lemma behavior_commit_same stringify id w :
  behavior_same (Behavior.hk (Behavior.commit stringify id w)) (Behavior.hk w).
Proof. unfold Behavior.commit. destruct (Behavior.pending (Behavior.hk w)); repeat split. Qed.

Lemma behavior_same_trans h1 h2 h3 :
  behavior_same h1 h2 -> behavior_same h2 h3 -> behavior_same h1 h3.
Proof. unfold behavior_same. intuition congruence. Qed.

(** Running the events with the effects gives the metrics and refs that
    the handlers alone give. *)
Lemma behavior_run_feed stringify sqrt id evs : forall w h,
  behavior_same (Behavior.hk w) h ->
  behavior_same (Behavior.hk (Behavior.run stringify sqrt id w (map Behavior.Input evs)))
                (Behavior.feed sqrt h evs).
Proof.
  induction evs as [|e evs IH]; intros w h Hs; simpl; [assumption|].
  apply IH. unfold Behavior.dispatch.
  eapply behavior_same_trans; [apply behavior_commit_same|]. simpl.
  now apply behavior_handle_same.
Qed.

Lemma behavior_feed_cons sqrt h e l :
  Behavior.feed sqrt h (e :: l) = Behavior.feed sqrt (Behavior.handle sqrt e h) l.
Proof. reflexivity. Qed.

Lemma behavior_feed_app sqrt h l1 l2 :
  Behavior.feed sqrt h (l1 ++ l2) = Behavior.feed sqrt (Behavior.feed sqrt h l1) l2.
Proof. unfold Behavior.feed. apply foldl_app. Qed.

(** ** Behavior Profile: the hover-velocity history *)

Lemma onMouseMove_hovering sqrt x y rect h :
  Behavior.isHovering h = true -> Behavior.lastMousePosition h <> None ->
  let h' := Behavior.onMouseMove sqrt x y rect h in
  length (Behavior.hoverVelocity (Behavior.metrics h'))
  = S (Nat.min 20 (length (Behavior.hoverVelocity (Behavior.metrics h))))
  /\ Behavior.isHovering h' = true /\ Behavior.lastMousePosition h' <> None.
Proof.
  destruct h as [m p t pos hov d pe]. simpl. intros -> Hpos. unfold Behavior.onMouseMove.
  simpl. destruct pos as [[lx ly]|]; [|congruence].
  cbv zeta.
  match goal with
  | |- context [Qgtb ?a ?b && Qltb ?c ?d] => destruct (Qgtb a b && Qltb c d)
  end; simpl; rewrite length_slice_push; repeat split; congruence.
Qed.

Lemma behavior_moves_length sqrt moves : forall h,
  Behavior.isHovering h = true -> Behavior.lastMousePosition h <> None ->
  (length (Behavior.hoverVelocity (Behavior.metrics h)) <= 21)%nat ->
  length (Behavior.hoverVelocity (Behavior.metrics
    (Behavior.feed sqrt h (behavior_moves moves))))
  = Nat.min 21 (length (Behavior.hoverVelocity (Behavior.metrics h)) + length moves).
Proof.
  unfold Behavior.feed, behavior_moves.
  induction moves as [|[[x y] rect] moves IH]; intros h Hhov Hpos Hlen;
    cbn [map foldl Behavior.handle length fst snd].
  - lia.
  - destruct (onMouseMove_hovering sqrt x y rect h Hhov Hpos) as (Hl & Hh & Hp).
    rewrite IH by (try assumption; lia). lia.
Qed.

(** The history never holds more than 21 velocities, whatever the history
    of events and resets, once it holds at most 21. *)
Lemma hoverVelocity_bound sqrt e h :
  (length (Behavior.hoverVelocity (Behavior.metrics h)) <= 21)%nat ->
  (length (Behavior.hoverVelocity (Behavior.metrics (Behavior.handle sqrt e h))) <= 21)%nat.
Proof.
  intros Hlen. destruct e as [now x y|now|x y rect|now|]; simpl; try assumption.
  - unfold Behavior.onHoverEnd. destruct (Behavior.isHovering h); simpl; assumption.
  - unfold Behavior.onMouseMove.
    destruct (Behavior.lastMousePosition h) as [[lx ly]|]; [|assumption].
    cbv zeta.
    match goal with
    | |- context [Qgtb ?a ?b && Qltb ?c ?d] => destruct (Qgtb a b && Qltb c d)
    end; destruct (Behavior.isHovering h) eqn:E; simpl; rewrite ?E; simpl;
      rewrite ?length_slice_push; lia.
Qed.

(** ** Interaction Memory: invariants of the hook *)

Lemma timeSinceLastVisit_cases now m :
  Memory.timeSinceLastVisit now m = PosInf
  \/ exists t, Memory.timeSinceLastVisit now m = Fin t.
Proof.
  unfold Memory.timeSinceLastVisit. destruct (Memory.lastVisit m =? 0)%Z; eauto.
Qed.

Lemma decayFactor_finite now m :
  exists d, Memory.decayFactor (Memory.timeSinceLastVisit now m) = Fin d /\ 0.5 <= d.
Proof.
  destruct (timeSinceLastVisit_cases now m) as [->|[t ->]]; unfold Memory.decayFactor; simpl.
  - exists 0.5. split; [reflexivity | lra].
  - eexists. split; [reflexivity|]. qcase_minmax; lra.
Qed.

Lemma recognitionGrowth_range t : 0 <= Memory.recognitionGrowth t /\ Memory.recognitionGrowth t <= 1.
Proof. destruct t; unfold Memory.recognitionGrowth; lra. Qed.

Lemma revealIncrease_nonneg t : 0 <= Memory.revealIncrease t.
Proof. destruct t; unfold Memory.revealIncrease; lra. Qed.

Lemma remember_inv rendered now layer m :
  memory_inv m ->
  memory_inv (Memory.remember now (Memory.timeSinceLastVisit rendered m) layer m).
Proof.
  intros [Hrec Hrev]. unfold memory_inv, Memory.remember. cbn [Memory.recognitionLevel Memory.revealProgress].
  destruct (decayFactor_finite rendered m) as (d & -> & Hd).
  destruct (Memory.recognitionLevel m) as [r| | |]; simpl in Hrec; try contradiction.
  destruct Hrec as [Hr0 Hr1]. destruct Hrev as [Hp0 Hp1].
  pose proof (recognitionGrowth_range (Memory.interactionType layer)) as [Hg0 Hg1].
  pose proof (revealIncrease_nonneg (Memory.interactionType layer)) as Hi.
  assert (0 <= r * d) by (apply Qmult_le_0_compat; lra).
  split; simpl; unfold unit_interval; qcase_minmax; lra.
Qed.

Lemma memory_handle_inv sqrt e h :
  memory_inv (Memory.memory h) -> memory_inv (Memory.memory (Memory.handle sqrt e h)).
Proof.
  intros Hinv. destruct e as [now|rendered now|x y|depth]; simpl; try assumption.
  - unfold Memory.onLeave. destruct (Memory.isActive (Memory.currentSession h)); simpl;
      [|assumption]. now apply remember_inv.
  - unfold Memory.onMouseMove. destruct (Memory.isActive (Memory.currentSession h)); simpl; assumption.
Qed.

Lemma memory_dispatch_inv stringify sqrt id w a :
  memory_inv (Memory.memory (Memory.hk w)) ->
  memory_inv (Memory.memory (Memory.hk (Memory.dispatch stringify sqrt id w a))).
Proof.
  intros Hinv. unfold Memory.dispatch, Memory.commit.
  destruct a as [e|]; simpl.
  - destruct (Memory.pending (Memory.handle sqrt e (Memory.hk w))); simpl;
      now apply memory_handle_inv.
  - split; simpl; unfold unit_interval; lra.
Qed.

Lemma memory_handle_quiet sqrt e h :
  Memory.pending h = false ->
  Memory.pending (Memory.handle sqrt e h) = false ->
  Memory.memory (Memory.handle sqrt e h) = Memory.memory h.
Proof.
  intros Hp. destruct e as [now|rendered now|x y|depth]; simpl; try reflexivity.
  - unfold Memory.onLeave. destruct (Memory.isActive (Memory.currentSession h)); simpl;
      [discriminate | reflexivity].
  - unfold Memory.onMouseMove. destruct (Memory.isActive (Memory.currentSession h)); reflexivity.
Qed.

Lemma memory_commit_pending stringify id w :
  Memory.pending (Memory.hk w) = true ->
  memory_synced stringify id (Memory.commit stringify id w).
Proof.
  intros Hp. unfold Memory.commit. rewrite Hp. split; simpl; [reflexivity|].
  apply lookup_insert_eq.
Qed.

Lemma memory_dispatch_synced stringify sqrt id w a :
  memory_synced stringify id w ->
  memory_synced stringify id (Memory.dispatch stringify sqrt id w a).
Proof.
  intros (Hp & Hstore). unfold Memory.dispatch. destruct a as [e|].
  - pose proof (memory_handle_quiet sqrt e (Memory.hk w) Hp) as Hq.
    destruct (Memory.pending (Memory.handle sqrt e (Memory.hk w))) eqn:E.
    + apply memory_commit_pending. exact E.
    + unfold Memory.commit. simpl. rewrite E.
      split; simpl; rewrite ?Hq by reflexivity; congruence.
  - apply memory_commit_pending. reflexivity.
Qed.

Lemma memory_visit_length sqrt t r t' h :
  let h' := Memory.onLeave sqrt r t' (Memory.onEnter t h) in
  length (Memory.layers (Memory.memory h'))
  = S (Nat.min 50 (length (Memory.layers (Memory.memory h)))).
Proof.
  cbv zeta. unfold Memory.onLeave, Memory.onEnter.
  cbn [Memory.currentSession Memory.isActive negb Memory.memory Memory.remember Memory.layers].
  apply length_slice_push.
Qed.

Lemma memory_visits_length sqrt visits : forall h,
  (length (Memory.layers (Memory.memory h)) <= 51)%nat ->
  length (Memory.layers (Memory.memory (Memory.feed sqrt h (memory_visits visits))))
  = Nat.min 51 (length (Memory.layers (Memory.memory h)) + length visits).
Proof.
  unfold Memory.feed, memory_visits.
  induction visits as [|[[t r] t'] visits IH]; intros h Hlen;
    cbn [flat_map app foldl Memory.handle length fst snd].
  - lia.
  - pose proof (memory_visit_length sqrt t r t' h) as Hl. cbv zeta in Hl.
    rewrite IH by lia. lia.
Qed.

(** ** Intent Detection: the calculator and the hook *)

Lemma calculateIntent_unit now s :
  let p := Intent.calculateIntent now s in
  unit_interval (Intent.confidence p)
  /\ unit_interval (Intent.attention p)
  /\ unit_interval (Intent.urgency p).
Proof.
  cbv zeta. unfold Intent.calculateIntent.
  destruct (Qgtb (Intent.recentVelocity s) 300 && (Intent.pauseCount s <? 2)%Z
            && (Intent.directionChanges s <? 3)%Z) eqn:E1.
  { apply andb_prop in E1 as [E1 _]. apply andb_prop in E1 as [E1 _].
    apply Qgtb_gt in E1. cbn [Intent.confidence Intent.attention Intent.urgency].
    pose proof (Qdiv_nonneg (Intent.recentVelocity s) 500 ltac:(lra) ltac:(lra)).
    unfold unit_interval. repeat split; try lra; qcase_minmax; lra. }
  destruct (Qltb (Intent.recentVelocity s) 100 && (3 <? Intent.pauseCount s)%Z
            && Qgtb (Intent.avgFocusDuration s) 1000) eqn:E2.
  { apply andb_prop in E2 as [_ E2]. apply Qgtb_gt in E2.
    cbn [Intent.confidence Intent.attention Intent.urgency].
    pose proof (Qdiv_nonneg (Intent.avgFocusDuration s) 3000 ltac:(lra) ltac:(lra)).
    unfold unit_interval. repeat split; try lra; qcase_minmax; lra. }
  destruct ((5 <? Intent.directionChanges s)%Z && Qgtb (Intent.recentVelocity s) 50
            && Qltb (Intent.recentVelocity s) 300) eqn:E3.
  { apply andb_prop in E3 as [E3 _]. apply andb_prop in E3 as [E3 _].
    apply Z.ltb_lt in E3.
    cbn [Intent.confidence Intent.attention Intent.urgency].
    assert (E3' : (0 <= Intent.directionChanges s)%Z) by lia.
    pose proof (Qdiv_nonneg _ 10 (inject_Z_nonneg _ E3') ltac:(lra)).
    unfold unit_interval. repeat split; try lra; qcase_minmax; lra. }
  destruct ((5 <? Intent.pauseCount s)%Z && Qltb (Intent.recentVelocity s) 50
            && Qgtb (Intent.avgFocusDuration s) 500) eqn:E4.
  { apply andb_prop in E4 as [E4 _]. apply andb_prop in E4 as [E4 _].
    apply Z.ltb_lt in E4.
    cbn [Intent.confidence Intent.attention Intent.urgency].
    assert (E4' : (0 <= Intent.pauseCount s)%Z) by lia.
    pose proof (Qdiv_nonneg _ 8 (inject_Z_nonneg _ E4') ltac:(lra)).
    unfold unit_interval. repeat split; try lra; qcase_minmax; lra. }
  destruct ((5000 <? now - Intent.lastActivity s)%Z || Qgtb (Intent.recentVelocity s) 500);
    cbn [Intent.confidence Intent.attention Intent.urgency];
    unfold unit_interval; repeat split; lra.
Qed.

Lemma calculateIntent_clock now1 now2 s :
  (5000 <? now1 - Intent.lastActivity s)%Z = (5000 <? now2 - Intent.lastActivity s)%Z ->
  Intent.calculateIntent now1 s = Intent.calculateIntent now2 s.
Proof. intros H. unfold Intent.calculateIntent. now rewrite H. Qed.

Lemma intent_run_store l : forall w,
  Intent.localStorage (Intent.run w l) = Intent.localStorage w.
Proof.
  induction l as [|a l IH]; intros w; simpl; [reflexivity|].
  unfold Intent.run in IH. now rewrite IH.
Qed.

Lemma intent_scroll_length t y c h :
  length (Intent.scrollPatterns (Intent.signals (Intent.onScroll t y c h)))
  = S (Nat.min 30 (length (Intent.scrollPatterns (Intent.signals h)))).
Proof.
  unfold Intent.onScroll. cbv zeta.
  cbn [Intent.signals Intent.setSignals Intent.scrollPatterns].
  apply length_slice_push.
Qed.

Lemma intent_scrolls_length scrolls : forall h,
  (length (Intent.scrollPatterns (Intent.signals h)) <= 31)%nat ->
  length (Intent.scrollPatterns (Intent.signals (Intent.feed h (intent_scrolls scrolls))))
  = Nat.min 31 (length (Intent.scrollPatterns (Intent.signals h)) + length scrolls).
Proof.
  unfold Intent.feed, intent_scrolls.
  induction scrolls as [|[[t y] c] scrolls IH]; intros h Hlen;
    cbn [map foldl Intent.handle length fst snd].
  - lia.
  - pose proof (intent_scroll_length t y c h) as Hl.
    rewrite IH by lia. lia.
Qed.

(** ** Bounded histories *)

(** C1: the bounded histories hold one entry more than the capacity the
    design document declares.  Each is trimmed to its last 20, 30 or 50
    entries before the new entry is appended: after 21 or more pointer moves
    in an open hover session the hover-velocity history holds 21 entries,
    after 31 or more scroll events the scroll-pattern history holds 31, and
    after 51 or more visits the layer history holds 51. *)
Theorem bounded_histories_hold_one_more :
  (forall sqrt now x y moves, (21 <= length moves)%nat ->
     length (Behavior.hoverVelocity (Behavior.metrics
       (Behavior.feed sqrt (Behavior.initialHook Behavior.getDefaultMetrics)
          (Behavior.HoverStart now x y :: behavior_moves moves)))) = 21%nat)
  /\ (forall t0 scrolls, (31 <= length scrolls)%nat ->
     length (Intent.scrollPatterns (Intent.signals
       (Intent.feed (Intent.initialHook t0) (intent_scrolls scrolls)))) = 31%nat)
  /\ (forall sqrt visits, (51 <= length visits)%nat ->
     length (Memory.layers (Memory.memory
       (Memory.feed sqrt (Memory.initialHook Memory.getDefaultMemory)
          (memory_visits visits)))) = 51%nat).
Proof.
  split; [|split].
  - intros sqrt now x y moves Hn. rewrite behavior_feed_cons.
    set (h := Behavior.handle sqrt _ _).
    assert (Hh : Behavior.hoverVelocity (Behavior.metrics h) = []) by reflexivity.
    rewrite behavior_moves_length; rewrite ?Hh; cbn [length];
      [lia | reflexivity | discriminate | lia].
  - intros t0 scrolls Hn. rewrite intent_scrolls_length; cbn [length Intent.initialHook
      Intent.signals Intent.initialSignals Intent.scrollPatterns]; lia.
  - intros sqrt visits Hn. rewrite memory_visits_length; cbn [length Memory.initialHook
      Memory.memory Memory.getDefaultMemory Memory.layers]; lia.
Qed.

Lemma bounded_histories_hold_one_more_witness :
  length (Behavior.hoverVelocity (Behavior.metrics
    (Behavior.feed sqrt_floor (Behavior.initialHook Behavior.getDefaultMetrics)
       (Behavior.HoverStart 0 0 0 :: behavior_moves (repeat (3, 4, sample_rect) 1000))))) = 21%nat
  /\ length (Intent.scrollPatterns (Intent.signals
       (Intent.feed (Intent.initialHook 0)
          (intent_scrolls (repeat (100%Z, 40, 1000) 31))))) = 31%nat
  /\ length (Memory.layers (Memory.memory
       (Memory.feed sqrt_floor (Memory.initialHook Memory.getDefaultMemory)
          (memory_visits (repeat (0%Z, 0%Z, 700%Z) 51))))) = 51%nat.
Proof.
  destruct bounded_histories_hold_one_more as (HB & HI & HM).
  split; [|split].
  - apply HB. vm_compute. lia.
  - apply HI. vm_compute. lia.
  - apply HM. vm_compute. lia.
Defined.


(** ** Scores *)

Lemma behavior_fresh_inv stringify id :
  behavior_inv (Behavior.hk (Behavior.fresh stringify id)).
Proof. repeat split; simpl; try lia; discriminate. Qed.

Lemma memory_run_inv stringify sqrt id l w :
  memory_inv (Memory.memory (Memory.hk w)) ->
  memory_inv (Memory.memory (Memory.hk (Memory.run stringify sqrt id w l))).
Proof.
  apply (foldl_invariant (fun w => memory_inv (Memory.memory (Memory.hk w)))).
  intros. now apply memory_dispatch_inv.
Qed.

(** C2: every continuous score lies in the unit interval.  For the
    Behavior Profile: confidence, engagement and familiarity of the exposed
    profile after any sequence of input events on a fresh accumulator.  For
    the Interaction Memory: recognitionLevel and revealProgress after any
    sequence of events and resets.  For the Intent Detection: confidence,
    attention and urgency of [calculateIntent] on any signals, at any clock
    reading. *)
Theorem scores_in_unit_interval :
  (forall stringify sqrt id (evs : list Behavior.input),
     let w := Behavior.run stringify sqrt id (Behavior.fresh stringify id)
                (map Behavior.Input evs) in
     unit_interval (Behavior.confidence (Behavior.profile (Behavior.hk w)))
     /\ js_unit_interval (Behavior.engagement (Behavior.profile (Behavior.hk w)))
     /\ unit_interval (Behavior.familiarity (Behavior.profile (Behavior.hk w))))
  /\ (forall stringify sqrt id (l : list Memory.action),
     let w := Memory.run stringify sqrt id (Memory.fresh stringify id) l in
     js_unit_interval (Memory.recognitionLevel (Memory.memory (Memory.hk w)))
     /\ unit_interval (Memory.revealProgress (Memory.memory (Memory.hk w))))
  /\ (forall now signals,
     let p := Intent.calculateIntent now signals in
     unit_interval (Intent.confidence p)
     /\ unit_interval (Intent.attention p)
     /\ unit_interval (Intent.urgency p)).
Proof.
  split; [|split].
  - intros stringify sqrt id evs w.
    destruct (behavior_run_synced stringify sqrt id (map Behavior.Input evs)
                (Behavior.fresh stringify id)
                (behavior_mounted_synced stringify id _ _)) as (_ & Hprof & _).
    destruct (behavior_run_inv stringify sqrt id evs (Behavior.fresh stringify id)
                (behavior_fresh_inv stringify id)) as (Hc & Hh & _ & Havg).
    subst w. rewrite Hprof. apply calculateProfile_unit; [lia | exact Havg].
  - intros stringify sqrt id l w. subst w. apply memory_run_inv.
    split; simpl; unfold unit_interval; lra.
  - intros now signals. apply calculateIntent_unit.
Qed.


(** ** Determinism *)

(** Counterexample to C3: on one accumulator, [calculateIntent] returns
    browsing when evaluated 1000ms after the last activity and leaving when
    evaluated 6001ms after it. *)
Lemma calculateIntent_reads_clock :
  Intent.calculateIntent 1000 (Intent.initialSignals 0)
  <> Intent.calculateIntent 6001 (Intent.initialSignals 0).
Proof. vm_compute. discriminate. Qed.

(** C3, amended: the profile the Behavior Profile hook exposes is
    [calculateProfile] of the current metrics alone, and currentMood is a
    function of the layers alone.  The render-time fields of the
    Interaction Memory (timeSinceLastVisit, isReturningUser) and
    [calculateIntent] also read the clock: they are determined by the
    accumulator and the clock reading, and [calculateIntent] depends on the
    clock only through the test that more than 5000ms passed since the last
    activity. *)
Theorem profile_determined_by_accumulator_and_clock :
  (forall stringify sqrt id (l : list Behavior.action),
     let w := Behavior.run stringify sqrt id (Behavior.fresh stringify id) l in
     Behavior.profile (Behavior.hk w) = Behavior.calculateProfile (Behavior.metrics (Behavior.hk w)))
  /\ (forall m1 m2, Memory.layers m1 = Memory.layers m2 ->
     Memory.currentMood m1 = Memory.currentMood m2)
  /\ (forall now m1 m2,
     Memory.lastVisit m1 = Memory.lastVisit m2 ->
     Memory.visitCount m1 = Memory.visitCount m2 ->
     Memory.timeSinceLastVisit now m1 = Memory.timeSinceLastVisit now m2
     /\ Memory.isReturningUser now m1 = Memory.isReturningUser now m2)
  /\ (forall now1 now2 signals,
     (5000 <? now1 - Intent.lastActivity signals)%Z
     = (5000 <? now2 - Intent.lastActivity signals)%Z ->
     Intent.calculateIntent now1 signals = Intent.calculateIntent now2 signals).
Proof.
  split; [|split; [|split]].
  - intros stringify sqrt id l w.
    apply (behavior_run_synced stringify sqrt id l), behavior_mounted_synced.
  - intros m1 m2 H. unfold Memory.currentMood. now rewrite H.
  - intros now m1 m2 H1 H2. unfold Memory.isReturningUser, Memory.timeSinceLastVisit.
    rewrite H1, H2. split; reflexivity.
  - intros now1 now2 s H. now apply calculateIntent_clock.
Qed.

Lemma profile_determined_by_accumulator_and_clock_witness :
  Memory.currentMood Memory.getDefaultMemory
  = Memory.currentMood
      {| Memory.visitCount := 3; Memory.totalTimeSpent := 900; Memory.layers := [];
         Memory.lastVisit := 0; Memory.recognitionLevel := Fin 0.3;
         Memory.revealProgress := 0.06; Memory.preferredRevealSpeed := Memory.fast |}
  /\ Memory.isReturningUser 5000 Memory.getDefaultMemory
     = Memory.isReturningUser 5000
         {| Memory.visitCount := 0; Memory.totalTimeSpent := 900; Memory.layers := [];
            Memory.lastVisit := 0; Memory.recognitionLevel := Fin 0.3;
            Memory.revealProgress := 0.06; Memory.preferredRevealSpeed := Memory.fast |}
  /\ Intent.calculateIntent 1000 (Intent.initialSignals 0)
     = Intent.calculateIntent 4000 (Intent.initialSignals 0).
Proof.
  destruct profile_determined_by_accumulator_and_clock as (_ & HM & HR & HI).
  split; [|split].
  - apply HM. reflexivity.
  - apply HR; reflexivity.
  - apply HI. reflexivity.
Defined.


(** ** One visit of a card *)

Lemma memory_browse_keeps sqrt steps : forall h,
  let h' := Memory.feed sqrt h (memory_browse steps) in
  Memory.memory h' = Memory.memory h
  /\ Memory.startTime (Memory.currentSession h') = Memory.startTime (Memory.currentSession h)
  /\ Memory.isActive (Memory.currentSession h') = Memory.isActive (Memory.currentSession h).
Proof.
  unfold Memory.feed, memory_browse.
  induction steps as [|s steps IH]; intros h; cbn [map foldl]; [repeat split|].
  specialize (IH (Memory.handle sqrt
    match s with inl p => Memory.MouseMove p.1 p.2 | inr depth => Memory.Scroll depth end h)).
  cbv zeta in IH. destruct IH as (-> & -> & ->).
  destruct s as [[x y]|depth]; cbn [Memory.handle fst snd].
  - unfold Memory.onMouseMove.
    destruct (Memory.isActive (Memory.currentSession h)) eqn:E; simpl; rewrite ?E; repeat split.
  - repeat split.
Qed.

(** Counterexample to C5: a visit of 2500ms on a fresh memory, with scroll
    depth 0.6 and one pointer movement of 5, leaves a layer whose emotional
    signature is not thorough. *)
Lemma study_session_not_thorough :
  Memory.currentMood (Memory.memory
    (Memory.feed sqrt_floor (Memory.initialHook Memory.getDefaultMemory)
       [Memory.Enter 0; Memory.MouseMove 0 0; Memory.MouseMove 3 4;
        Memory.Scroll 0.6; Memory.Leave 2400 2500]))
  <> Memory.thorough.
Proof. vm_compute. discriminate. Qed.

(** C5, amended: on a fresh memory, a visit opened by onEnter and closed by
    onLeave 2500ms later, with maximum scroll depth 0.6 and average pointer
    movement at most 30, appends one layer with interactionType study and
    emotionalSignature curious (thorough needs more than 3000ms), and
    revealProgress grows by exactly 0.15. *)
Theorem study_session_layer sqrt (t0 rendered : Z) (steps : list (Q * Q + Q)) :
  let h := Memory.feed sqrt (Memory.initialHook Memory.getDefaultMemory)
             (Memory.Enter t0 :: memory_browse steps) in
  Memory.sessionScrollDepth (Memory.currentSession h) == 0.6 ->
  Memory.calculateAverageMovement sqrt (Memory.sessionFocusPoints (Memory.currentSession h))
    <= 30 ->
  let m := Memory.memory (Memory.onLeave sqrt rendered (t0 + 2500) h) in
  exists layer,
    Memory.layers m = [layer]
    /\ Memory.interactionType layer = Memory.study
    /\ Memory.emotionalSignature layer = Memory.curious
    /\ Memory.revealProgress m
       == Memory.revealProgress Memory.getDefaultMemory + 0.15.
Proof.
  intros h Hdepth Hmove.
  assert (Hkeep : Memory.memory h = Memory.getDefaultMemory
                  /\ Memory.startTime (Memory.currentSession h) = t0
                  /\ Memory.isActive (Memory.currentSession h) = true).
  { subst h. change (Memory.feed sqrt ?h0 (?e :: ?l))
      with (Memory.feed sqrt (Memory.handle sqrt e h0) l).
    destruct (memory_browse_keeps sqrt steps
      (Memory.handle sqrt (Memory.Enter t0) (Memory.initialHook Memory.getDefaultMemory)))
      as (-> & -> & ->). repeat split. }
  destruct Hkeep as (Hmem & Hstart & Hact).
  cbv zeta. unfold Memory.onLeave. rewrite Hact, Hmem, Hstart. cbn [negb Memory.memory].
  replace (t0 + 2500 - t0)%Z with 2500%Z by lia.
  eexists. split; [reflexivity|]. cbn [Memory.interactionType Memory.emotionalSignature].
  split; [reflexivity|]. split; [|reflexivity].
  unfold Memory.classifySignature.
  apply Qgtb_le in Hmove.
  assert (H50 : Qgtb (Memory.calculateAverageMovement sqrt
                (Memory.sessionFocusPoints (Memory.currentSession h))) 50 = false).
  { apply Qgtb_le. apply Qgtb_le in Hmove. lra. }
  rewrite H50, Hmove. reflexivity.
Qed.

Lemma study_session_layer_witness :
  exists layer,
    Memory.layers (Memory.memory
      (Memory.feed sqrt_floor (Memory.initialHook Memory.getDefaultMemory)
         [Memory.Enter 0; Memory.MouseMove 0 0; Memory.MouseMove 3 4;
          Memory.Scroll 0.6; Memory.Leave 2400 2500])) = [layer]
    /\ Memory.interactionType layer = Memory.study
    /\ Memory.emotionalSignature layer = Memory.curious.
Proof.
  destruct (study_session_layer sqrt_floor 0 2400 [inl (0, 0); inl (3, 4); inr 0.6])
    as (layer & Hl & Ht & He & _).
  - vm_compute. reflexivity.
  - vm_compute. discriminate.
  - exists layer. repeat split; assumption.
Defined.


(** ** Persistence *)

(** C6: what the code does with a stored text that is no JSON text.  When
    the text under the storage key is not empty and does not begin like a
    JSON value, mounting the Behavior Profile hook or the Interaction Memory
    hook throws the SyntaxError of [JSON.parse]; only an absent key gives the
    defaults. *)
Theorem malformed_state_throws
    (stringifyB : Behavior.BehaviorMetrics -> string)
    (decodeB : string -> JS.completion Behavior.BehaviorMetrics)
    (stringifyM : Memory.InteractionMemory -> string)
    (decodeM : string -> JS.completion Memory.InteractionMemory)
    (id stored : string) (store : gmap string string) :
  JS.truthy stored = true ->
  JS.json_value_start stored = false ->
  (store !! Behavior.storageKey id = Some stored ->
   Behavior.mount stringifyB decodeB id store = JS.Throw JS.SyntaxError)
  /\ (store !! Memory.storageKey id = Some stored ->
   Memory.mount stringifyM decodeM id store = JS.Throw JS.SyntaxError)
  /\ (store !! Behavior.storageKey id = None ->
   Behavior.mount stringifyB decodeB id store
   = JS.Normal (Behavior.mounted stringifyB id Behavior.getDefaultMetrics store))
  /\ (store !! Memory.storageKey id = None ->
   Memory.mount stringifyM decodeM id store
   = JS.Normal (Memory.mounted stringifyM id Memory.getDefaultMemory store)).
Proof.
  intros Ht Hs. repeat split; intros Hl.
  - unfold Behavior.mount, Behavior.initialMetrics. cbn [negb]. rewrite Hl, Ht.
    unfold JS.JSON_parse. now rewrite Hs.
  - unfold Memory.mount, Memory.initialMemory. cbn [negb]. rewrite Hl, Ht.
    unfold JS.JSON_parse. now rewrite Hs.
  - unfold Behavior.mount, Behavior.initialMetrics. cbn [negb]. now rewrite Hl.
  - unfold Memory.mount, Memory.initialMemory. cbn [negb]. now rewrite Hl.
Qed.

Lemma malformed_state_throws_witness :
  Behavior.mount (fun _ => "{}"%string) (fun _ => JS.Normal Behavior.getDefaultMetrics) "cta"
    {[ Behavior.storageKey "cta" := "undefined"%string ]}
  = JS.Throw JS.SyntaxError.
Proof.
  refine (proj1 (malformed_state_throws (fun _ => "{}"%string) _
                   (fun _ => "{}"%string) (fun _ => JS.Normal Memory.getDefaultMemory)
                   "cta" "undefined" _ _ _) _).
  - reflexivity.
  - reflexivity.
  - apply lookup_singleton_eq.
Defined.

(** Counterexample to C7: after a scroll event the Intent Detection hook
    has written nothing to an empty store. *)
Lemma intent_scroll_persists_nothing :
  Intent.localStorage
    (Intent.run (Intent.mount 0 ∅) [Intent.Scroll 100 40 1000]) = ∅.
Proof. reflexivity. Qed.

Lemma memory_run_synced stringify sqrt id l w :
  memory_synced stringify id w ->
  memory_synced stringify id (Memory.run stringify sqrt id w l).
Proof. apply foldl_invariant. intros. now apply memory_dispatch_synced. Qed.

(** A reload mounts the hook again on the store the page left behind.
    When the stored text parses back to the accumulator, the new hook starts
    with that accumulator. *)
Lemma behavior_reload stringify decode id w :
  behavior_synced stringify id w ->
  JS.JSON_parse decode (stringify (Behavior.metrics (Behavior.hk w)))
  = JS.Normal (Behavior.metrics (Behavior.hk w)) ->
  exists w',
    Behavior.mount stringify decode id (Behavior.localStorage w) = JS.Normal w'
    /\ Behavior.metrics (Behavior.hk w') = Behavior.metrics (Behavior.hk w)
    /\ Behavior.profile (Behavior.hk w') = Behavior.profile (Behavior.hk w)
    /\ Behavior.localStorage w' = Behavior.localStorage w.
Proof.
  intros (Hp & Hprof & Hstore) Hparse.
  assert (Ht : JS.truthy (stringify (Behavior.metrics (Behavior.hk w))) = true).
  { destruct (stringify (Behavior.metrics (Behavior.hk w)));
      [discriminate Hparse | reflexivity]. }
  exists (Behavior.mounted stringify id (Behavior.metrics (Behavior.hk w))
            (Behavior.localStorage w)).
  unfold Behavior.mount, Behavior.initialMetrics. cbn [negb].
  rewrite Hstore, Ht, Hparse. split; [reflexivity|].
  unfold Behavior.mounted, Behavior.commit. cbn.
  repeat split; [now rewrite Hprof | now apply insert_id].
Qed.

Lemma memory_reload stringify decode id w :
  memory_synced stringify id w ->
  JS.JSON_parse decode (stringify (Memory.memory (Memory.hk w)))
  = JS.Normal (Memory.memory (Memory.hk w)) ->
  exists w',
    Memory.mount stringify decode id (Memory.localStorage w) = JS.Normal w'
    /\ Memory.memory (Memory.hk w') = Memory.memory (Memory.hk w)
    /\ Memory.localStorage w' = Memory.localStorage w.
Proof.
  intros (Hp & Hstore) Hparse.
  assert (Ht : JS.truthy (stringify (Memory.memory (Memory.hk w))) = true).
  { destruct (stringify (Memory.memory (Memory.hk w)));
      [discriminate Hparse | reflexivity]. }
  exists (Memory.mounted stringify id (Memory.memory (Memory.hk w))
            (Memory.localStorage w)).
  unfold Memory.mount, Memory.initialMemory. cbn [negb].
  rewrite Hstore, Ht, Hparse. split; [reflexivity|].
  unfold Memory.mounted, Memory.commit. cbn.
  repeat split. now apply insert_id.
Qed.

(** C7, amended: the Behavior Profile hook and the Interaction Memory
    hook write, after every event or reset (and after the first render), the
    serialization of their current accumulator under the key made of their
    fixed prefix and the instance id, so the accumulator survives a page
    reload for the same id: when the stored text parses back to the
    accumulator it was written from, mounting the hook again on the store
    succeeds and starts from that accumulator (for the Behavior Profile, with
    the same derived profile), and leaves the store as it was.  The Intent
    Detection hook never writes the store and never reads it: after a reload
    its signals are the initial ones. *)
Theorem state_persisted_after_every_operation :
  (forall stringify decode sqrt id m0 store (l : list Behavior.action),
     let w := Behavior.run stringify sqrt id (Behavior.mounted stringify id m0 store) l in
     Behavior.localStorage w !! (Behavior.STORAGE_KEY_PREFIX +:+ id)
     = Some (stringify (Behavior.metrics (Behavior.hk w)))
     /\ (JS.JSON_parse decode (stringify (Behavior.metrics (Behavior.hk w)))
         = JS.Normal (Behavior.metrics (Behavior.hk w)) ->
         exists w',
           Behavior.mount stringify decode id (Behavior.localStorage w) = JS.Normal w'
           /\ Behavior.metrics (Behavior.hk w') = Behavior.metrics (Behavior.hk w)
           /\ Behavior.profile (Behavior.hk w') = Behavior.profile (Behavior.hk w)
           /\ Behavior.localStorage w' = Behavior.localStorage w))
  /\ (forall stringify decode sqrt id m0 store (l : list Memory.action),
     let w := Memory.run stringify sqrt id (Memory.mounted stringify id m0 store) l in
     Memory.localStorage w !! (Memory.STORAGE_KEY_PREFIX +:+ id)
     = Some (stringify (Memory.memory (Memory.hk w)))
     /\ (JS.JSON_parse decode (stringify (Memory.memory (Memory.hk w)))
         = JS.Normal (Memory.memory (Memory.hk w)) ->
         exists w',
           Memory.mount stringify decode id (Memory.localStorage w) = JS.Normal w'
           /\ Memory.memory (Memory.hk w') = Memory.memory (Memory.hk w)
           /\ Memory.localStorage w' = Memory.localStorage w))
  /\ (forall t0 t1 store (l : list Intent.action),
     let w := Intent.run (Intent.mount t0 store) l in
     Intent.localStorage w = store
     /\ Intent.signals (Intent.hk (Intent.mount t1 (Intent.localStorage w)))
        = Intent.initialSignals t1).
Proof.
  split; [|split].
  - intros stringify decode sqrt id m0 store l w.
    assert (Hs : behavior_synced stringify id w)
      by apply (behavior_run_synced stringify sqrt id l), behavior_mounted_synced.
    split; [apply Hs | now apply behavior_reload].
  - intros stringify decode sqrt id m0 store l w.
    assert (Hs : memory_synced stringify id w).
    { apply (memory_run_synced stringify sqrt id l), memory_commit_pending. reflexivity. }
    split; [apply Hs | now apply memory_reload].
  - intros t0 t1 store l w. split; [apply intent_run_store | reflexivity].
Qed.

Lemma state_persisted_after_every_operation_witness :
  (exists w',
     Behavior.mount retreats_text retreats_of_text "cta"
       (Behavior.localStorage
          (Behavior.run retreats_text sqrt_floor "cta" (Behavior.fresh retreats_text "cta")
             [Behavior.Input Behavior.ApproachRetreat;
              Behavior.Input Behavior.ApproachRetreat]))
     = JS.Normal w'
     /\ Behavior.metrics (Behavior.hk w') = with_retreats 2)
  /\ (exists w',
     Memory.mount visits_text visits_of_text "card"
       (Memory.localStorage
          (Memory.run visits_text sqrt_floor "card"
             (Memory.mounted visits_text "card" (with_visits 3) ∅)
             [Memory.Input (Memory.Enter 0); Memory.Input (Memory.MouseMove 3 4)]))
     = JS.Normal w'
     /\ Memory.memory (Memory.hk w') = with_visits 3).
Proof.
  destruct state_persisted_after_every_operation as (HB & HM & _).
  split.
  - destruct (HB retreats_text retreats_of_text sqrt_floor "cta"%string
                Behavior.getDefaultMetrics ∅
                [Behavior.Input Behavior.ApproachRetreat;
                 Behavior.Input Behavior.ApproachRetreat]) as [_ Hreload].
    destruct Hreload as (w' & Hm & Hmet & _).
    + vm_compute. reflexivity.
    + exists w'. split; [exact Hm|]. rewrite Hmet. vm_compute. reflexivity.
  - destruct (HM visits_text visits_of_text sqrt_floor "card"%string
                (with_visits 3) ∅
                [Memory.Input (Memory.Enter 0); Memory.Input (Memory.MouseMove 3 4)])
      as [_ Hreload].
    destruct Hreload as (w' & Hm & Hmem & _).
    + vm_compute. reflexivity.
    + exists w'. split; [exact Hm|]. rewrite Hmem. vm_compute. reflexivity.
Defined.


(** ** Clicks *)

(** C8: what the code does where the claim fails.  Once the click-speed
    history is not empty, a click less than 400ms after a hover start
    increments the double-click counter, whenever the previous click was:
    the interval is measured from lastInteractionTime, which onHoverStart
    also sets. *)
Theorem click_after_hover_start_counts_as_double sqrt (h : Behavior.hook) (t t' : Z) (x y : Q) :
  (0 < length (Behavior.clickSpeed (Behavior.metrics h)))%nat ->
  (t' - t < 400)%Z ->
  Behavior.doubleClickCount
    (Behavior.metrics (Behavior.feed sqrt h [Behavior.HoverStart t x y; Behavior.Click t']))
  = (Behavior.doubleClickCount (Behavior.metrics h) + 1)%Z.
Proof.
  intros Hlen Hdt. unfold Behavior.feed. cbn [foldl Behavior.handle].
  unfold Behavior.onClick, Behavior.onHoverStart.
  cbn [Behavior.setMetrics Behavior.metrics Behavior.doubleClickCount Behavior.clickSpeed
       Behavior.lastInteractionTime Behavior.set_hover].
  apply Nat.ltb_lt in Hlen. rewrite Hlen. apply Z.ltb_lt in Hdt. rewrite Hdt. reflexivity.
Qed.

Lemma click_after_hover_start_counts_as_double_witness :
  Behavior.doubleClickCount (Behavior.metrics
    (Behavior.feed sqrt_floor (Behavior.initialHook Behavior.getDefaultMetrics)
       ([Behavior.HoverStart 0 0 0; Behavior.Click 100; Behavior.HoverEnd 200]
        ++ [Behavior.HoverStart 10000 0 0; Behavior.Click 10100]))) = 1%Z.
Proof.
  rewrite behavior_feed_app.
  rewrite (click_after_hover_start_counts_as_double sqrt_floor).
  - reflexivity.
  - vm_compute. lia.
  - lia.
Defined.


(** ** Five fast scrolls *)





(** * Further properties of the hooks and of the components that use them *)

Lemma count_events_cons {A : Type} (p : A -> bool) (e : A) (l : list A) :
  count_events p (e :: l) = ((if p e then 1 else 0) + count_events p l)%Z.
Proof. unfold count_events. simpl. destruct (p e); simpl; lia. Qed.

Lemma onMouseMove_metrics sqrt x y rect h :
  let m := Behavior.metrics h in
  let m' := Behavior.metrics (Behavior.onMouseMove sqrt x y rect h) in
  Behavior.hoverCount m' = Behavior.hoverCount m
  /\ Behavior.clickCount m' = Behavior.clickCount m
  /\ Behavior.clickSpeed m' = Behavior.clickSpeed m
  /\ Behavior.doubleClickCount m' = Behavior.doubleClickCount m
  /\ Behavior.hoverWithoutClick m' = Behavior.hoverWithoutClick m
  /\ Behavior.approachRetreatCount m' = Behavior.approachRetreatCount m
  /\ (Behavior.directApproaches m <= Behavior.directApproaches m'
      <= Behavior.directApproaches m + 1)%Z
  /\ Behavior.totalHoverDuration m' = Behavior.totalHoverDuration m
  /\ Behavior.lastInteractionTime m' = Behavior.lastInteractionTime m.
Proof.
  destruct h as [m p t pos hov d pe]. unfold Behavior.onMouseMove. simpl.
  destruct pos as [[lx ly]|]; [|simpl; repeat split; lia].
  cbv zeta.
  match goal with
  | |- context [Qgtb ?a ?b && Qltb ?c ?d] => destruct (Qgtb a b && Qltb c d)
  end; destruct hov; simpl; repeat split; lia.
Qed.

Lemma behavior_feed_counters sqrt (h : Behavior.hook) (evs : list Behavior.input) :
  let m := Behavior.metrics h in
  let m' := Behavior.metrics (Behavior.feed sqrt h evs) in
  Behavior.hoverCount m' = (Behavior.hoverCount m + count_events is_hover_start evs)%Z
  /\ Behavior.clickCount m' = (Behavior.clickCount m + count_events is_click evs)%Z
  /\ Behavior.approachRetreatCount m'
     = (Behavior.approachRetreatCount m + count_events is_approach_retreat evs)%Z
  /\ (Behavior.doubleClickCount m <= Behavior.doubleClickCount m'
      <= Behavior.doubleClickCount m + count_events is_click evs)%Z
  /\ (Behavior.directApproaches m <= Behavior.directApproaches m'
      <= Behavior.directApproaches m + count_events is_move evs)%Z.
Proof.
  revert h. induction evs as [|e evs IH]; intros h.
  - unfold count_events. simpl. repeat split; lia.
  - rewrite behavior_feed_cons. cbv zeta. rewrite !count_events_cons.
    specialize (IH (Behavior.handle sqrt e h)). cbv zeta in IH.
    destruct IH as (-> & -> & -> & Hd & Ha).
    destruct e as [now x y|now|x y rect|now|]; cbn [Behavior.handle is_hover_start is_click
      is_approach_retreat is_move] in *.
    + simpl in *. repeat split; lia.
    + unfold Behavior.onHoverEnd in *. destruct (Behavior.isHovering h); simpl in *;
        repeat split; lia.
    + destruct (onMouseMove_metrics sqrt x y rect h) as (E1 & E2 & _ & E4 & _ & E6 & E7 & _).
      cbv zeta in *. rewrite E1, E2, E6. rewrite E4 in Hd. repeat split; lia.
    + simpl in *.
      destruct ((0 <? length (Behavior.clickSpeed (Behavior.metrics h)))%nat
                && (now - Behavior.lastInteractionTime (Behavior.metrics h) <? 400)%Z);
        repeat split; lia.
    + simpl in *. repeat split; lia.
Qed.

(** X1: the counters follow the events.  After any sequence of input
    events, hoverCount, clickCount and approachRetreatCount have grown by the
    number of hover starts, clicks and approach-retreats in the sequence;
    doubleClickCount has grown by at most the number of clicks and
    directApproaches by at most the number of pointer moves; none
    decreases. *)
Theorem behavior_counters_count_events sqrt (h : Behavior.hook) (evs : list Behavior.input) :
  let m := Behavior.metrics h in
  let m' := Behavior.metrics (Behavior.feed sqrt h evs) in
  Behavior.hoverCount m' = (Behavior.hoverCount m + count_events is_hover_start evs)%Z
  /\ Behavior.clickCount m' = (Behavior.clickCount m + count_events is_click evs)%Z
  /\ Behavior.approachRetreatCount m'
     = (Behavior.approachRetreatCount m + count_events is_approach_retreat evs)%Z
  /\ (Behavior.doubleClickCount m <= Behavior.doubleClickCount m'
      <= Behavior.doubleClickCount m + count_events is_click evs)%Z
  /\ (Behavior.directApproaches m <= Behavior.directApproaches m'
      <= Behavior.directApproaches m + count_events is_move evs)%Z.
Proof. apply behavior_feed_counters. Qed.

Lemma behavior_counts_handle sqrt e h :
  behavior_counts_inv h -> behavior_counts_inv (Behavior.handle sqrt e h).
Proof.
  unfold behavior_counts_inv. cbv zeta. intros (Hc & Hlen & Hd0 & Hd).
  destruct e as [now x y|now|x y rect|now|]; cbn [Behavior.handle].
  - simpl. repeat split; assumption.
  - unfold Behavior.onHoverEnd. destruct (Behavior.isHovering h); simpl;
      repeat split; assumption.
  - destruct (onMouseMove_metrics sqrt x y rect h) as (_ & E2 & E3 & E4 & _).
    cbv zeta in *. rewrite E2, E3, E4. repeat split; assumption.
  - unfold Behavior.onClick.
    cbn [Behavior.setMetrics Behavior.metrics Behavior.clickCount Behavior.clickSpeed
         Behavior.doubleClickCount].
    rewrite length_slice_push.
    destruct ((0 <? length (Behavior.clickSpeed (Behavior.metrics h)))%nat) eqn:E;
      cbn [andb].
    + apply Nat.ltb_lt in E.
      destruct (now - Behavior.lastInteractionTime (Behavior.metrics h) <? 400)%Z;
        repeat split; lia.
    + repeat split; lia.
  - simpl. repeat split; assumption.
Qed.

Lemma behavior_counts_dispatch stringify sqrt id w a :
  behavior_counts_inv (Behavior.hk w) ->
  behavior_counts_inv (Behavior.hk (Behavior.dispatch stringify sqrt id w a)).
Proof.
  intros H. unfold Behavior.dispatch, Behavior.commit. destruct a as [e|]; simpl.
  - pose proof (behavior_counts_handle sqrt e _ H) as H'.
    destruct (Behavior.pending (Behavior.handle sqrt e (Behavior.hk w))); exact H'.
  - unfold behavior_counts_inv. simpl. repeat split; lia.
Qed.

(** X2: clicks stay consistent through any sequence of events and resets
    on a fresh hook: the click-speed history holds the latencies of the last
    11 clicks (of all clicks while there were fewer), and the double-click
    counter is at most the number of clicks minus one, the first click
    never being a double click. *)
Theorem behavior_click_history_consistent stringify sqrt id (l : list Behavior.action) :
  let m := Behavior.metrics (Behavior.hk
             (Behavior.run stringify sqrt id (Behavior.fresh stringify id) l)) in
  (0 <= Behavior.clickCount m)%Z
  /\ length (Behavior.clickSpeed m) = Nat.min 11 (Z.to_nat (Behavior.clickCount m))
  /\ (0 <= Behavior.doubleClickCount m)%Z
  /\ (Behavior.doubleClickCount m <= Z.max 0 (Behavior.clickCount m - 1))%Z.
Proof.
  apply (foldl_invariant (fun w => behavior_counts_inv (Behavior.hk w))).
  - intros w a. apply behavior_counts_dispatch.
  - unfold behavior_counts_inv. simpl. repeat split; lia.
Qed.

Lemma behavior_hover_handle sqrt e h :
  behavior_hover_inv h -> behavior_hover_inv (Behavior.handle sqrt e h).
Proof.
  unfold behavior_hover_inv. cbv zeta. intros (H0 & H1).
  destruct e as [now x y|now|x y rect|now|]; cbn [Behavior.handle].
  - simpl. destruct (Behavior.isHovering h); split; lia.
  - unfold Behavior.onHoverEnd. destruct (Behavior.isHovering h) eqn:E; simpl;
      rewrite ?E; split; lia.
  - destruct (onMouseMove_metrics sqrt x y rect h) as (E1 & _ & _ & _ & E5 & _).
    destruct (onMouseMove_counts sqrt x y rect h) as (_ & _ & _ & E & _).
    cbv zeta in *. rewrite E1, E5, E. split; assumption.
  - simpl. destruct (Behavior.isHovering h); split; lia.
  - simpl. split; assumption.
Qed.

(** X3: through any sequence of input events on a fresh hook the
    hover-without-click counter is never negative and never exceeds the
    number of hovers started; while a hover is open it is strictly smaller. *)
Theorem behavior_hover_without_click_bounds stringify sqrt id (evs : list Behavior.input) :
  let h := Behavior.hk (Behavior.run stringify sqrt id (Behavior.fresh stringify id)
                          (map Behavior.Input evs)) in
  (0 <= Behavior.hoverWithoutClick (Behavior.metrics h))%Z
  /\ (Behavior.hoverWithoutClick (Behavior.metrics h)
      + (if Behavior.isHovering h then 1 else 0)
      <= Behavior.hoverCount (Behavior.metrics h))%Z.
Proof.
  cbv zeta. revert evs.
  assert (Hgen : forall evs w, behavior_hover_inv (Behavior.hk w) ->
            behavior_hover_inv (Behavior.hk
              (Behavior.run stringify sqrt id w (map Behavior.Input evs)))).
  { induction evs as [|e evs IH]; intros w Hw; simpl; [assumption|].
    apply IH. unfold Behavior.dispatch, Behavior.commit. simpl.
    pose proof (behavior_hover_handle sqrt e _ Hw) as H'.
    destruct (Behavior.pending (Behavior.handle sqrt e (Behavior.hk w))); exact H'. }
  intros evs. apply Hgen. unfold behavior_hover_inv. simpl. split; lia.
Qed.

(** X4: resetProfile restores the default metrics and with them the default
    profile (calm, confidence 0.3, engagement 0, familiarity 0), but it
    leaves the refs as they are (an open hover session stays open), and the
    key it removes from the store is written again by the persisting effect:
    after the reset the store holds the serialized defaults. *)
Theorem behavior_reset_restores_defaults stringify sqrt id (w : Behavior.world) :
  let w' := Behavior.dispatch stringify sqrt id w Behavior.ResetProfile in
  let p := Behavior.profile (Behavior.hk w') in
  Behavior.metrics (Behavior.hk w') = Behavior.getDefaultMetrics
  /\ Behavior.personality p = Behavior.calm
  /\ Behavior.confidence p == 0.3
  /\ (exists e, Behavior.engagement p = Fin e /\ e == 0)
  /\ Behavior.familiarity p == 0
  /\ Behavior.isHovering (Behavior.hk w') = Behavior.isHovering (Behavior.hk w)
  /\ Behavior.hoverStartTime (Behavior.hk w') = Behavior.hoverStartTime (Behavior.hk w)
  /\ Behavior.localStorage w' !! Behavior.storageKey id
     = Some (stringify Behavior.getDefaultMetrics).
Proof.
  cbv zeta. unfold Behavior.dispatch, Behavior.commit, Behavior.resetProfile.
  cbn [Behavior.hk Behavior.setMetrics Behavior.pending Behavior.metrics Behavior.profile
       Behavior.isHovering Behavior.hoverStartTime Behavior.localStorage].
  split; [reflexivity|]. split; [reflexivity|]. split; [reflexivity|].
  split; [eexists; split; [reflexivity | reflexivity]|].
  split; [reflexivity|]. split; [reflexivity|]. split; [reflexivity|].
  apply lookup_insert_eq.
Qed.

(** X5: a reset in the middle of a hover makes the next onHoverEnd divide
    by a hover count of zero.  When the hover ends in the millisecond it
    started, the average hover duration is 0/0: it and the engagement of the
    exposed profile are NaN.  When it ends later the average is Infinity
    and the engagement is 1. *)
Theorem reset_during_hover_engagement_NaN stringify sqrt id (w : Behavior.world)
    (t t' : Z) (x y : Q) :
  let w' := Behavior.run stringify sqrt id w
              [Behavior.Input (Behavior.HoverStart t x y); Behavior.ResetProfile;
               Behavior.Input (Behavior.HoverEnd t')] in
  match (t' ?= t)%Z with
  | Eq => Behavior.averageHoverDuration (Behavior.metrics (Behavior.hk w')) = NaN
          /\ Behavior.engagement (Behavior.profile (Behavior.hk w')) = NaN
  | Gt => Behavior.averageHoverDuration (Behavior.metrics (Behavior.hk w')) = PosInf
          /\ exists e, Behavior.engagement (Behavior.profile (Behavior.hk w')) = Fin e
                       /\ e == 1
  | Lt => Behavior.averageHoverDuration (Behavior.metrics (Behavior.hk w')) = NegInf
          /\ exists e, Behavior.engagement (Behavior.profile (Behavior.hk w')) = Fin e
                       /\ e == 0
  end.
Proof.
  destruct w as [[m p st pos hov d pe] store].
  cbv zeta. unfold Behavior.run, Behavior.dispatch, Behavior.commit, Behavior.resetProfile.
  cbn [foldl Behavior.handle Behavior.onHoverStart Behavior.hk Behavior.setMetrics
       Behavior.set_hover Behavior.pending Behavior.metrics Behavior.profile
       Behavior.isHovering Behavior.hoverStartTime Behavior.localStorage
       Behavior.lastMousePosition Behavior.approachStartDistance].
  unfold Behavior.onHoverEnd.
  cbn [Behavior.hk Behavior.setMetrics Behavior.set_hover Behavior.pending Behavior.metrics
       Behavior.profile Behavior.isHovering Behavior.hoverStartTime negb
       Behavior.getDefaultMetrics Behavior.totalHoverDuration Behavior.hoverCount
       Behavior.averageHoverDuration].
  cbn [Behavior.calculateProfile Behavior.engagement Behavior.calcEngagement
       Behavior.hoverEngagement Behavior.averageHoverDuration Behavior.retreatPenalty
       Behavior.approachRetreatCount].
  unfold JS.div_fin. change (Qeq_bool (inject_Z 0) 0) with true. cbv iota.
  destruct (Z.compare_spec t' t) as [->|Hlt|Hgt].
  - rewrite Z.sub_diag. split; reflexivity.
  - assert (E1 : Qltb 0 (inject_Z (0 + (t' - t))) = false).
    { apply Qltb_ge. change 0 with (inject_Z 0). rewrite <- Zle_Qle. lia. }
    assert (E2 : Qltb (inject_Z (0 + (t' - t))) 0 = true).
    { apply Qltb_lt. change 0 with (inject_Z 0). rewrite <- Zlt_Qlt. lia. }
    rewrite E1, E2. split; [reflexivity|]. eexists. split; reflexivity.
  - assert (E1 : Qltb 0 (inject_Z (0 + (t' - t))) = true).
    { apply Qltb_lt. change 0 with (inject_Z 0). rewrite <- Zlt_Qlt. lia. }
    rewrite E1. split; [reflexivity|]. eexists. split; reflexivity.
Qed.

(** X6: a session is closed once.  onHoverEnd with no open hover session
    and onLeave with no active visit change nothing, so a second
    onHoverEnd or onLeave after the first has no effect: no duration is
    added twice and no second layer is recorded. *)
Theorem closing_twice_is_closing_once :
  (forall (h : Behavior.hook) t, Behavior.isHovering h = false -> Behavior.onHoverEnd t h = h)
  /\ (forall (h : Behavior.hook) t1 t2,
        Behavior.onHoverEnd t2 (Behavior.onHoverEnd t1 h) = Behavior.onHoverEnd t1 h)
  /\ (forall sqrt (h : Memory.hook) r t,
        Memory.isActive (Memory.currentSession h) = false -> Memory.onLeave sqrt r t h = h)
  /\ (forall sqrt (h : Memory.hook) r1 t1 r2 t2,
        Memory.onLeave sqrt r2 t2 (Memory.onLeave sqrt r1 t1 h) = Memory.onLeave sqrt r1 t1 h).
Proof.
  assert (HB : forall (h : Behavior.hook) t,
            Behavior.isHovering h = false -> Behavior.onHoverEnd t h = h).
  { intros h t E. unfold Behavior.onHoverEnd. now rewrite E. }
  assert (HM : forall sqrt (h : Memory.hook) r t,
            Memory.isActive (Memory.currentSession h) = false -> Memory.onLeave sqrt r t h = h).
  { intros sqrt h r t E. unfold Memory.onLeave. now rewrite E. }
  split; [exact HB|]. split; [|split; [exact HM|]].
  - intros h t1 t2. apply HB. unfold Behavior.onHoverEnd.
    destruct (Behavior.isHovering h) eqn:E; simpl; [reflexivity | exact E].
  - intros sqrt h r1 t1 r2 t2. apply HM. unfold Memory.onLeave.
    destruct (Memory.isActive (Memory.currentSession h)) eqn:E; simpl; [reflexivity | exact E].
Qed.

Lemma closing_twice_is_closing_once_witness :
  Behavior.onHoverEnd 900 (Behavior.initialHook Behavior.getDefaultMetrics)
  = Behavior.initialHook Behavior.getDefaultMetrics
  /\ Memory.onLeave sqrt_floor 0 900 (Memory.initialHook Memory.getDefaultMemory)
     = Memory.initialHook Memory.getDefaultMemory.
Proof.
  destruct closing_twice_is_closing_once as (HB & _ & HM & _).
  split; [apply HB | apply HM]; reflexivity.
Defined.

(** X7: the pointer move that starts an approach is never itself a direct
    approach.  When no approach start distance is recorded (first tracked
    move, or first move after onApproachRetreat), the move records its own
    distance as the start, and a distance that is not negative is never
    below half of itself. *)
Theorem first_move_is_no_direct_approach (sqrt : Q -> Q) x y rect (h : Behavior.hook) :
  (forall q, 0 <= sqrt q) ->
  Behavior.approachStartDistance h = None ->
  Behavior.directApproaches (Behavior.metrics (Behavior.onMouseMove sqrt x y rect h))
  = Behavior.directApproaches (Behavior.metrics h).
Proof.
  intros Hsqrt Hnone. destruct h as [m p t pos hov d pe]. simpl in Hnone. subst d.
  unfold Behavior.onMouseMove. simpl.
  destruct pos as [[lx ly]|]; [|reflexivity].
  cbv zeta.
  match goal with
  | |- context [Qltb ?c (?c * 0.5)] =>
    assert (E : Qltb c (c * 0.5) = false)
      by (apply Qltb_ge; pose proof (Hsqrt
            ((x - (Behavior.left rect + Behavior.width rect / 2))
              * (x - (Behavior.left rect + Behavior.width rect / 2))
             + (y - (Behavior.top rect + Behavior.height rect / 2))
               * (y - (Behavior.top rect + Behavior.height rect / 2)))); lra);
    rewrite E
  end.
  rewrite andb_false_r. destruct hov; reflexivity.
Qed.

Lemma sqrt_floor_nonneg q : 0 <= sqrt_floor q.
Proof. unfold sqrt_floor. apply inject_Z_nonneg, Z.sqrt_nonneg. Qed.

Lemma first_move_is_no_direct_approach_witness :
  Behavior.directApproaches (Behavior.metrics
    (Behavior.feed sqrt_floor (Behavior.initialHook Behavior.getDefaultMetrics)
       [Behavior.HoverStart 0 300 400; Behavior.MouseMove 0 0 sample_rect])) = 0%Z.
Proof.
  unfold Behavior.feed. cbn [foldl Behavior.handle].
  rewrite (first_move_is_no_direct_approach sqrt_floor).
  - reflexivity.
  - exact sqrt_floor_nonneg.
  - reflexivity.
Defined.

Lemma calculateProfile_cases (m : Behavior.BehaviorMetrics) :
  let p := Behavior.calculateProfile m in
  match Behavior.personality p with
  | Behavior.assertive =>
      0.7 < Behavior.confidence p /\ (3 < Behavior.directApproaches m)%Z
  | Behavior.inviting =>
      (5 < Behavior.hoverWithoutClick m)%Z \/ (3 < Behavior.approachRetreatCount m)%Z
  | Behavior.curious =>
      JS.gt_fin (Behavior.engagement p) 0.6 = true
      /\ JS.gt_fin (Behavior.averageHoverDuration m) 800 = true
      /\ (Behavior.hoverWithoutClick m <= 5)%Z /\ (Behavior.approachRetreatCount m <= 3)%Z
  | Behavior.hesitant =>
      ((1 < Behavior.approachRetreatCount m)%Z \/ 1500 < Behavior.avgClickSpeed m)
      /\ (Behavior.hoverWithoutClick m <= 5)%Z /\ (Behavior.approachRetreatCount m <= 3)%Z
  | Behavior.calm =>
      (0.7 < Behavior.familiarity p /\ 0.6 < Behavior.confidence p)
      \/ ((Behavior.hoverWithoutClick m <= 5)%Z /\ (Behavior.approachRetreatCount m <= 1)%Z
          /\ Behavior.avgClickSpeed m <= 1500)
  end.
Proof.
  cbv zeta. unfold Behavior.calculateProfile.
  cbn [Behavior.personality Behavior.confidence Behavior.engagement Behavior.familiarity].
  rewrite js_clamp_gt by lra.
  repeat match goal with
  | |- context [if ?b then _ else _] =>
    let E := fresh "E" in destruct b eqn:E
  end;
  repeat match goal with
  | H : _ && _ = true |- _ => apply andb_prop in H as [? ?]
  | H : _ && _ = false |- _ => apply andb_false_iff in H as [?|?]
  | H : _ || _ = true |- _ => apply orb_prop in H as [?|?]
  | H : _ || _ = false |- _ => apply orb_false_elim in H as [? ?]
  | H : Qgtb _ _ = true |- _ => apply Qgtb_gt in H
  | H : Qgtb _ _ = false |- _ => apply Qgtb_le in H
  | H : (_ <? _)%Z = true |- _ => apply Z.ltb_lt in H
  | H : (_ <? _)%Z = false |- _ => apply Z.ltb_ge in H
  end;
  try match goal with
  | |- _ < Qmin 1 (Qmax 0 _) /\ _ => split; [qcase_minmax; lra|]
  | |- (_ < _ /\ _ < Qmin 1 (Qmax 0 _)) \/ _ => left; split; [|qcase_minmax]; lra
  end; try tauto; try (repeat split; solve [assumption | lia | tauto]).
Qed.

(** X8: what each personality requires.  assertive needs confidence above
    0.7 and more than 3 direct approaches; inviting needs more than 5 hovers
    without click or more than 3 retreats; curious needs engagement above
    0.6 and an average hover above 800ms, with at most 5 hovers without
    click and at most 3 retreats; hesitant needs more than 1 retreat or an
    average click latency above 1500ms, with at most 5 hovers without click
    and at most 3 retreats; calm is either the familiar, confident user or
    the user for whom no other rule fires. *)
Theorem personality_requirements (m : Behavior.BehaviorMetrics) :
  let p := Behavior.calculateProfile m in
  match Behavior.personality p with
  | Behavior.assertive =>
      0.7 < Behavior.confidence p /\ (3 < Behavior.directApproaches m)%Z
  | Behavior.inviting =>
      (5 < Behavior.hoverWithoutClick m)%Z \/ (3 < Behavior.approachRetreatCount m)%Z
  | Behavior.curious =>
      JS.gt_fin (Behavior.engagement p) 0.6 = true
      /\ JS.gt_fin (Behavior.averageHoverDuration m) 800 = true
      /\ (Behavior.hoverWithoutClick m <= 5)%Z /\ (Behavior.approachRetreatCount m <= 3)%Z
  | Behavior.hesitant =>
      ((1 < Behavior.approachRetreatCount m)%Z \/ 1500 < Behavior.avgClickSpeed m)
      /\ (Behavior.hoverWithoutClick m <= 5)%Z /\ (Behavior.approachRetreatCount m <= 3)%Z
  | Behavior.calm =>
      (0.7 < Behavior.familiarity p /\ 0.6 < Behavior.confidence p)
      \/ ((Behavior.hoverWithoutClick m <= 5)%Z /\ (Behavior.approachRetreatCount m <= 1)%Z
          /\ Behavior.avgClickSpeed m <= 1500)
  end.
Proof. apply calculateProfile_cases. Qed.

(** X9: familiarity saturates.  Once a fresh hook has seen 50 hover starts
    and clicks in total, the familiarity of its profile is 1, and it stays 1
    whatever input events follow. *)
Theorem familiarity_saturates sqrt (evs : list Behavior.input) :
  (50 <= count_events is_hover_start evs + count_events is_click evs)%Z ->
  Behavior.familiarity (Behavior.calculateProfile (Behavior.metrics
    (Behavior.feed sqrt (Behavior.initialHook Behavior.getDefaultMetrics) evs))) == 1.
Proof.
  intros Hn.
  destruct (behavior_feed_counters sqrt (Behavior.initialHook Behavior.getDefaultMetrics) evs)
    as (Hh & Hc & _).
  cbv zeta in Hh, Hc. unfold Behavior.calculateProfile. cbn [Behavior.familiarity].
  unfold Behavior.calcFamiliarity. rewrite Hh, Hc.
  cbn [Behavior.initialHook Behavior.metrics Behavior.getDefaultMetrics Behavior.hoverCount
       Behavior.clickCount].
  set (n := (0 + count_events is_click evs + (0 + count_events is_hover_start evs))%Z).
  assert (H1 : 1 <= inject_Z n / 50).
  { apply Qle_shift_div_l; [lra|]. change (1 * 50) with (inject_Z 50).
    rewrite <- Zle_Qle. subst n. lia. }
  qcase_minmax; lra.
Qed.

Lemma familiarity_saturates_witness :
  Behavior.familiarity (Behavior.calculateProfile (Behavior.metrics
    (Behavior.feed sqrt_floor (Behavior.initialHook Behavior.getDefaultMetrics)
       (concat (repeat [Behavior.HoverStart 0 0 0; Behavior.Click 120; Behavior.HoverEnd 300]
                       25))))) == 1.
Proof.
  apply familiarity_saturates. vm_compute. discriminate.
Defined.

Lemma Forall_slice_last {A : Type} (P : A -> Prop) n (l : list A) :
  Forall P l -> Forall P (JS.slice_last n l).
Proof. unfold JS.slice_last. apply Forall_drop. Qed.

Lemma memory_layers_handle sqrt e h :
  memory_layers_inv (Memory.memory h) ->
  memory_layers_inv (Memory.memory (Memory.handle sqrt e h)).
Proof.
  intros Hinv. destruct e as [now|rendered now|x y|depth]; cbn [Memory.handle];
    try exact Hinv.
  - unfold Memory.onLeave. destruct (Memory.isActive (Memory.currentSession h));
      cbn [negb]; [|exact Hinv].
    destruct Hinv as (Hc & Hlen & Hall). unfold memory_layers_inv.
    cbn [Memory.memory Memory.remember Memory.visitCount Memory.layers].
    split; [lia|]. split.
    + rewrite length_slice_push, Hlen. lia.
    + apply Forall_app. split; [now apply Forall_slice_last|].
      apply Forall_singleton. cbn [Memory.focusPoints]. rewrite length_slice_last. lia.
  - unfold Memory.onMouseMove. destruct (Memory.isActive (Memory.currentSession h));
      exact Hinv.
Qed.

(** X10: one layer per visit.  Through any sequence of events and resets on
    a fresh card the visit counter is not negative, the layer history holds
    one layer for each of the last 51 visits, and every layer stores at most
    20 focus points. *)
Theorem memory_one_layer_per_visit stringify sqrt id (l : list Memory.action) :
  let m := Memory.memory (Memory.hk
             (Memory.run stringify sqrt id (Memory.fresh stringify id) l)) in
  (0 <= Memory.visitCount m)%Z
  /\ length (Memory.layers m) = Nat.min 51 (Z.to_nat (Memory.visitCount m))
  /\ Forall (fun layer => (length (Memory.focusPoints layer) <= 20)%nat) (Memory.layers m).
Proof.
  apply (foldl_invariant (fun w => memory_layers_inv (Memory.memory (Memory.hk w)))).
  - intros w a Hw. unfold Memory.dispatch, Memory.commit. destruct a as [e|]; simpl.
    + pose proof (memory_layers_handle sqrt e _ Hw) as H'.
      destruct (Memory.pending (Memory.handle sqrt e (Memory.hk w))); exact H'.
    + unfold memory_layers_inv. simpl. repeat split; [lia | constructor].
  - unfold memory_layers_inv. simpl. repeat split; [lia | constructor].
Qed.

Lemma memory_reveal_handle sqrt e h :
  Memory.revealProgress (Memory.memory h) <= 1 ->
  Memory.revealProgress (Memory.memory h)
  <= Memory.revealProgress (Memory.memory (Memory.handle sqrt e h))
  /\ Memory.revealProgress (Memory.memory (Memory.handle sqrt e h)) <= 1.
Proof.
  intros H1. destruct e as [now|rendered now|x y|depth]; cbn [Memory.handle];
    try (cbn; lra).
  - unfold Memory.onLeave. destruct (Memory.isActive (Memory.currentSession h));
      cbn [negb]; [|lra].
    cbn [Memory.memory Memory.remember Memory.revealProgress].
    match goal with
    | |- context [Memory.revealIncrease ?t] => pose proof (revealIncrease_nonneg t)
    end.
    qcase_minmax; lra.
  - unfold Memory.onMouseMove. destruct (Memory.isActive (Memory.currentSession h));
      cbn; lra.
Qed.

Lemma memory_reveal_feed sqrt evs : forall h,
  Memory.revealProgress (Memory.memory h) <= 1 ->
  Memory.revealProgress (Memory.memory h)
  <= Memory.revealProgress (Memory.memory (Memory.feed sqrt h evs))
  /\ Memory.revealProgress (Memory.memory (Memory.feed sqrt h evs)) <= 1.
Proof.
  unfold Memory.feed. induction evs as [|e evs IH]; intros h H1; cbn [foldl]; [lra|].
  destruct (memory_reveal_handle sqrt e h H1) as [Ha Hb].
  destruct (IH _ Hb) as [Hc Hd]. lra.
Qed.

(** X11: what is revealed stays revealed.  Input events never lower
    revealProgress, so every layer of a card that is visible before a
    sequence of input events is still visible after it, in the same order. *)
Theorem revealed_layers_stay_visible sqrt (h : Memory.hook) (evs : list Memory.input)
    (layers : list MemoryCard.CardLayer) :
  Memory.revealProgress (Memory.memory h) <= 1 ->
  Memory.revealProgress (Memory.memory h)
  <= Memory.revealProgress (Memory.memory (Memory.feed sqrt h evs))
  /\ sublist (MemoryCard.visibleLayers layers (Memory.memory h))
             (MemoryCard.visibleLayers layers (Memory.memory (Memory.feed sqrt h evs))).
Proof.
  intros H1. destruct (memory_reveal_feed sqrt evs h H1) as [Hle _]. split; [exact Hle|].
  unfold MemoryCard.visibleLayers. induction layers as [|c layers IH]; cbn [List.filter].
  - constructor.
  - destruct (Qle_bool (MemoryCard.level c) (Memory.revealProgress (Memory.memory h))) eqn:E.
    + apply Qle_bool_iff in E.
      assert (E' : Qle_bool (MemoryCard.level c)
                (Memory.revealProgress (Memory.memory (Memory.feed sqrt h evs))) = true)
        by (apply Qle_bool_iff; lra).
      rewrite E'. now apply sublist_skip.
    + destruct (Qle_bool (MemoryCard.level c)
                 (Memory.revealProgress (Memory.memory (Memory.feed sqrt h evs))));
        [now apply sublist_cons | exact IH].
Qed.

Lemma revealed_layers_stay_visible_witness :
  sublist
    (MemoryCard.visibleLayers
       [{| MemoryCard.level := 0; MemoryCard.content := "intro" |};
        {| MemoryCard.level := 0.1; MemoryCard.content := "more" |}]
       Memory.getDefaultMemory)
    (MemoryCard.visibleLayers
       [{| MemoryCard.level := 0; MemoryCard.content := "intro" |};
        {| MemoryCard.level := 0.1; MemoryCard.content := "more" |}]
       (Memory.memory (Memory.feed sqrt_floor (Memory.initialHook Memory.getDefaultMemory)
          [Memory.Enter 0; Memory.Leave 0 2500]))).
Proof.
  apply (revealed_layers_stay_visible sqrt_floor (Memory.initialHook Memory.getDefaultMemory)).
  vm_compute. discriminate.
Defined.

Lemma revealIncrease_min t : 0.02 <= Memory.revealIncrease t.
Proof. destruct t; unfold Memory.revealIncrease; lra. Qed.

Lemma memory_visit_reveal sqrt t r t' h :
  0 <= Memory.revealProgress (Memory.memory h) <= 1 ->
  let rp' := Memory.revealProgress (Memory.memory
               (Memory.onLeave sqrt r t' (Memory.onEnter t h))) in
  Qmin 1 (Memory.revealProgress (Memory.memory h) + 0.02) <= rp' /\ rp' <= 1.
Proof.
  intros [H0 H1]. cbv zeta. unfold Memory.onLeave, Memory.onEnter.
  cbn [Memory.currentSession Memory.isActive negb Memory.memory Memory.remember
       Memory.revealProgress].
  match goal with
  | |- context [Memory.revealIncrease ?ty] => pose proof (revealIncrease_min ty)
  end.
  qcase_minmax; lra.
Qed.

Lemma memory_visits_reveal sqrt visits : forall h,
  0 <= Memory.revealProgress (Memory.memory h) <= 1 ->
  let rp' := Memory.revealProgress (Memory.memory (Memory.feed sqrt h (memory_visits visits))) in
  Qmin 1 (Memory.revealProgress (Memory.memory h)
          + 0.02 * inject_Z (Z.of_nat (length visits))) <= rp'
  /\ rp' <= 1.
Proof.
  unfold Memory.feed, memory_visits.
  induction visits as [|[[t r] t'] visits IH]; intros h Hrp;
    cbn [flat_map app foldl Memory.handle length fst snd]; cbv zeta.
  - change (inject_Z (Z.of_nat 0)) with 0. qcase_minmax; lra.
  - destruct (memory_visit_reveal sqrt t r t' h Hrp) as [Ha Hb]. cbv zeta in Ha.
    set (h1 := Memory.onLeave sqrt r t' (Memory.onEnter t h)) in *.
    assert (Hrp1 : 0 <= Memory.revealProgress (Memory.memory h1) <= 1).
    { split; [|exact Hb]. revert Ha. qcase_minmax; lra. }
    destruct (IH h1 Hrp1) as [Hc Hd]. cbv zeta in Hc. split; [|exact Hd].
    rewrite Nat2Z.inj_succ. unfold Z.succ. rewrite inject_Z_plus.
    assert (Hn : 0 <= inject_Z (Z.of_nat (length visits)))
      by (apply inject_Z_nonneg; lia).
    change (inject_Z 1) with 1.
    revert Ha Hc. qcase_minmax; lra.
Qed.

(** X12: fifty visits reveal everything.  Every recorded visit raises
    revealProgress by at least 0.02 until it reaches 1, so after 50 visits of
    any kind a fresh card has revealProgress 1. *)
Theorem fifty_visits_reveal_all sqrt (visits : list (Z * Z * Z)) :
  (50 <= length visits)%nat ->
  Memory.revealProgress (Memory.memory
    (Memory.feed sqrt (Memory.initialHook Memory.getDefaultMemory) (memory_visits visits)))
  == 1.
Proof.
  intros Hn.
  destruct (memory_visits_reveal sqrt visits (Memory.initialHook Memory.getDefaultMemory))
    as [Ha Hb].
  { cbn. lra. }
  cbv zeta in Ha, Hb.
  cbn [Memory.initialHook Memory.memory Memory.getDefaultMemory Memory.revealProgress] in Ha.
  assert (H50 : 50 <= inject_Z (Z.of_nat (length visits))).
  { change 50 with (inject_Z 50). rewrite <- Zle_Qle. lia. }
  revert Ha. qcase_minmax; lra.
Qed.

Lemma fifty_visits_reveal_all_witness :
  Memory.revealProgress (Memory.memory
    (Memory.feed sqrt_floor (Memory.initialHook Memory.getDefaultMemory)
       (memory_visits (repeat (0%Z, 0%Z, 100%Z) 50)))) == 1.
Proof. apply fifty_visits_reveal_all. vm_compute. lia. Defined.

Lemma decayFactor_range rendered m :
  (Memory.lastVisit m <= rendered)%Z ->
  exists d, Memory.decayFactor (Memory.timeSinceLastVisit rendered m) = Fin d
            /\ 0.5 <= d /\ d <= 1.
Proof.
  intros Hle. unfold Memory.timeSinceLastVisit, Memory.decayFactor.
  destruct (Memory.lastVisit m =? 0)%Z; simpl.
  - exists 0.5. repeat split; lra.
  - eexists. split; [reflexivity|].
    assert (Ht : 0 <= inject_Z (rendered - Memory.lastVisit m))
      by (apply inject_Z_nonneg; lia).
    pose proof (Qdiv_nonneg _ (inject_Z (7 * 24 * 60 * 60 * 1000)) Ht ltac:(reflexivity)).
    qcase_minmax; lra.
Qed.

(** X13: how far one visit moves recognition.  A recorded visit leaves the
    recognition level, at r before the visit, at least at min(1, r/2 + 0.1):
    decay removes at most half of it and the visit adds at least 0.1.  When
    the clock has not gone back behind the previous visit it is at most
    min(1, r + 0.2): a visit never adds more than 0.2. *)
Theorem recognition_step_bounds sqrt (rendered now : Z) (h : Memory.hook) (r : Q) :
  Memory.isActive (Memory.currentSession h) = true ->
  Memory.recognitionLevel (Memory.memory h) = Fin r ->
  0 <= r <= 1 ->
  exists r',
    Memory.recognitionLevel (Memory.memory (Memory.onLeave sqrt rendered now h)) = Fin r'
    /\ Qmin 1 (r * 0.5 + 0.1) <= r' /\ r' <= 1
    /\ ((Memory.lastVisit (Memory.memory h) <= rendered)%Z -> r' <= Qmin 1 (r + 0.2)).
Proof.
  intros Hact Hrec [Hr0 Hr1]. unfold Memory.onLeave. rewrite Hact. cbn [negb].
  cbn [Memory.memory Memory.remember Memory.recognitionLevel Memory.interactionType].
  rewrite Hrec.
  match goal with
  | |- context [Memory.recognitionGrowth ?ty] =>
    pose proof (recognitionGrowth_range ty) as [Hg0 _];
    assert (Hg : 0.1 <= Memory.recognitionGrowth ty /\ Memory.recognitionGrowth ty <= 0.2)
      by (destruct ty; unfold Memory.recognitionGrowth; split; lra);
    set (g := Memory.recognitionGrowth ty) in *
  end.
  destruct (decayFactor_finite rendered (Memory.memory h)) as (d & Hd & Hd5).
  rewrite Hd. cbn [JS.mul JS.add_fin JS.min_fin].
  eexists. split; [reflexivity|].
  assert (Hlow : r * 0.5 <= r * d) by nra.
  split; [qcase_minmax; lra|]. split; [qcase_minmax; lra|].
  intros Hle. destruct (decayFactor_range rendered (Memory.memory h) Hle) as (d' & Hd' & _ & Hd1).
  rewrite Hd in Hd'. injection Hd' as <-.
  assert (Hup : r * d <= r) by nra.
  qcase_minmax; lra.
Qed.

Lemma recognition_step_bounds_witness :
  exists r',
    Memory.recognitionLevel (Memory.memory
      (Memory.onLeave sqrt_floor 0 2500
         (Memory.onEnter 0 (Memory.initialHook Memory.getDefaultMemory)))) = Fin r'
    /\ 0.1 <= r' /\ r' <= 0.2.
Proof.
  destruct (recognition_step_bounds sqrt_floor 0 2500
              (Memory.onEnter 0 (Memory.initialHook Memory.getDefaultMemory)) 0)
    as (r' & Hr & Hlo & _ & Hup).
  - reflexivity.
  - reflexivity.
  - split; vm_compute; discriminate.
  - exists r'. split; [exact Hr|]. split.
    + revert Hlo. qcase_minmax; lra.
    + assert (Hle : (Memory.lastVisit (Memory.memory
          (Memory.onEnter 0 (Memory.initialHook Memory.getDefaultMemory))) <= 0)%Z)
        by (vm_compute; discriminate).
      specialize (Hup Hle). revert Hup. qcase_minmax; lra.
Defined.

Lemma memory_visit_memory sqrt t r t' h :
  Memory.memory (Memory.onLeave sqrt r t' (Memory.onEnter t h))
  = Memory.remember t' (Memory.timeSinceLastVisit r (Memory.memory h))
      {| Memory.timestamp := t';
         Memory.interactionType :=
           Memory.classifyInteraction (Memory.isReturningUser r (Memory.memory h)) (t' - t);
         Memory.duration := (t' - t)%Z;
         Memory.focusPoints := [];
         Memory.scrollDepth := 0;
         Memory.emotionalSignature :=
           Memory.classifySignature 0 (t' - t) 0 |}
      (Memory.memory h).
Proof. reflexivity. Qed.

(** X14: the first visit of a fresh card is never a return, and a visit
    that begins more than a minute after the previous one ended is a return
    however long it lasts: it earns the return increment 0.10 of
    revealProgress, not the increment of a study or an engagement. *)
Theorem second_visit_after_a_minute_is_return sqrt (t0 r0 t1 t2 r2 t3 : Z) :
  (60000 < r2 - t1)%Z ->
  let m := Memory.memory
             (Memory.feed sqrt (Memory.initialHook Memory.getDefaultMemory)
                (memory_visits [(t0, r0, t1); (t2, r2, t3)])) in
  exists l1 l2,
    Memory.layers m = [l1; l2]
    /\ Memory.interactionType l1 <> Memory.return_
    /\ Memory.interactionType l2 = Memory.return_
    /\ Memory.revealProgress m == Memory.revealIncrease (Memory.interactionType l1) + 0.1
    /\ Memory.visitCount m = 2%Z.
Proof.
  intros Hgap. cbv zeta. unfold Memory.feed, memory_visits.
  cbn [flat_map app foldl Memory.handle fst snd].
  rewrite memory_visit_memory.
  set (h1 := Memory.onLeave sqrt r0 t1
               (Memory.onEnter t0 (Memory.initialHook Memory.getDefaultMemory))).
  assert (Hm1 : Memory.memory h1 = Memory.memory h1) by reflexivity.
  unfold h1 in Hm1 at 2. rewrite memory_visit_memory in Hm1.
  assert (Hret : Memory.isReturningUser r2 (Memory.memory h1) = true).
  { unfold Memory.isReturningUser, Memory.timeSinceLastVisit. rewrite Hm1.
    cbn [Memory.remember Memory.lastVisit Memory.visitCount Memory.memory
         Memory.initialHook Memory.getDefaultMemory].
    destruct (t1 =? 0)%Z; cbn [JS.gt_fin andb]; [reflexivity|].
    rewrite andb_true_r. apply Qgtb_gt. change 60000 with (inject_Z 60000).
    rewrite <- Zlt_Qlt. exact Hgap. }
  rewrite Hret. cbn [Memory.classifyInteraction]. rewrite Hm1.
  change (Memory.isReturningUser r0 _) with false. cbn [Memory.classifyInteraction].
  set (ty := if (t1 - t0 <? 500)%Z then Memory.glance
             else if (t1 - t0 <? 2000)%Z then Memory.engage else Memory.study).
  cbn [Memory.remember Memory.layers Memory.revealProgress Memory.visitCount
       Memory.interactionType Memory.memory Memory.initialHook Memory.getDefaultMemory
       Memory.revealIncrease].
  eexists _, _. split; [reflexivity|]. cbn [Memory.interactionType].
  split.
  { subst ty. destruct (t1 - t0 <? 500)%Z; [discriminate|].
    destruct (t1 - t0 <? 2000)%Z; discriminate. }
  split; [reflexivity|]. split; [|reflexivity].
  assert (Hinc : 0.02 <= Memory.revealIncrease ty /\ Memory.revealIncrease ty <= 0.15)
    by (destruct ty; unfold Memory.revealIncrease; split; lra).
  set (inc := Memory.revealIncrease ty) in *.
  qcase_minmax; lra.
Qed.

Lemma second_visit_after_a_minute_is_return_witness :
  Memory.visitCount (Memory.memory
    (Memory.feed sqrt_floor (Memory.initialHook Memory.getDefaultMemory)
       (memory_visits [(1000%Z, 1000%Z, 4000%Z); (90000%Z, 90000%Z, 95000%Z)]))) = 2%Z.
Proof.
  destruct (second_visit_after_a_minute_is_return sqrt_floor 1000 1000 4000 90000 90000 95000)
    as (l1 & l2 & _ & _ & _ & _ & Hv).
  - lia.
  - exact Hv.
Defined.

Lemma totalMovement_bound (sqrt : Q -> Q) :
  (forall q, q <= 2 -> sqrt q <= 30) ->
  forall pts prev, in_unit_square prev -> Forall in_unit_square pts ->
  Memory.totalMovement sqrt prev pts <= 30 * inject_Z (Z.of_nat (length pts)).
Proof.
  intros Hsqrt. induction pts as [|p pts IH]; intros prev Hprev Hall.
  - cbn [Memory.totalMovement length]. change (inject_Z (Z.of_nat 0)) with 0. lra.
  - apply Forall_cons in Hall as [Hp Hall]. cbn [Memory.totalMovement length].
    specialize (IH p Hp Hall).
    destruct Hprev as [[? ?] [? ?]], Hp as [[? ?] [? ?]].
    assert (Hstep : sqrt ((fst p - fst prev) * (fst p - fst prev)
                          + (snd p - snd prev) * (snd p - snd prev)) <= 30).
    { apply Hsqrt. nra. }
    rewrite Nat2Z.inj_succ. unfold Z.succ. rewrite inject_Z_plus.
    change (inject_Z 1) with 1. lra.
Qed.

Lemma averageMovement_bound (sqrt : Q -> Q) pts :
  (forall q, q <= 2 -> sqrt q <= 30) ->
  Forall in_unit_square pts ->
  Memory.calculateAverageMovement sqrt pts <= 30.
Proof.
  intros Hsqrt Hall. unfold Memory.calculateAverageMovement.
  destruct pts as [|p0 [|p1 rest]]; try lra.
  apply Forall_cons in Hall as [H0 Hall].
  pose proof (totalMovement_bound sqrt Hsqrt (p1 :: rest) p0 H0 Hall) as Htot.
  replace (length (p0 :: p1 :: rest) - 1)%nat with (length (p1 :: rest)) by (simpl; lia).
  apply Qle_shift_div_r; [|exact Htot].
  apply inject_Z_pos. simpl length. lia.
Qed.

Lemma handleMouseMove_normalised clientX clientY rect :
  MemoryCard.inside (MemoryCard.MouseMoveAt clientX clientY rect) ->
  exists x y, MemoryCard.handleMouseMove clientX clientY rect = Memory.MouseMove x y
              /\ in_unit_square (x, y).
Proof.
  intros (Hw & Hh & [Hx0 Hx1] & [Hy0 Hy1]). unfold MemoryCard.handleMouseMove.
  eexists _, _. split; [reflexivity|]. unfold in_unit_square. cbn [fst snd].
  assert (0 <= (clientX - Behavior.left rect) / Behavior.width rect)
    by (apply Qle_shift_div_l; lra).
  assert ((clientX - Behavior.left rect) / Behavior.width rect <= 1)
    by (apply Qle_shift_div_r; lra).
  assert (0 <= (clientY - Behavior.top rect) / Behavior.height rect)
    by (apply Qle_shift_div_l; lra).
  assert ((clientY - Behavior.top rect) / Behavior.height rect <= 1)
    by (apply Qle_shift_div_r; lra).
  repeat split; lra.
Qed.

Lemma card_handle_inv (sqrt : Q -> Q) e h :
  (forall q, q <= 2 -> sqrt q <= 30) ->
  MemoryCard.inside e -> card_inv h ->
  card_inv (Memory.handle sqrt (MemoryCard.forward e) h).
Proof.
  intros Hsqrt Hin (Hdepth & Hpts & Hlayers).
  destruct e as [now|rendered now|cx cy rect]; cbn [MemoryCard.forward].
  - cbn. repeat split; [constructor | exact Hlayers].
  - cbn [Memory.handle]. unfold Memory.onLeave.
    destruct (Memory.isActive (Memory.currentSession h)); cbn [negb];
      [|repeat split; assumption].
    unfold card_inv.
    cbn [Memory.currentSession Memory.sessionScrollDepth Memory.sessionFocusPoints
         Memory.memory Memory.remember Memory.layers].
    repeat split; try assumption.
    apply Forall_app. split; [now apply Forall_slice_last|].
    apply Forall_singleton. cbn [Memory.emotionalSignature].
    unfold Memory.classifySignature. rewrite Hdepth.
    pose proof (averageMovement_bound sqrt _ Hsqrt Hpts) as Havg.
    assert (E50 : Qgtb (Memory.calculateAverageMovement sqrt
              (Memory.sessionFocusPoints (Memory.currentSession h))) 50 = false)
      by (apply Qgtb_le; lra).
    assert (E30 : Qgtb (Memory.calculateAverageMovement sqrt
              (Memory.sessionFocusPoints (Memory.currentSession h))) 30 = false)
      by (apply Qgtb_le; lra).
    rewrite E50, E30. cbn [andb]. change (Qgtb 0 0.5) with false.
    rewrite andb_false_r. reflexivity.
  - destruct (handleMouseMove_normalised cx cy rect Hin) as (x & y & -> & Hxy).
    cbn [Memory.handle]. unfold Memory.onMouseMove.
    destruct (Memory.isActive (Memory.currentSession h)); cbn [negb];
      [|repeat split; assumption].
    unfold card_inv.
    cbn [Memory.currentSession Memory.sessionScrollDepth Memory.sessionFocusPoints
         Memory.memory].
    repeat split; try assumption.
    apply Forall_app. split; [now apply Forall_slice_last|]. now apply Forall_singleton.
Qed.

(** X15: through the MemoryCard component the mood is always curious.  The
    card forwards pointer positions normalised to its own bounds, so no
    movement between two of them exceeds the square root of 2, and it never
    reports a scroll depth: a visit can be neither impatient nor distracted
    (average movement above 50 or 30) nor thorough (scroll depth above 0.5).
    Every layer the card records on a fresh memory, and so currentMood, is
    curious. *)
Theorem card_mood_is_always_curious (sqrt : Q -> Q) (evs : list MemoryCard.event) :
  (forall q, q <= 2 -> sqrt q <= 30) ->
  Forall MemoryCard.inside evs ->
  let m := Memory.memory (Memory.feed sqrt (Memory.initialHook Memory.getDefaultMemory)
                            (map MemoryCard.forward evs)) in
  Forall (fun layer => Memory.emotionalSignature layer = Memory.curious) (Memory.layers m)
  /\ Memory.currentMood m = Memory.curious.
Proof.
  intros Hsqrt Hin. cbv zeta.
  assert (Hgen : forall evs h, Forall MemoryCard.inside evs -> card_inv h ->
            card_inv (Memory.feed sqrt h (map MemoryCard.forward evs))).
  { clear evs Hin. unfold Memory.feed.
    induction evs as [|e evs IH]; intros h Hin Hh; cbn [map foldl]; [exact Hh|].
    apply Forall_cons in Hin as [He Hin]. apply IH; [exact Hin|].
    now apply card_handle_inv. }
  destruct (Hgen evs (Memory.initialHook Memory.getDefaultMemory) Hin) as (_ & _ & Hl).
  { repeat split; constructor. }
  split; [exact Hl|]. unfold Memory.currentMood.
  destruct (last (Memory.layers _)) as [layer|] eqn:E; [|reflexivity].
  apply last_Some_elem_of in E. rewrite Forall_forall in Hl. now apply Hl.
Qed.

Lemma sqrt_floor_small q : q <= 2 -> sqrt_floor q <= 30.
Proof.
  intros Hq. unfold sqrt_floor. change 30 with (inject_Z 30). rewrite <- Zle_Qle.
  apply Qfloor_resp_le in Hq. change (Qfloor 2) with 2%Z in Hq.
  pose proof (Z.sqrt_le_mono _ _ Hq) as Hs. change (Z.sqrt 2) with 1%Z in Hs. lia.
Qed.

Lemma card_mood_is_always_curious_witness :
  Memory.currentMood (Memory.memory
    (Memory.feed sqrt_floor (Memory.initialHook Memory.getDefaultMemory)
       (map MemoryCard.forward
          [MemoryCard.MouseEnter 0;
           MemoryCard.MouseMoveAt 10 10 sample_rect;
           MemoryCard.MouseMoveAt 110 35 sample_rect;
           MemoryCard.MouseLeave 0 400]))) = Memory.curious.
Proof.
  apply card_mood_is_always_curious.
  - exact sqrt_floor_small.
  - repeat constructor; vm_compute; discriminate.
Defined.

(** X16: resetMemory restores the default memory but leaves the current
    session as it is, so a visit that is open at the reset is still recorded
    by the next onLeave; and the key it removes from the store is written
    again by the persisting effect: after the reset the store holds the
    serialized default memory. *)
Theorem memory_reset_restores_defaults stringify sqrt id (w : Memory.world) :
  let w' := Memory.dispatch stringify sqrt id w Memory.ResetMemory in
  Memory.memory (Memory.hk w') = Memory.getDefaultMemory
  /\ Memory.currentMood (Memory.memory (Memory.hk w')) = Memory.curious
  /\ Memory.currentSession (Memory.hk w') = Memory.currentSession (Memory.hk w)
  /\ Memory.localStorage w' !! Memory.storageKey id
     = Some (stringify Memory.getDefaultMemory)
  /\ (Memory.isActive (Memory.currentSession (Memory.hk w)) = true ->
      forall r t,
        Memory.visitCount (Memory.memory (Memory.hk
          (Memory.dispatch stringify sqrt id w' (Memory.Input (Memory.Leave r t))))) = 1%Z).
Proof.
  cbv zeta. unfold Memory.dispatch at 2 3 4 5. unfold Memory.commit, Memory.resetMemory.
  cbn [Memory.hk Memory.pending Memory.memory Memory.currentSession Memory.localStorage].
  split; [reflexivity|]. split; [reflexivity|]. split; [reflexivity|].
  split; [apply lookup_insert_eq|].
  intros Hact r t. unfold Memory.dispatch, Memory.commit, Memory.resetMemory.
  cbn [Memory.hk Memory.pending Memory.memory Memory.currentSession Memory.localStorage
       Memory.handle].
  unfold Memory.onLeave.
  cbn [Memory.currentSession Memory.memory Memory.pending]. rewrite Hact.
  reflexivity.
Qed.

Lemma memory_reset_restores_defaults_witness :
  let w := Memory.dispatch (fun _ => "{}"%string) sqrt_floor "card"
             (Memory.fresh (fun _ => "{}"%string) "card") (Memory.Input (Memory.Enter 100)) in
  Memory.visitCount (Memory.memory (Memory.hk
    (Memory.dispatch (fun _ => "{}"%string) sqrt_floor "card"
       (Memory.dispatch (fun _ => "{}"%string) sqrt_floor "card" w Memory.ResetMemory)
       (Memory.Input (Memory.Leave 100 900))))) = 1%Z.
Proof.
  cbv zeta.
  apply (memory_reset_restores_defaults (fun _ => "{}"%string) sqrt_floor "card").
  reflexivity.
Defined.

Lemma memory_browse_depth sqrt steps : forall h,
  let d' := Memory.sessionScrollDepth (Memory.currentSession
              (Memory.feed sqrt h (memory_browse steps))) in
  let d0 := Memory.sessionScrollDepth (Memory.currentSession h) in
  d0 <= d'
  /\ Forall (fun s => match s with inr d => d <= d' | inl _ => True end) steps
  /\ (d' == d0 \/ Exists (fun s => match s with inr d => d' == d | inl _ => False end) steps).
Proof.
  unfold Memory.feed, memory_browse.
  induction steps as [|s steps IH]; intros h; cbn [map foldl]; cbv zeta.
  - split; [lra|]. split; [constructor|]. left. reflexivity.
  - set (h1 := Memory.handle sqrt _ h).
    destruct (IH h1) as (Ha & Hb & Hc). cbv zeta in Ha, Hb, Hc.
    assert (H1 : Memory.sessionScrollDepth (Memory.currentSession h)
                 <= Memory.sessionScrollDepth (Memory.currentSession h1)
                 /\ match s with
                    | inr d => d <= Memory.sessionScrollDepth (Memory.currentSession h1)
                               /\ (Memory.sessionScrollDepth (Memory.currentSession h1)
                                   == Memory.sessionScrollDepth (Memory.currentSession h)
                                   \/ Memory.sessionScrollDepth (Memory.currentSession h1) == d)
                    | inl _ => Memory.sessionScrollDepth (Memory.currentSession h1)
                               = Memory.sessionScrollDepth (Memory.currentSession h)
                    end).
    { subst h1. destruct s as [[x y]|d]; cbn [Memory.handle fst snd].
      - unfold Memory.onMouseMove.
        destruct (Memory.isActive (Memory.currentSession h)); cbn; split; try lra; reflexivity.
      - cbn [Memory.onScroll Memory.currentSession Memory.sessionScrollDepth].
        qcase_minmax; repeat split; try lra; (left; lra) || (right; lra). }
    destruct H1 as [H1 H2]. split; [lra|]. split.
    + constructor; [|exact Hb]. destruct s as [p|d]; [exact I|]. destruct H2 as [H2 _]. lra.
    + destruct Hc as [Hc|Hc]; [|right; now apply Exists_cons_tl].
      destruct s as [p|d].
      * left. rewrite Hc, H2. reflexivity.
      * destruct H2 as [_ [H2|H2]]; [left; lra|].
        right. apply Exists_cons_hd. lra.
Qed.

(** X17: the scroll depth of a visit is the largest depth reported since
    onEnter, and never below 0: after onEnter and any pointer moves and
    scrolls it is at least every reported depth, and it is either 0 or one
    of the reported depths. *)
Theorem session_scroll_depth_is_maximum sqrt (h : Memory.hook) (t0 : Z)
    (steps : list (Q * Q + Q)) :
  let d := Memory.sessionScrollDepth (Memory.currentSession
             (Memory.feed sqrt h (Memory.Enter t0 :: memory_browse steps))) in
  0 <= d
  /\ Forall (fun s => match s with inr depth => depth <= d | inl _ => True end) steps
  /\ (d == 0 \/ Exists (fun s => match s with inr depth => d == depth | inl _ => False end)
                       steps).
Proof.
  cbv zeta.
  change (Memory.feed sqrt h (Memory.Enter t0 :: memory_browse steps))
    with (Memory.feed sqrt (Memory.onEnter t0 h) (memory_browse steps)).
  exact (memory_browse_depth sqrt steps (Memory.onEnter t0 h)).
Qed.

(** What the card says first.  On a fresh memory the recognition
    message is NEW_CONNECTION; after the first recorded visit, whatever its
    length and whenever the card is rendered, it is PARTIAL_MATCH: one
    visit brings recognition to 0.2 at most, below the 0.7 of FULL_SYNC. *)
Lemma first_recognition_messages sqrt (t r t' c : Z) :
  let m1 := Memory.memory (Memory.feed sqrt (Memory.initialHook Memory.getDefaultMemory)
                             [Memory.Enter t; Memory.Leave r t']) in
  MemoryCard.recognitionMessage (Memory.isReturningUser c Memory.getDefaultMemory)
    Memory.getDefaultMemory = "NEW_CONNECTION"%string
  /\ MemoryCard.recognitionMessage (Memory.isReturningUser c m1) m1 = "PARTIAL_MATCH"%string.
Proof.
  cbv zeta. split; [reflexivity|].
  unfold Memory.feed. cbn [foldl Memory.handle]. rewrite memory_visit_memory.
  unfold MemoryCard.recognitionMessage.
  cbn [Memory.remember Memory.visitCount Memory.recognitionLevel Memory.memory
       Memory.initialHook Memory.getDefaultMemory Memory.interactionType].
  change (0 + 1 =? 0)%Z with false. change (3 <? 0 + 1)%Z with false.
  change (0 + 1 =? 1)%Z with true. rewrite andb_false_r. cbv iota.
  destruct (decayFactor_finite r Memory.getDefaultMemory) as (d & Hd & _).
  cbn [Memory.initialHook Memory.memory] in *. rewrite Hd.
  cbn [JS.mul JS.add_fin JS.min_fin JS.gt_fin].
  match goal with
  | |- context [Memory.recognitionGrowth ?ty] =>
    assert (Hg : Memory.recognitionGrowth ty <= 0.2)
      by (destruct ty; unfold Memory.recognitionGrowth; lra);
    set (g := Memory.recognitionGrowth ty) in *
  end.
  assert (E : Qgtb (Qmin 1 (0 * d + g)) 0.7 = false).
  { apply Qgtb_le. qcase_minmax; lra. }
  rewrite E. reflexivity.
Qed.

Lemma sumQ_from a l : Forall (fun v => 0 <= v) l -> a <= foldl Qplus a l.
Proof.
  revert a. induction l as [|v l IH]; intros a Hall; cbn [foldl]; [lra|].
  apply Forall_cons in Hall as [Hv Hall]. specialize (IH (a + v) Hall). lra.
Qed.

Lemma sumQ_nonneg l : Forall (fun v => 0 <= v) l -> 0 <= JS.sumQ l.
Proof. apply sumQ_from. Qed.

Lemma Forall_velocity_map (l : list Intent.ScrollPattern) :
  Forall (fun p => 0 <= Intent.velocity p) l ->
  Forall (fun v => 0 <= v) (map Intent.velocity l).
Proof. intros H. apply Forall_fmap. exact H. Qed.

Lemma onScroll_velocity_nonneg t y h :
  0 <= (if (0 <? t - Intent.lastScrollTime h)%Z
        then Qabs (y - Intent.lastScrollPosition h)
             / inject_Z (t - Intent.lastScrollTime h) * 1000
        else 0).
Proof.
  destruct (0 <? t - Intent.lastScrollTime h)%Z eqn:E; [|lra].
  apply Z.ltb_lt in E.
  pose proof (Qabs_nonneg (y - Intent.lastScrollPosition h)).
  pose proof (Qdiv_nonneg _ _ H (inject_Z_pos _ E)). lra.
Qed.

Lemma intent_speed_handle a h : intent_speed_inv h -> intent_speed_inv (Intent.handle a h).
Proof.
  intros [Hall Havg].
  destruct a as [t y c|t|t el|t x y w ht|t|t]; cbn [Intent.handle].
  - unfold Intent.onScroll, intent_speed_inv. cbv zeta.
    cbn [Intent.signals Intent.setSignals Intent.scrollPatterns Intent.averageVelocity].
    assert (Hnew : Forall (fun p => 0 <= Intent.velocity p)
              (JS.slice_last 30 (Intent.scrollPatterns (Intent.signals h)) ++
               [{| Intent.timestamp := t;
                   Intent.position := JS.div_fin y c;
                   Intent.velocity :=
                     if (0 <? t - Intent.lastScrollTime h)%Z
                     then Qabs (y - Intent.lastScrollPosition h)
                          / inject_Z (t - Intent.lastScrollTime h) * 1000
                     else 0;
                   Intent.direction :=
                     if Qgtb (y - Intent.lastScrollPosition h) 5 then Intent.down
                     else if Qltb (y - Intent.lastScrollPosition h) (-5) then Intent.up
                     else Intent.none |}])).
    { apply Forall_app. split; [now apply Forall_slice_last|].
      apply Forall_singleton. cbn [Intent.velocity]. apply onScroll_velocity_nonneg. }
    split; [exact Hnew|].
    apply Qdiv_nonneg.
    + apply sumQ_nonneg, Forall_velocity_map, Hnew.
    + apply inject_Z_pos. rewrite length_app. simpl. lia.
  - unfold Intent.onPauseTimeout. destruct (Intent.pauseTimer h); split; assumption.
  - unfold Intent.onFocusChange.
    destruct (Intent.currentFocusElement h) as [cur|]; [|split; assumption].
    destruct (JS.truthy cur); split; assumption.
  - unfold Intent.onMouseMove. cbv zeta.
    match goal with
    | |- context [if ?b then _ else _] => destruct b
    end; split; assumption.
  - split; assumption.
  - split; cbn; [constructor | lra].
Qed.

Lemma intent_commit_signals now h :
  Intent.signals (Intent.commit now h) = Intent.signals h.
Proof. unfold Intent.commit. destruct (Intent.pending h); reflexivity. Qed.

Lemma recentVelocity_nonneg s :
  Forall (fun p => 0 <= Intent.velocity p) (Intent.scrollPatterns s) ->
  0 <= Intent.recentVelocity s.
Proof.
  intros Hall. unfold Intent.recentVelocity.
  match goal with
  | |- context [Qeq_bool ?r 0] => destruct (Qeq_bool r 0); [lra|]
  end.
  apply Qdiv_nonneg; [|lra].
  apply sumQ_nonneg, Forall_velocity_map, Forall_slice_last, Hall.
Qed.

(** X18: speeds are never negative.  Through any sequence of events and
    resets every velocity in the scroll-pattern history is at least 0
    (it is 0 when the clock did not advance since the previous scroll), and
    so are the running average velocity and the recent velocity that
    calculateIntent uses. *)
Theorem intent_speeds_are_not_negative (t0 : Z) (store : gmap string string)
    (l : list Intent.action) :
  let s := Intent.signals (Intent.hk (Intent.run (Intent.mount t0 store) l)) in
  Forall (fun p => 0 <= Intent.velocity p) (Intent.scrollPatterns s)
  /\ 0 <= Intent.averageVelocity s
  /\ 0 <= Intent.recentVelocity s.
Proof.
  cbv zeta.
  assert (Hinv : intent_speed_inv (Intent.hk (Intent.run (Intent.mount t0 store) l))).
  { apply (foldl_invariant (fun w => intent_speed_inv (Intent.hk w))).
    - intros w a Hw. unfold Intent.dispatch. cbn [Intent.hk].
      pose proof (intent_speed_handle a _ Hw) as H'.
      unfold Intent.commit. destruct (Intent.pending (Intent.handle a (Intent.hk w))); exact H'.
    - split; cbn; [constructor | lra]. }
  destruct Hinv as [Ha Hb]. split; [exact Ha|]. split; [exact Hb|].
  now apply recentVelocity_nonneg.
Qed.

(** X19: one sample counts for a fifth.  calculateIntent divides the sum
    of the last five velocities by 5 even when fewer were recorded, so the
    first scroll event on a fresh surface is classified as searching exactly
    when its velocity exceeds 1500 px/s, five times the threshold of 300. *)
Theorem first_scroll_searching_needs_1500 (t0 t now : Z) (scrollY containerHeight : Q) :
  let h := Intent.onScroll t scrollY containerHeight (Intent.initialHook t0) in
  exists p,
    Intent.scrollPatterns (Intent.signals h) = [p]
    /\ (Intent.currentIntent (Intent.calculateIntent now (Intent.signals h)) = Intent.searching
        <-> 1500 < Intent.velocity p).
Proof.
  cbv zeta. unfold Intent.onScroll. cbv zeta.
  cbn [Intent.signals Intent.setSignals Intent.scrollPatterns Intent.initialHook
       Intent.initialSignals JS.slice_last length Nat.sub drop app].
  eexists. split; [reflexivity|].
  cbn [Intent.velocity].
  set (v := if (0 <? t - Intent.lastScrollTime (Intent.initialHook t0))%Z then _ else 0).
  unfold Intent.calculateIntent, Intent.recentVelocity.
  cbn [Intent.scrollPatterns Intent.pauseCount Intent.directionChanges
       JS.slice_last length Nat.sub drop map Intent.velocity JS.sumQ foldl].
  fold v. clearbody v.
  assert (Hdir : forall d, negb (Intent.Direction_eqb d Intent.none)
                   && negb (Intent.Direction_eqb Intent.none Intent.none)
                   && negb (Intent.Direction_eqb d Intent.none) = false).
  { intros d. destruct d; reflexivity. }
  cbn [Intent.lastDirection Intent.initialHook]. rewrite Hdir.
  change (0 <? 2)%Z with true. change (0 <? 3)%Z with true. rewrite !andb_true_r.
  assert (Hdiv : (0 + v) / 5 * 5 == 0 + v) by field.
  destruct (Qeq_bool ((0 + v) / 5) 0) eqn:E0.
  - apply Qeq_bool_eq in E0.
    assert (Hv : v == 0).
    { lra. }
    assert (E : Qgtb 0 300 = false) by reflexivity. rewrite E. cbn [andb].
    split.
    + repeat match goal with
      | |- context [if ?b then _ else _] => destruct b
      end; cbn [Intent.currentIntent]; discriminate.
    + intros H. lra.
  - destruct (Qgtb ((0 + v) / 5) 300) eqn:E.
    + cbn [Intent.currentIntent]. split; [intros _|reflexivity].
      apply Qgtb_gt in E. lra.
    + split.
      * repeat match goal with
        | |- context [if ?b then _ else _] => destruct b
        end; cbn [Intent.currentIntent]; discriminate.
      * intros H. apply Qgtb_le in E. lra.
Qed.

Lemma intent_direction_handle n a h :
  is_reset a = false ->
  intent_direction_inv n h ->
  intent_direction_inv (n + (if is_scroll a then 1 else 0)) (Intent.handle a h).
Proof.
  intros Hr (Hn & H0 & H1 & H2).
  destruct a as [t y c|t|t el|t x y w ht|t|t]; cbn [Intent.handle is_scroll];
    try discriminate; rewrite ?Z.add_0_r.
  - unfold Intent.onScroll, intent_direction_inv. cbv zeta.
    cbn [Intent.signals Intent.setSignals Intent.directionChanges Intent.lastDirection].
    set (d := if Qgtb (y - Intent.lastScrollPosition h) 5 then Intent.down
              else if Qltb (y - Intent.lastScrollPosition h) (-5) then Intent.up
              else Intent.none).
    destruct d, (Intent.lastDirection h) eqn:E; cbn [Intent.Direction_eqb negb andb];
      repeat split; try lia; try (intros _; lia);
      try (assert (1 <= n)%Z by (apply H2; discriminate); lia);
      try (intros Hne; now contradict Hne).
  - unfold Intent.onPauseTimeout. destruct (Intent.pauseTimer h); repeat split; assumption.
  - unfold Intent.onFocusChange.
    destruct (Intent.currentFocusElement h) as [cur|]; [|repeat split; assumption].
    destruct (JS.truthy cur); repeat split; assumption.
  - unfold Intent.onMouseMove. cbv zeta.
    match goal with
    | |- context [if ?b then _ else _] => destruct b
    end; repeat split; assumption.
  - repeat split; assumption.
Qed.

Lemma intent_direction_feed l : forall n h,
  count_events is_reset l = 0%Z ->
  intent_direction_inv n h ->
  intent_direction_inv (n + count_events is_scroll l) (Intent.feed h l).
Proof.
  unfold Intent.feed.
  induction l as [|a l IH]; intros n h Hr Hinv; cbn [foldl].
  - unfold count_events. simpl. now rewrite Z.add_0_r.
  - rewrite count_events_cons in Hr |- *.
    assert (Hra : is_reset a = false).
    { destruct (is_reset a); [|reflexivity]. unfold count_events in Hr. lia. }
    rewrite Hra in Hr.
    replace (n + ((if is_scroll a then 1 else 0) + count_events is_scroll l))%Z
      with (n + (if is_scroll a then 1 else 0) + count_events is_scroll l)%Z by lia.
    apply IH; [lia|]. now apply intent_direction_handle.
Qed.

(** X20: a direction change needs two scrolls.  On a fresh surface, as
    long as the signals are not reset, the direction-change counter is at
    most the number of scroll events minus one: the first scroll has no
    previous direction to differ from. *)
Theorem direction_changes_follow_scrolls (t0 : Z) (l : list Intent.action) :
  count_events is_reset l = 0%Z ->
  let s := Intent.signals (Intent.feed (Intent.initialHook t0) l) in
  (0 <= Intent.directionChanges s <= Z.max 0 (count_events is_scroll l - 1))%Z.
Proof.
  intros Hr. cbv zeta.
  destruct (intent_direction_feed l 0 (Intent.initialHook t0) Hr) as (_ & H0 & H1 & _).
  { repeat split; cbn; try lia. intros H. now contradict H. }
  rewrite Z.add_0_l in H1. lia.
Qed.

Lemma direction_changes_follow_scrolls_witness :
  (0 <= Intent.directionChanges (Intent.signals (Intent.feed (Intent.initialHook 0)
     [Intent.Scroll 100 40 1000; Intent.Scroll 200 0 1000; Intent.Scroll 300 40 1000]))
   <= 2)%Z.
Proof.
  apply (direction_changes_follow_scrolls 0
    [Intent.Scroll 100 40 1000; Intent.Scroll 200 0 1000; Intent.Scroll 300 40 1000]).
  reflexivity.
Defined.

Lemma intent_pause_handle n a h :
  intent_pause_inv n h ->
  intent_pause_inv (n + (if is_scroll a then 1 else 0)) (Intent.handle a h).
Proof.
  intros (H0 & H1).
  destruct a as [t y c|t|t el|t x y w ht|t|t]; cbn [Intent.handle is_scroll];
    rewrite ?Z.add_0_r.
  - unfold Intent.onScroll, intent_pause_inv. cbv zeta.
    cbn [Intent.signals Intent.setSignals Intent.pauseCount Intent.pauseTimer].
    destruct (Intent.pauseTimer h); split; lia.
  - unfold Intent.onPauseTimeout, intent_pause_inv.
    destruct (Intent.pauseTimer h) eqn:E; cbn [negb];
      cbn [Intent.signals Intent.setSignals Intent.pauseCount Intent.pauseTimer];
      rewrite ?E; split; lia.
  - unfold Intent.onFocusChange.
    destruct (Intent.currentFocusElement h) as [cur|]; [|split; assumption].
    destruct (JS.truthy cur); split; assumption.
  - unfold Intent.onMouseMove. cbv zeta.
    match goal with
    | |- context [if ?b then _ else _] => destruct b
    end; split; assumption.
  - split; assumption.
  - unfold intent_pause_inv. cbn. destruct (Intent.pauseTimer h); split; lia.
Qed.

(** X21: every pause follows a scroll.  Through any sequence of events and
    resets on a fresh surface the pause counter is at most the number of
    scroll events: the pause timer is armed only by a scroll, each scroll
    re-arms the one timer, and an expired timer does not count twice. *)
Theorem pauses_follow_scrolls (t0 : Z) (l : list Intent.action) :
  let s := Intent.signals (Intent.feed (Intent.initialHook t0) l) in
  (0 <= Intent.pauseCount s <= count_events is_scroll l)%Z.
Proof.
  cbv zeta.
  assert (Hgen : forall l n h, intent_pause_inv n h ->
            intent_pause_inv (n + count_events is_scroll l) (Intent.feed h l)).
  { clear l. unfold Intent.feed.
    induction l as [|a l IH]; intros n h Hinv; cbn [foldl].
    - unfold count_events. simpl. now rewrite Z.add_0_r.
    - rewrite count_events_cons.
      replace (n + ((if is_scroll a then 1 else 0) + count_events is_scroll l))%Z
        with (n + (if is_scroll a then 1 else 0) + count_events is_scroll l)%Z by lia.
      apply IH. now apply intent_pause_handle. }
  destruct (Hgen l 0%Z (Intent.initialHook t0)) as (H0 & H1).
  { split; cbn; lia. }
  destruct (Intent.pauseTimer _); lia.
Qed.

Lemma calculateIntent_cases (now : Z) (s : Intent.IntentSignals) :
  let p := Intent.calculateIntent now s in
  let v := Intent.recentVelocity s in
  Intent.suggestedLayout p = Intent.layoutFor (Intent.currentIntent p)
  /\ match Intent.currentIntent p with
     | Intent.searching =>
         300 < v /\ (Intent.pauseCount s < 2)%Z /\ (Intent.directionChanges s < 3)%Z
     | Intent.reading =>
         v < 100 /\ (3 < Intent.pauseCount s)%Z /\ 1000 < Intent.avgFocusDuration s
     | Intent.comparing =>
         (5 < Intent.directionChanges s)%Z /\ 50 < v /\ v < 300
     | Intent.deciding =>
         (5 < Intent.pauseCount s)%Z /\ v < 50 /\ 500 < Intent.avgFocusDuration s
     | Intent.leaving =>
         (5000 < now - Intent.lastActivity s)%Z
         \/ (500 < v /\ ((2 <= Intent.pauseCount s)%Z \/ (3 <= Intent.directionChanges s)%Z))
     | Intent.browsing =>
         (now - Intent.lastActivity s <= 5000)%Z /\ v <= 500
     end.
Proof.
  cbv zeta. unfold Intent.calculateIntent.
  repeat match goal with
  | |- context [if ?b then _ else _] =>
    let E := fresh "E" in destruct b eqn:E
  end; cbn [Intent.currentIntent Intent.suggestedLayout]; (split; [reflexivity|]);
  repeat match goal with
  | H : _ && _ = true |- _ => apply andb_prop in H as [? ?]
  | H : _ && _ = false |- _ => apply andb_false_iff in H as [?|?]
  | H : _ || _ = true |- _ => apply orb_prop in H as [?|?]
  | H : _ || _ = false |- _ => apply orb_false_elim in H as [? ?]
  | H : Qgtb _ _ = true |- _ => apply Qgtb_gt in H
  | H : Qgtb _ _ = false |- _ => apply Qgtb_le in H
  | H : Qltb _ _ = true |- _ => apply Qltb_lt in H
  | H : Qltb _ _ = false |- _ => apply Qltb_ge in H
  | H : (_ <? _)%Z = true |- _ => apply Z.ltb_lt in H
  | H : (_ <? _)%Z = false |- _ => apply Z.ltb_ge in H
  end;
  try solve [repeat split; solve [assumption | lia | lra]];
  try solve [left; lia];
  try solve [right; split; [assumption | solve [left; lia | right; lia]]];
  try solve [right; split; [assumption | lra]].
Qed.

(** X22: what each intent requires, and the layout that goes with it.
    The suggested layout is the table entry of the intent.  searching needs
    a recent velocity above 300 with fewer than 2 pauses and fewer than 3
    direction changes; reading a velocity below 100, more than 3 pauses and
    an average focus above 1000ms; comparing more than 5 direction changes
    and a velocity between 50 and 300; deciding more than 5 pauses, a
    velocity below 50 and an average focus above 500ms; leaving more than
    5000ms without activity, or a velocity above 500 together with at least 2
    pauses or 3 direction changes; browsing at most 5000ms without activity
    and a velocity of at most 500. *)
Theorem intent_requirements (now : Z) (s : Intent.IntentSignals) :
  let p := Intent.calculateIntent now s in
  let v := Intent.recentVelocity s in
  Intent.suggestedLayout p = Intent.layoutFor (Intent.currentIntent p)
  /\ match Intent.currentIntent p with
     | Intent.searching =>
         300 < v /\ (Intent.pauseCount s < 2)%Z /\ (Intent.directionChanges s < 3)%Z
     | Intent.reading =>
         v < 100 /\ (3 < Intent.pauseCount s)%Z /\ 1000 < Intent.avgFocusDuration s
     | Intent.comparing =>
         (5 < Intent.directionChanges s)%Z /\ 50 < v /\ v < 300
     | Intent.deciding =>
         (5 < Intent.pauseCount s)%Z /\ v < 50 /\ 500 < Intent.avgFocusDuration s
     | Intent.leaving =>
         (5000 < now - Intent.lastActivity s)%Z
         \/ (500 < v /\ ((2 <= Intent.pauseCount s)%Z \/ (3 <= Intent.directionChanges s)%Z))
     | Intent.browsing =>
         (now - Intent.lastActivity s <= 5000)%Z /\ v <= 500
     end.
Proof. apply calculateIntent_cases. Qed.

(** X23: a pointer move never feeds the leaving rule.  Away from the
    edges (50px) onMouseMove changes nothing.  Near an edge it only sets
    lastActivity to the clock: the scroll history, the counters and the
    focus history are untouched, and the profile computed at that moment
    can be leaving only through a recent velocity above 500, never through
    idleness. *)
Theorem pointer_at_edge_only_refreshes_activity (now : Z) (x y w ht : Q) (h : Intent.hook) :
  let h' := Intent.onMouseMove now x y w ht h in
  ((50 <= x /\ x <= w - 50 /\ 50 <= y /\ y <= ht - 50) -> h' = h)
  /\ (~ (50 <= x /\ x <= w - 50 /\ 50 <= y /\ y <= ht - 50) ->
      Intent.signals h' = Intent.touch now (Intent.signals h)
      /\ (Intent.currentIntent (Intent.calculateIntent now (Intent.signals h')) = Intent.leaving
          -> 500 < Intent.recentVelocity (Intent.signals h))).
Proof.
  cbv zeta. unfold Intent.onMouseMove. cbv zeta.
  destruct (Qltb x 50 || Qgtb x (w - 50) || Qltb y 50 || Qgtb y (ht - 50)) eqn:E.
  - split.
    + intros (H1 & H2 & H3 & H4).
      apply Qltb_ge in H1, H3. apply Qgtb_le in H2, H4.
      rewrite H1, H2, H3, H4 in E. discriminate.
    + intros _. split; [reflexivity|].
      cbn [Intent.signals Intent.setSignals].
      pose proof (calculateIntent_cases now (Intent.touch now (Intent.signals h))) as Hreq.
      cbv zeta in Hreq. destruct Hreq as [_ Hreq]. intros Hl. rewrite Hl in Hreq.
      cbn [Intent.touch Intent.lastActivity] in Hreq.
      destruct Hreq as [Hidle|[Hv _]]; [lia|exact Hv].
  - split; [reflexivity|].
    intros Hn. exfalso. apply Hn.
    apply orb_false_elim in E as [E E4]. apply orb_false_elim in E as [E E3].
    apply orb_false_elim in E as [E1 E2].
    apply Qltb_ge in E1, E3. apply Qgtb_le in E2, E4. repeat split; assumption.
Qed.

Lemma pointer_at_edge_only_refreshes_activity_witness :
  Intent.onMouseMove 9000 200 150 400 300 (Intent.initialHook 0) = Intent.initialHook 0
  /\ Intent.lastActivity (Intent.signals
       (Intent.onMouseMove 9000 10 150 400 300 (Intent.initialHook 0))) = 9000%Z.
Proof.
  destruct (pointer_at_edge_only_refreshes_activity 9000 200 150 400 300 (Intent.initialHook 0))
    as [Hin _].
  destruct (pointer_at_edge_only_refreshes_activity 9000 10 150 400 300 (Intent.initialHook 0))
    as [_ Hout].
  split.
  - apply Hin. repeat split; vm_compute; discriminate.
  - destruct Hout as [Hs _].
    + intros (H & _). revert H. vm_compute. intros H. apply H. reflexivity.
    + rewrite Hs. reflexivity.
Defined.

(** X24: resetSignals restores the initial signals, stamped with the clock,
    and the profile computed from them is the default one (browsing,
    confidence 0.5, attention 0.5, urgency 0.3, layout expanded).  It does
    not touch the scroll refs or the pause timer: a timer armed before the
    reset still fires after it and counts a pause on the fresh signals. *)
Theorem intent_reset_restores_defaults (w : Intent.world) (now : Z) :
  let w' := Intent.dispatch w (Intent.ResetSignals now) in
  Intent.signals (Intent.hk w') = Intent.initialSignals now
  /\ Intent.profile (Intent.hk w') = Intent.initialProfile
  /\ Intent.lastDirection (Intent.hk w') = Intent.lastDirection (Intent.hk w)
  /\ Intent.lastScrollPosition (Intent.hk w') = Intent.lastScrollPosition (Intent.hk w)
  /\ Intent.pauseTimer (Intent.hk w') = Intent.pauseTimer (Intent.hk w)
  /\ (Intent.pauseTimer (Intent.hk w) = true ->
      forall t, Intent.pauseCount (Intent.signals (Intent.hk
                  (Intent.dispatch w' (Intent.PauseTimeout t)))) = 1%Z).
Proof.
  cbv zeta. unfold Intent.dispatch at 2 3 4 5 6.
  cbn [Intent.hk Intent.handle Intent.clock Intent.resetSignals Intent.setSignals
       Intent.commit Intent.pending Intent.signals Intent.profile Intent.lastDirection
       Intent.lastScrollPosition Intent.pauseTimer].
  split; [reflexivity|]. split.
  { unfold Intent.calculateIntent, Intent.recentVelocity, Intent.avgFocusDuration.
    cbn [Intent.initialSignals Intent.scrollPatterns Intent.focusEvents Intent.pauseCount
         Intent.directionChanges Intent.lastActivity].
    rewrite Z.sub_diag. reflexivity. }
  split; [reflexivity|]. split; [reflexivity|]. split; [reflexivity|].
  intros Harmed t. unfold Intent.dispatch.
  cbn [Intent.hk Intent.handle Intent.clock Intent.resetSignals Intent.setSignals
       Intent.commit Intent.pending Intent.signals Intent.profile Intent.pauseTimer].
  unfold Intent.onPauseTimeout.
  cbn [Intent.pauseTimer]. rewrite Harmed. cbn [negb].
  cbn [Intent.setSignals Intent.signals Intent.pending Intent.commit Intent.pauseCount
       Intent.initialSignals].
  reflexivity.
Qed.

Lemma intent_reset_restores_defaults_witness :
  Intent.pauseCount (Intent.signals (Intent.hk
    (Intent.run (Intent.mount 0 ∅)
       [Intent.Scroll 100 40 1000; Intent.ResetSignals 200; Intent.PauseTimeout 900])))
  = 1%Z.
Proof.
  unfold Intent.run. cbn [foldl].
  apply (intent_reset_restores_defaults
           (Intent.dispatch (Intent.mount 0 ∅) (Intent.Scroll 100 40 1000)) 200).
  reflexivity.
Defined.

Lemma intent_focus_handle n a h :
  intent_focus_inv n h ->
  intent_focus_inv (n + (if is_focus_change a then 1 else 0)) (Intent.handle a h).
Proof.
  intros (Hn & H21 & Hlen & Hcur).
  destruct a as [t y c|t|t el|t x y w ht|t|t]; cbn [Intent.handle is_focus_change];
    rewrite ?Z.add_0_r.
  - unfold Intent.onScroll. cbv zeta. repeat split; assumption.
  - unfold Intent.onPauseTimeout. destruct (Intent.pauseTimer h); repeat split; assumption.
  - unfold Intent.onFocusChange, intent_focus_inv.
    destruct (Intent.currentFocusElement h) as [cur|] eqn:E.
    + assert (1 <= n)%Z by (apply Hcur; discriminate).
      destruct (JS.truthy cur);
        cbn [Intent.set_focus Intent.signals Intent.setSignals Intent.focusEvents
             Intent.currentFocusElement];
        rewrite ?length_slice_push; repeat split; try lia.
    + cbn [Intent.set_focus Intent.signals Intent.focusEvents Intent.currentFocusElement].
      repeat split; try lia.
  - unfold Intent.onMouseMove. cbv zeta.
    match goal with
    | |- context [if ?b then _ else _] => destruct b
    end; repeat split; assumption.
  - repeat split; assumption.
  - unfold intent_focus_inv. cbn. repeat split; try lia. exact Hcur.
Qed.

(** X25: focus events are recorded on leaving an element.  Through any
    sequence of events and resets on a fresh surface the focus history holds
    at most 21 events and at most one event less than there were focus
    changes: the first focus change has no element to leave. *)
Theorem focus_events_follow_focus_changes (t0 : Z) (l : list Intent.action) :
  let s := Intent.signals (Intent.feed (Intent.initialHook t0) l) in
  (length (Intent.focusEvents s) <= 21)%nat
  /\ (Z.of_nat (length (Intent.focusEvents s))
      <= Z.max 0 (count_events is_focus_change l - 1))%Z.
Proof.
  cbv zeta.
  assert (Hgen : forall l n h, intent_focus_inv n h ->
            intent_focus_inv (n + count_events is_focus_change l) (Intent.feed h l)).
  { clear l. unfold Intent.feed.
    induction l as [|a l IH]; intros n h Hinv; cbn [foldl].
    - unfold count_events. simpl. now rewrite Z.add_0_r.
    - rewrite count_events_cons.
      replace (n + ((if is_focus_change a then 1 else 0) + count_events is_focus_change l))%Z
        with (n + (if is_focus_change a then 1 else 0) + count_events is_focus_change l)%Z
        by lia.
      apply IH. now apply intent_focus_handle. }
  destruct (Hgen l 0%Z (Intent.initialHook t0)) as (_ & H21 & Hlen & _).
  { repeat split; cbn; try lia. intros H. now contradict H. }
  split; [exact H21|]. rewrite Z.add_0_l in Hlen. exact Hlen.
Qed.

(** X26: the surface layout by intent.  On a wide screen the surface shows
    3 columns when the intent is searching, 1 column with the detail of each
    item when it is reading or deciding, 4 columns when it is leaving and
    2 columns when it is browsing or comparing; the secondary line of the
    items is hidden exactly for searching and leaving; the ambient pulse lasts
    between 1 and 3 seconds.  On a narrow screen there is always 1 column. *)
Theorem surface_layout_by_intent (now : Z) (s : Intent.IntentSignals) :
  let p := Intent.calculateIntent now s in
  let layout := Intent.suggestedLayout p in
  IntentSurface.columns (IntentSurface.layoutStyle false layout)
  = match Intent.currentIntent p with
    | Intent.searching => 3%Z
    | Intent.reading | Intent.deciding => 1%Z
    | Intent.leaving => 4%Z
    | Intent.browsing | Intent.comparing => 2%Z
    end
  /\ IntentSurface.showDetail layout
     = match Intent.currentIntent p with
       | Intent.reading | Intent.deciding => true
       | _ => false
       end
  /\ IntentSurface.showSecondary layout
     = match Intent.currentIntent p with
       | Intent.searching | Intent.leaving => false
       | _ => true
       end
  /\ IntentSurface.columns (IntentSurface.layoutStyle true layout) = 1%Z
  /\ 1 <= IntentSurface.pulseDuration p <= 3.
Proof.
  cbv zeta.
  destruct (calculateIntent_cases now s) as [Hl _]. cbv zeta in Hl. rewrite Hl.
  destruct (calculateIntent_unit now s) as (_ & _ & [Hu0 Hu1]). cbv zeta in Hu0, Hu1.
  unfold IntentSurface.pulseDuration.
  destruct (Intent.currentIntent (Intent.calculateIntent now s));
    repeat split; try reflexivity; lra.
Qed.

Lemma behavior_nonneg_dispatch stringify sqrt id w a :
  (0 <= Behavior.clickCount (Behavior.metrics (Behavior.hk w))
   /\ 0 <= Behavior.hoverCount (Behavior.metrics (Behavior.hk w)))%Z ->
  (0 <= Behavior.clickCount (Behavior.metrics (Behavior.hk
          (Behavior.dispatch stringify sqrt id w a)))
   /\ 0 <= Behavior.hoverCount (Behavior.metrics (Behavior.hk
          (Behavior.dispatch stringify sqrt id w a))))%Z.
Proof.
  intros [Hc Hh].
  assert (Hsame : Behavior.metrics (Behavior.hk (Behavior.dispatch stringify sqrt id w a))
                  = Behavior.metrics
                      match a with
                      | Behavior.Input e => Behavior.handle sqrt e (Behavior.hk w)
                      | Behavior.ResetProfile => Behavior.hk (Behavior.resetProfile id w)
                      end).
  { unfold Behavior.dispatch. destruct (behavior_commit_same stringify id
      match a with
      | Behavior.Input e =>
          {| Behavior.hk := Behavior.handle sqrt e (Behavior.hk w);
             Behavior.localStorage := Behavior.localStorage w |}
      | Behavior.ResetProfile => Behavior.resetProfile id w
      end) as [-> _]. destruct a; reflexivity. }
  rewrite Hsame. destruct a as [e|]; [|cbn; lia].
  destruct (behavior_feed_counters sqrt (Behavior.hk w) [e]) as (E1 & E2 & _).
  cbv zeta in E1, E2. unfold Behavior.feed in E1, E2. cbn [foldl] in E1, E2.
  rewrite E1, E2. unfold count_events. lia.
Qed.

(** X27: the visual fingerprint of the button stays in range.  Through any
    sequence of events and resets on a fresh hook the hue shift the button
    derives from the click and hover counters lies between -15 and 14 and the
    morph factor between 0.8 and 0.99. *)
Theorem fingerprint_in_range stringify sqrt id (l : list Behavior.action) :
  let m := Behavior.metrics (Behavior.hk
             (Behavior.run stringify sqrt id (Behavior.fresh stringify id) l)) in
  (-15 <= CognitiveButton.hueShift (CognitiveButton.fingerprint m) <= 14)%Z
  /\ 0.8 <= CognitiveButton.morphFactor (CognitiveButton.fingerprint m)
  /\ CognitiveButton.morphFactor (CognitiveButton.fingerprint m) <= 0.99.
Proof.
  cbv zeta.
  assert (Hinv : (0 <= Behavior.clickCount (Behavior.metrics (Behavior.hk
                     (Behavior.run stringify sqrt id (Behavior.fresh stringify id) l)))
                  /\ 0 <= Behavior.hoverCount (Behavior.metrics (Behavior.hk
                     (Behavior.run stringify sqrt id (Behavior.fresh stringify id) l))))%Z).
  { apply (foldl_invariant (fun w =>
      (0 <= Behavior.clickCount (Behavior.metrics (Behavior.hk w))
       /\ 0 <= Behavior.hoverCount (Behavior.metrics (Behavior.hk w)))%Z)).
    - intros w a. apply behavior_nonneg_dispatch.
    - cbn. lia. }
  destruct Hinv as [Hc Hh].
  set (m := Behavior.metrics _) in *.
  unfold CognitiveButton.fingerprint.
  cbn [CognitiveButton.hueShift CognitiveButton.morphFactor].
  set (seed := (Behavior.clickCount m * 7 + Behavior.hoverCount m * 3)%Z).
  assert (Hseed : (0 <= seed)%Z) by (subst seed; lia).
  pose proof (Z.rem_bound_pos seed 30 Hseed ltac:(lia)) as H30.
  pose proof (Z.rem_bound_pos seed 20 Hseed ltac:(lia)) as H20.
  split; [lia|].
  assert (Hlo : 0 <= inject_Z (Z.rem seed 20) / 100).
  { apply Qdiv_nonneg; [apply inject_Z_nonneg; lia | lra]. }
  assert (Hhi : inject_Z (Z.rem seed 20) / 100 <= 0.19).
  { apply Qle_shift_div_r; [lra|].
    assert (H19 : inject_Z (Z.rem seed 20) <= inject_Z 19) by (rewrite <- Zle_Qle; lia).
    change (inject_Z 19) with 19 in H19. lra. }
  split; lra.
Qed.

Lemma button_never_retreats (evs : list CognitiveButton.event) :
  count_events is_approach_retreat (map CognitiveButton.forward evs) = 0%Z.
Proof.
  unfold count_events. induction evs as [|e evs IH]; [reflexivity|].
  destruct e; cbn [map CognitiveButton.forward List.filter is_approach_retreat]; exact IH.
Qed.

(** X28: what the button can make of its user.  CognitiveButton forwards
    hover starts, hover ends, pointer moves and clicks and never calls
    onApproachRetreat, so on a fresh hook the retreat counter stays 0: the
    personality is inviting only after more than 5 hovers without click, and
    hesitant only with an average click latency above 1500ms. *)
Theorem button_personalities sqrt (evs : list CognitiveButton.event) :
  let m := Behavior.metrics
             (Behavior.feed sqrt (Behavior.initialHook Behavior.getDefaultMetrics)
                (map CognitiveButton.forward evs)) in
  Behavior.approachRetreatCount m = 0%Z
  /\ match Behavior.personality (Behavior.calculateProfile m) with
     | Behavior.inviting => (5 < Behavior.hoverWithoutClick m)%Z
     | Behavior.hesitant => 1500 < Behavior.avgClickSpeed m
     | _ => True
     end.
Proof.
  cbv zeta.
  destruct (behavior_feed_counters sqrt (Behavior.initialHook Behavior.getDefaultMetrics)
              (map CognitiveButton.forward evs)) as (_ & _ & Hr & _).
  cbv zeta in Hr. rewrite button_never_retreats in Hr.
  cbn [Behavior.initialHook Behavior.metrics Behavior.getDefaultMetrics
       Behavior.approachRetreatCount] in Hr.
  set (m := Behavior.metrics _) in *.
  split; [exact Hr|].
  pose proof (calculateProfile_cases m) as Hc. cbv zeta in Hc.
  destruct (Behavior.personality (Behavior.calculateProfile m)); try exact I.
  - destruct Hc as [Hc|Hc]; [exact Hc | lia].
  - destruct Hc as ([Hc|Hc] & _); [lia | exact Hc].
Qed.

Lemma onClick_effect now (h : Behavior.hook) :
  let m := Behavior.metrics h in
  let m' := Behavior.metrics (Behavior.onClick now h) in
  Behavior.clickCount m' = (Behavior.clickCount m + 1)%Z
  /\ Behavior.clickSpeed m'
     = JS.slice_last 10 (Behavior.clickSpeed m) ++ [(now - Behavior.hoverStartTime h)%Z]
  /\ Behavior.hoverWithoutClick m' = Z.max 0 (Behavior.hoverWithoutClick m - 1)
  /\ Behavior.lastInteractionTime m' = now.
Proof. repeat split. Qed.

Lemma glow_slice_length {A : Type} (n : Z) (l : list A) :
  (0 < n)%Z -> (Z.of_nat (length (CursorGlow.slice (- n) l)) <= n)%Z.
Proof.
  intros Hn. unfold CursorGlow.slice. cbv zeta.
  assert (E : (- n <? 0)%Z = true) by (apply Z.ltb_lt; lia). rewrite E.
  rewrite length_drop. lia.
Qed.

Lemma glow_slice_Forall {A : Type} (P : A -> Prop) (start : Z) (l : list A) :
  Forall P l -> Forall P (CursorGlow.slice start l).
Proof. unfold CursorGlow.slice. cbv zeta. apply Forall_drop. Qed.

Lemma length_filter_le {A : Type} (p : A -> bool) (l : list A) :
  (length (List.filter p l) <= length l)%nat.
Proof.
  induction l as [|a l IH]; [reflexivity|]. cbn [List.filter].
  destruct (p a); simpl; lia.
Qed.

Lemma glow_handle_inv config a h :
  (0 < CursorGlow.trailLength config)%Z ->
  0 <= CursorGlow.decay config <= 1 ->
  glow_inv (CursorGlow.trailLength config) h ->
  glow_inv (CursorGlow.trailLength config) (CursorGlow.handle config a h).
Proof.
  intros Hn [Hd0 Hd1] [Hlen Hall]. destruct a as [now cx cy| |]; cbn [CursorGlow.handle].
  - unfold CursorGlow.handleMouseMove, glow_inv. cbv zeta. cbn [CursorGlow.trail]. split.
    + now apply glow_slice_length.
    + apply glow_slice_Forall, Forall_app. split; [exact Hall|].
      apply Forall_singleton. cbn [CursorGlow.intensity]. lra.
  - unfold CursorGlow.onDecay, glow_inv. cbn [CursorGlow.trail]. split.
    + pose proof (length_filter_le (fun point => Qgtb (CursorGlow.intensity point) 0.01)
        (map (fun point =>
                {| CursorGlow.x := CursorGlow.x point; CursorGlow.y := CursorGlow.y point;
                   CursorGlow.intensity := CursorGlow.intensity point * CursorGlow.decay config;
                   CursorGlow.timestamp := CursorGlow.timestamp point |})
             (CursorGlow.trail h))) as Hf.
      rewrite length_map in Hf. lia.
    + apply List.Forall_forall. intros p Hp. apply List.filter_In in Hp as [Hp Hgt].
      apply List.in_map_iff in Hp as (q & <- & Hq).
      rewrite List.Forall_forall in Hall. specialize (Hall q Hq). destruct Hall as [Hq0 Hq1].
      cbn [CursorGlow.intensity] in *. apply Qgtb_gt in Hgt. split; [exact Hgt|]. nra.
  - unfold CursorGlow.onMoveTimeout. destruct (CursorGlow.moveTimeout h); split; assumption.
Qed.

(** X29: the glow trail keeps its declared length.  For a positive
    trailLength and a decay between 0 and 1, through any sequence of pointer
    moves, decay ticks and timeouts the trail holds at most trailLength points
    (the new point is appended before the trail is cut), and every point in
    it has an intensity above 0.01 and at most 1. *)
Theorem glow_trail_bounded config (t0 : Z) (l : list CursorGlow.action) :
  (0 < CursorGlow.trailLength config)%Z ->
  0 <= CursorGlow.decay config <= 1 ->
  let trail := CursorGlow.trail (CursorGlow.feed config (CursorGlow.initialHook t0) l) in
  (Z.of_nat (length trail) <= CursorGlow.trailLength config)%Z
  /\ Forall (fun point => 0.01 < CursorGlow.intensity point /\ CursorGlow.intensity point <= 1)
            trail.
Proof.
  intros Hn Hd. cbv zeta.
  apply (foldl_invariant (glow_inv (CursorGlow.trailLength config))).
  - intros h a. now apply glow_handle_inv.
  - split; cbn; [lia | constructor].
Qed.

Lemma glow_trail_bounded_witness :
  (Z.of_nat (length (CursorGlow.trail
     (CursorGlow.feed CursorGlow.defaultConfig (CursorGlow.initialHook 0)
        (map (fun i => CursorGlow.MouseMove (Z.of_nat i) 5 5) (seq 1 20))))) <= 8)%Z.
Proof.
  apply (glow_trail_bounded CursorGlow.defaultConfig 0).
  - reflexivity.
  - split; vm_compute; discriminate.
Defined.

Lemma repeat_snoc {A : Type} (a : A) (n : nat) : repeat a (S n) = repeat a n ++ [a].
Proof. induction n as [|n IH]; [reflexivity|]. cbn [repeat app] in *. now rewrite <- IH. Qed.

Lemma glow_after_nonneg k : 0 <= glow_after k.
Proof.
  induction k as [|k IH]; cbn [glow_after]; [lra|].
  change (CursorGlow.decay CursorGlow.defaultConfig) with 0.92. nra.
Qed.

Lemma glow_decay_bound (h : CursorGlow.hook) (c : Q) :
  0 <= c ->
  Forall (fun point => CursorGlow.intensity point <= c) (CursorGlow.trail h) ->
  Forall (fun point => 0.01 < CursorGlow.intensity point
                       /\ CursorGlow.intensity point
                          <= c * CursorGlow.decay CursorGlow.defaultConfig)
         (CursorGlow.trail (CursorGlow.onDecay CursorGlow.defaultConfig h)).
Proof.
  intros Hc Hall. unfold CursorGlow.onDecay. cbn [CursorGlow.trail].
  apply List.Forall_forall. intros p Hp. apply List.filter_In in Hp as [Hp Hgt].
  apply List.in_map_iff in Hp as (q & <- & Hq).
  rewrite List.Forall_forall in Hall. specialize (Hall q Hq).
  cbn [CursorGlow.intensity] in *. apply Qgtb_gt in Hgt. split; [exact Hgt|].
  change (CursorGlow.decay CursorGlow.defaultConfig) with 0.92 in *. nra.
Qed.

Lemma glow_decays_bound k : forall h,
  Forall (fun point => CursorGlow.intensity point <= 1) (CursorGlow.trail h) ->
  Forall (fun point => CursorGlow.intensity point <= glow_after k)
         (CursorGlow.trail (CursorGlow.feed CursorGlow.defaultConfig h
                              (repeat CursorGlow.Decay k))).
Proof.
  induction k as [|k IH]; intros h Hall.
  - exact Hall.
  - rewrite repeat_snoc.
    unfold CursorGlow.feed. rewrite foldl_app. cbn [foldl CursorGlow.handle].
    specialize (IH h Hall). unfold CursorGlow.feed in IH.
    pose proof (glow_decay_bound _ _ (glow_after_nonneg k) IH) as Hb.
    cbn [glow_after]. eapply Forall_impl; [exact Hb|]. intros p [_ Hp]. exact Hp.
Qed.

(** X30: the glow fades out in 56 ticks.  With the default configuration
    (decay 0.92, trail of 8), whatever the pointer did before, 56 decay
    ticks without a pointer move leave the trail empty; a point added by a
    move is still in the trail after 55 ticks. *)
Theorem glow_fades_out_in_56_ticks (t0 : Z) (l : list CursorGlow.action) :
  let h := CursorGlow.feed CursorGlow.defaultConfig (CursorGlow.initialHook t0) l in
  CursorGlow.trail (CursorGlow.feed CursorGlow.defaultConfig h (repeat CursorGlow.Decay 56))
  = []
  /\ forall now x y,
       length (CursorGlow.trail
         (CursorGlow.feed CursorGlow.defaultConfig (CursorGlow.initialHook t0)
            (CursorGlow.MouseMove now x y :: repeat CursorGlow.Decay 55))) = 1%nat.
Proof.
  cbv zeta. split.
  - set (h := CursorGlow.feed CursorGlow.defaultConfig (CursorGlow.initialHook t0) l).
    assert (H1 : Forall (fun point => CursorGlow.intensity point <= 1) (CursorGlow.trail h)).
    { assert (Hinv : glow_inv 8 h).
      { apply (foldl_invariant (glow_inv 8)).
        - intros h0 a. apply (glow_handle_inv CursorGlow.defaultConfig); [reflexivity|].
          split; vm_compute; discriminate.
        - split; cbn; [lia | constructor]. }
      destruct Hinv as [_ Hall]. eapply Forall_impl; [exact Hall|]. intros p [_ Hp]. exact Hp. }
    pose proof (glow_decays_bound 55 h H1) as H55.
    pose proof (glow_decay_bound _ _ (glow_after_nonneg 55) H55) as H56.
    rewrite (repeat_snoc CursorGlow.Decay 55).
    unfold CursorGlow.feed at 1. rewrite foldl_app. cbn [foldl CursorGlow.handle].
    fold (CursorGlow.feed CursorGlow.defaultConfig h (repeat CursorGlow.Decay 55)).
    destruct (CursorGlow.trail (CursorGlow.onDecay CursorGlow.defaultConfig _))
      as [|p rest]; [reflexivity|].
    apply Forall_cons in H56 as [[Hlo Hhi] _]. exfalso.
    assert (Hsmall : glow_after 55 * CursorGlow.decay CursorGlow.defaultConfig < 0.01)
      by (vm_compute; reflexivity).
    lra.
  - intros now x y. vm_compute. reflexivity.
Qed.

